(** * espn_tables: header resolution and table formatting

    A shallow embedding of [espn_tables/espn_tables.py] (classes [League]
    and [Team]).  Python values are modelled by inductive types, raised
    exceptions by the [Raise] constructor of [result], and the in-place
    mutation of a DataFrame argument by explicit state passing. *)

From Stdlib Require Import Bool Ascii String List ZArith Lia.
From Stdlib Require Import Numbers.DecimalString.
Import ListNotations.

Local Open Scope string_scope.
Local Open Scope list_scope.
Local Open Scope Z_scope.

(* ================================================================= *)
(** * Python values, exceptions and sequence operations *)

Module Py.

(** The exception classes the modelled code can raise. *)
Inductive exn : Type :=
| IndexError
| KeyError
| ValueError
| TypeError
| AttributeError
| AssertionError
| UnboundLocalError
| UnicodeError.

Inductive result (A : Type) : Type :=
| Ok (a : A)
| Raise (e : exn).
Arguments Ok {A} a.
Arguments Raise {A} e.

Definition bind {A B} (m : result A) (f : A -> result B) : result B :=
  match m with
  | Ok a => f a
  | Raise e => Raise e
  end.

(** [for x in xs: ...] with a body that may raise. *)
Fixpoint mapM {A B} (f : A -> result B) (xs : list A) : result (list B) :=
  match xs with
  | [] => Ok []
  | x :: xs' =>
      bind (f x) (fun y => bind (mapM f xs') (fun ys => Ok (y :: ys)))
  end.

Definition len {A} (l : list A) : Z := Z.of_nat (List.length l).

(** [l[i:]] *)
Definition slice_from {A} (l : list A) (i : Z) : list A :=
  if i <? 0 then skipn (Z.to_nat (Z.max 0 (len l + i))) l
  else skipn (Z.to_nat i) l.

(** [l[:j]] *)
Definition slice_to {A} (l : list A) (j : Z) : list A :=
  if j <? 0 then firstn (Z.to_nat (Z.max 0 (len l + j))) l
  else firstn (Z.to_nat j) l.

(** [l[i]] *)
Definition item {A} (l : list A) (i : Z) : result A :=
  let k := if i <? 0 then len l + i else i in
  if k <? 0 then Raise IndexError
  else match nth_error l (Z.to_nat k) with
       | Some x => Ok x
       | None => Raise IndexError
       end.

(** [range(n)], the row labels of a fresh frame. *)
Definition range (n : nat) : list Z := map Z.of_nat (seq 0 n).

(** [sep.join(parts)] *)
Fixpoint join (sep : string) (parts : list string) : string :=
  match parts with
  | [] => EmptyString
  | [p] => p
  | p :: ps => (p ++ sep ++ join sep ps)%string
  end.

(** [n * [x]] *)
Definition times {A} (n : Z) (x : A) : list A := repeat x (Z.to_nat n).

(** [str(n)] for an int. *)
Definition str_of_int (n : Z) : string :=
  NilEmpty.string_of_int (Z.to_int n).

Definition is_space (c : ascii) : bool :=
  let n := nat_of_ascii c in
  ((9 <=? n) && (n <=? 13))%nat || (n =? 32)%nat.

Definition is_digit (c : ascii) : bool :=
  let n := nat_of_ascii c in ((48 <=? n) && (n <=? 57))%nat.

Fixpoint lstrip (s : string) : string :=
  match s with
  | String c s' => if is_space c then lstrip s' else s
  | EmptyString => s
  end.

Fixpoint rstrip (s : string) : string :=
  match s with
  | String c s' =>
      match rstrip s' with
      | EmptyString => if is_space c then EmptyString else String c EmptyString
      | r => String c r
      end
  | EmptyString => EmptyString
  end.

Fixpoint digits (acc : Z) (s : string) : option Z :=
  match s with
  | EmptyString => Some acc
  | String c s' =>
      if is_digit c
      then digits (10 * acc + Z.of_nat (nat_of_ascii c - 48)) s'
      else None
  end.

Definition unsigned (s : string) : result Z :=
  match s with
  | EmptyString => Raise ValueError
  | _ => match digits 0 s with
         | Some n => Ok n
         | None => Raise ValueError
         end
  end.

(** [int(s)] on a string: surrounding white space, an optional sign,
    decimal digits; anything else is a [ValueError]. *)
Definition int (s : string) : result Z :=
  match rstrip (lstrip s) with
  | String "-" s' => bind (unsigned s') (fun n => Ok (- n))
  | String "+" s' => unsigned s'
  | s' => unsigned s'
  end.

End Py.
Import Py.

Notation "x <- m ;; k" := (Py.bind m (fun x => k))
  (at level 61, m at next level, right associativity).
Notation "' pat <- m ;; k" := (Py.bind m (fun x => match x with pat => k end))
  (at level 61, pat pattern, m at next level, right associativity).

(** Row and column labels of a table: the synthetic names of header
    resolution are Python ints, the real ones strings. *)
Inductive label : Type :=
| LInt (n : Z)
| LStr (s : string).

(* ================================================================= *)
(** * Header resolution: [League._parseHeaders] *)

Module Headers.

(** A [<td>] of a sub-header row: [td.xpath('.//text()')] and
    [td.attrib.get('colspan')]. *)
Record td : Type := Td {
  texts : list string;
  colspan : option string
}.

(** The table region as the function queries it: the [.text] of the
    elements of class [tableHead] and the [<td>]s of each row of
    class [tableSubHead]. *)
Record table : Type := Table {
  tableHead : list (option string);
  subHeads : list (list td)
}.

(** One iteration of [for td in subHead.xpath('.//td')]: the entries
    added to [subHeadRow] and the new value of [noname]. *)
Definition scanTd (noname : Z) (c : td) : result (list label * Z) :=
  match texts c with
  | [] => Ok ([LInt noname], noname + 1)
  | _ :: _ =>
      match colspan c with
      | Some a =>
          n <- Py.int a ;;
          Ok (Py.times n (LInt noname), noname + 1)
      | None => Ok ([LStr (Py.join " " (texts c))], noname)
      end
  end.

(** The inner loop over the cells of one sub-header row. *)
Fixpoint scanRow (noname : Z) (tds : list td) : result (list label * Z) :=
  match tds with
  | [] => Ok ([], noname)
  | c :: tds' =>
      '(here, noname1) <- scanTd noname c ;;
      '(rest, noname2) <- scanRow noname1 tds' ;;
      Ok (here ++ rest, noname2)
  end.

(** [subHead1[:2] + subHeadRow + subHead1[-n:]] with
    [n = len(subHead1) - 2 - len(subHeadRow)]. *)
Definition merge (subHead1 subHeadRow : list label) : list label :=
  let n := Py.len subHead1 - 2 - Py.len subHeadRow in
  Py.slice_to subHead1 2 ++ subHeadRow ++ Py.slice_from subHead1 (- n).

Definition _parseHeaders (t : table)
  : result (option string * list label) :=
  head <- Py.item (tableHead t) 0 ;;
  if negb (Py.len (subHeads t) <=? 2) then Raise AssertionError
  else
    match subHeads t with
    | [row1; row2] =>
        (* idx = 0, then idx = 1; [noname] runs on from row to row *)
        '(subHead1, noname) <- scanRow 10 row1 ;;
        '(subHeadRow, _) <- scanRow noname row2 ;;
        Ok (head, merge subHead1 subHeadRow)
    | _ =>
        row <- Py.item (subHeads t) 0 ;;
        Ok (head, map LStr (concat (map texts row)))
    end.

End Headers.

(* ================================================================= *)
(** * The fragment of Python's [re] the patterns of the module use *)

Module Re.

(** Character classes that occur under a quantifier. *)
Inductive cls : Type :=
| Dot      (* [.]  : any character but a newline *)
| Word     (* [\w] : [a-zA-Z0-9_] (no [re.UNICODE] flag) *)
| Digit.   (* [\d] : [0-9] *)

Inductive re : Type :=
| Lit (s : string)          (* literal characters *)
| One (c : cls)             (* one character of a class *)
| PlusG (c : cls)           (* [c+]  *)
| PlusL (c : cls)           (* [c+?] *)
| Bol                       (* [^] *)
| Eol                       (* [$] *)
| Seq (r1 r2 : re)
| Alt (r1 r2 : re)          (* [r1|r2], tried in that order *)
| Grp (i : nat) (r : re).   (* the [i]-th capturing group *)

(** A compiled pattern: [regex.groups] and [regex.groupindex]. *)
Record pattern : Type := Pattern {
  body : re;
  groups : nat;
  groupindex : list (string * nat)
}.

Definition is_word (c : ascii) : bool :=
  let n := nat_of_ascii c in
  (((48 <=? n) && (n <=? 57)) || ((65 <=? n) && (n <=? 90))
   || ((97 <=? n) && (n <=? 122)) || (n =? 95))%nat.

Definition in_cls (k : cls) (c : ascii) : bool :=
  match k with
  | Dot => negb (nat_of_ascii c =? 10)%nat
  | Word => is_word c
  | Digit => Py.is_digit c
  end.

(** Captures, newest first. *)
Definition caps : Type := list (nat * string).

Fixpoint group (cs : caps) (i : nat) : option string :=
  match cs with
  | [] => None
  | (j, s) :: cs' => if (i =? j)%nat then Some s else group cs' i
  end.

Fixpoint strip_prefix (p s : string) : option string :=
  match p, s with
  | EmptyString, _ => Some s
  | String a p', String b s' =>
      if Ascii.eqb a b then strip_prefix p' s' else None
  | String _ _, EmptyString => None
  end.

(** The text consumed between the suffixes [s] and [s'] of the subject. *)
Definition consumed (s s' : string) : string :=
  substring 0 (String.length s - String.length s') s.

Section Matcher.
Variable R : Type.
(** What follows the expression at hand: the backtracking matcher
    takes the first way of matching it that lets the rest match. *)
Definition cont : Type := string -> caps -> option R.

(** Zero or more characters of a class, as many as possible first. *)
Fixpoint more_greedy (p : ascii -> bool) (s : string) (cs : caps)
         (k : cont) : option R :=
  match s with
  | String a s' =>
      if p a then
        match more_greedy p s' cs k with
        | Some r => Some r
        | None => k s cs
        end
      else k s cs
  | EmptyString => k s cs
  end.

(** Zero or more characters of a class, as few as possible first. *)
Fixpoint more_lazy (p : ascii -> bool) (s : string) (cs : caps)
         (k : cont) : option R :=
  match k s cs with
  | Some r => Some r
  | None =>
      match s with
      | String a s' => if p a then more_lazy p s' cs k else None
      | EmptyString => None
      end
  end.

(** [$]: at the end, or before a newline that ends the subject. *)
Definition at_end (s : string) : bool :=
  match s with
  | EmptyString => true
  | String c EmptyString => (nat_of_ascii c =? 10)%nat
  | _ => false
  end.

(** Match [r] at the suffix [s] of the subject [whole]. *)
Fixpoint mtch (whole : string) (r : re) (s : string) (cs : caps)
         (k : cont) : option R :=
  match r with
  | Lit l =>
      match strip_prefix l s with
      | Some s' => k s' cs
      | None => None
      end
  | One c =>
      match s with
      | String a s' => if in_cls c a then k s' cs else None
      | EmptyString => None
      end
  | PlusG c =>
      match s with
      | String a s' =>
          if in_cls c a then more_greedy (in_cls c) s' cs k else None
      | EmptyString => None
      end
  | PlusL c =>
      match s with
      | String a s' =>
          if in_cls c a then more_lazy (in_cls c) s' cs k else None
      | EmptyString => None
      end
  | Bol =>
      if (String.length s =? String.length whole)%nat then k s cs
      else None
  | Eol => if at_end s then k s cs else None
  | Seq r1 r2 =>
      mtch whole r1 s cs (fun s1 cs1 => mtch whole r2 s1 cs1 k)
  | Alt r1 r2 =>
      match mtch whole r1 s cs k with
      | Some x => Some x
      | None => mtch whole r2 s cs k
      end
  | Grp i r1 =>
      mtch whole r1 s cs
           (fun s1 cs1 => k s1 ((i, consumed s s1) :: cs1))
  end.
End Matcher.

Arguments mtch {R} whole r s cs k.

(** [regex.match(subject)]: the rest of the subject and the captures. *)
Definition match_ (p : pattern) (subject : string) : option (string * caps) :=
  mtch subject (body p) subject [] (fun s cs => Some (s, cs)).

(** The leftmost match at or after the suffix [s]: where it starts,
    where it ends, and its captures. *)
Fixpoint search_from (whole : string) (r : re) (s : string)
  : option (string * string * caps) :=
  match mtch whole r s [] (fun s' cs => Some (s, s', cs)) with
  | Some m => Some m
  | None =>
      match s with
      | String _ s' => search_from whole r s'
      | EmptyString => None
      end
  end.

(** [regex.search(subject)] *)
Definition search (p : pattern) (subject : string) : option caps :=
  match search_from subject (body p) subject with
  | Some (_, _, cs) => Some cs
  | None => None
  end.

(** [m.groups()]: [None] for a group that took no part in the match. *)
Definition groups_of (p : pattern) (cs : caps) : list (option string) :=
  map (fun i => group cs (S i)) (List.seq 0 (groups p)).

Definition or_empty (g : option string) : string :=
  match g with
  | Some s => s
  | None => EmptyString
  end.

(** The scan of [regex.findall]: non-overlapping matches from left to
    right, an empty match moving on by one character. *)
Fixpoint findall_from (fuel : nat) (p : pattern) (whole s : string)
  : list (list string) :=
  match fuel with
  | O => []
  | S fuel' =>
      match search_from whole (body p) s with
      | None => []
      | Some (start, rest, cs) =>
          map or_empty (groups_of p cs) ::
          (if (String.length rest =? String.length start)%nat
           then match rest with
                | String _ rest' => findall_from fuel' p whole rest'
                | EmptyString => []
                end
           else findall_from fuel' p whole rest)
      end
  end.

(** [regex.findall(subject)] for a pattern with two groups or more:
    one tuple of group texts per match. *)
Definition findall (p : pattern) (subject : string) : list (list string) :=
  findall_from (S (String.length subject)) p subject subject.

End Re.

Declare Scope re_scope.
Delimit Scope re_scope with re.
Infix "+++" := Re.Seq (at level 60, right associativity) : re_scope.

(* ================================================================= *)
(** * The pandas operations the formatters call *)

Module Pandas.

(** What [pd.to_numeric] needs of floating point: which strings parse
    ([None]: not a number; [Some None]: NaN; [Some (Some x)]: the
    number [x]) and which numbers are zero. *)
Class Numeric : Type := {
  num : Type;
  parse_num : string -> option (option num);
  num_is_zero : num -> bool
}.

Section Frames.
Context {N : Numeric}.

(** The objects a table cell holds.  [pd.read_html] yields text,
    numbers and NaN; the formatters add booleans, lists of strings
    (POS) and lists of tuples of strings (TRANSACTION). *)
Inductive cell : Type :=
| Str (s : string)
| Num (x : num)
| NaN
| Bool (b : bool)
| Strs (l : list string)
| Tuples (l : list (list string)).

Inductive dtype : Type := DObject | DNumeric | DBool.

Record series : Type := Series {
  dt : dtype;
  vals : list cell
}.

(** A DataFrame: the row labels, and the columns in order, each as
    long as the index.  [pd.read_html] gives distinct column labels
    and the row labels [0 .. n-1]. *)
Record frame : Type := Frame {
  index : list Z;
  columns : list (label * series)
}.

Definition label_eqb (a b : label) : bool :=
  match a, b with
  | LInt m, LInt n => m =? n
  | LStr s, LStr t => String.eqb s t
  | _, _ => false
  end.

Definition is_object (d : dtype) : bool :=
  match d with
  | DObject => true
  | _ => false
  end.

Fixpoint lookup (l : label) (cols : list (label * series))
  : option series :=
  match cols with
  | [] => None
  | (l', s) :: cols' => if label_eqb l l' then Some s else lookup l cols'
  end.

Definition mentions (l : label) (cols : list (label * series)) : bool :=
  existsb (fun c => label_eqb l (fst c)) cols.

Definition has_col (df : frame) (l : label) : bool :=
  mentions l (columns df).

(** [df[l]] *)
Definition getcol (df : frame) (l : label) : result series :=
  match lookup l (columns df) with
  | Some s => Ok s
  | None => Raise KeyError
  end.

(** [df[l].iloc[i]], when there is such a cell. *)
Definition iat (df : frame) (l : label) (i : nat) : option cell :=
  match lookup l (columns df) with
  | Some s => nth_error (vals s) i
  | None => None
  end.

(** [df.iloc[:, i]] *)
Definition icol (df : frame) (i : nat) : result series :=
  match nth_error (columns df) i with
  | Some (_, s) => Ok s
  | None => Raise IndexError
  end.

Fixpoint position (l : Z) (labs : list Z) : option nat :=
  match labs with
  | [] => None
  | l' :: labs' =>
      if l =? l' then Some O
      else match position l labs' with
           | Some p => Some (S p)
           | None => None
           end
  end.

(** [s.ix[l]] on a column of [df], whose index is an integer index:
    the lookup is by label. *)
Definition ix (df : frame) (s : series) (l : Z) : result cell :=
  match position l (index df) with
  | Some p => match nth_error (vals s) p with
              | Some c => Ok c
              | None => Raise KeyError
              end
  | None => Raise KeyError
  end.

Fixpoint set_assoc (l : label) (s : series) (cols : list (label * series))
  : list (label * series) :=
  match cols with
  | [] => [(l, s)]
  | (l', s') :: cols' =>
      if label_eqb l l' then (l, s) :: cols'
      else (l', s') :: set_assoc l s cols'
  end.

(** [df[l] = s]: an existing column is replaced where it stands, a
    new one is added last. *)
Definition setcol (df : frame) (l : label) (s : series) : frame :=
  {| index := index df; columns := set_assoc l s (columns df) |}.

Definition dtype_of (c : cell) : dtype :=
  match c with
  | Num _ | NaN => DNumeric
  | Bool _ => DBool
  | _ => DObject
  end.

(** The column a scalar makes when assigned to [df[l]]. *)
Definition broadcast (df : frame) (c : cell) : series :=
  {| dt := dtype_of c; vals := repeat c (List.length (index df)) |}.

(** The elements of [l] at the places where [mask] is true. *)
Fixpoint pick {A} (mask : list bool) (l : list A) : list A :=
  match mask, l with
  | m :: mask', x :: l' => if m then x :: pick mask' l' else pick mask' l'
  | _, _ => []
  end.

Definition mem (l : Z) (labs : list Z) : bool := existsb (Z.eqb l) labs.

Definition rows_of (mask : list bool) (df : frame) : frame :=
  {| index := pick mask (index df);
     columns := map (fun c => (fst c, {| dt := dt (snd c);
                                         vals := pick mask (vals (snd c)) |}))
                    (columns df) |}.

(** [df.drop(labs)]: every row with one of the labels goes; a label
    that is not in the index is an error. *)
Definition drop_rows (labs : list Z) (df : frame) : result frame :=
  if forallb (fun l => mem l (index df)) labs
  then Ok (rows_of (map (fun l => negb (mem l labs)) (index df)) df)
  else Raise ValueError.

(** [df.drop(labs, axis=1)] *)
Definition drop_cols (labs : list label) (df : frame) : result frame :=
  if forallb (has_col df) labs
  then Ok {| index := index df;
             columns := filter (fun c => negb (existsb (label_eqb (fst c)) labs))
                               (columns df) |}
  else Raise ValueError.

(** [df[[l1, ..., lk]]] *)
Definition select_cols (labs : list label) (df : frame) : result frame :=
  cols <- Py.mapM (fun l => s <- getcol df l ;; Ok (l, s)) labs ;;
  Ok {| index := index df; columns := cols |}.

Fixpoint filterM {A} (p : A -> result bool) (l : list A) : result (list A) :=
  match l with
  | [] => Ok []
  | x :: l' =>
      b <- p x ;;
      r <- filterM p l' ;;
      Ok (if b then x :: r else r)
  end.

(** [df.columns.is_unique] *)
Fixpoint unique (labs : list label) : bool :=
  match labs with
  | [] => true
  | l :: labs' => negb (existsb (label_eqb l) labs') && unique labs'
  end.

(** [df.select(crit, axis=1)]: the criterion is evaluated on every
    label, then the frame is reindexed to the labels that satisfy it.
    When every label is kept the reindexing is a copy; otherwise it
    refuses a frame whose column labels are not unique, unless no
    label is left to look up. *)
Definition select (crit : label -> result bool) (df : frame) : result frame :=
  cols <- filterM (fun c => crit (fst c)) (columns df) ;;
  if negb (List.length cols =? List.length (columns df))%nat
     && negb (unique (map fst (columns df)))
     && negb (List.length cols =? 0)%nat
  then Raise ValueError
  else Ok {| index := index df; columns := cols |}.

(** [df.join(other)]: the columns of [other], which has the index of
    [df], are added; a label on both sides is an error. *)
Definition join (df : frame) (other : list (label * series)) : result frame :=
  if existsb (fun c => has_col df (fst c)) other then Raise ValueError
  else Ok {| index := index df; columns := columns df ++ other |}.

(** [df.columns = labs] *)
Definition set_columns (labs : list label) (df : frame) : result frame :=
  if (List.length labs =? List.length (columns df))%nat
  then Ok {| index := index df;
             columns := combine labs (map snd (columns df)) |}
  else Raise ValueError.

(** ** Numeric coercion *)

Definition numeric_of (c : cell) : option cell :=
  match c with
  | Str s => match parse_num s with
             | Some (Some x) => Some (Num x)
             | Some None => Some NaN
             | None => None
             end
  | Num x => Some (Num x)
  | NaN => Some NaN
  | _ => None
  end.

Fixpoint all_numeric (cs : list cell) : option (list cell) :=
  match cs with
  | [] => Some []
  | c :: cs' =>
      match numeric_of c, all_numeric cs' with
      | Some v, Some vs => Some (v :: vs)
      | _, _ => None
      end
  end.

(** [pd.to_numeric(s)]: an object column is parsed cell by cell and
    fails as a whole on the first cell that does not parse. *)
Definition to_numeric (s : series) : result series :=
  match dt s with
  | DObject => match all_numeric (vals s) with
               | Some vs => Ok {| dt := DNumeric; vals := vs |}
               | None => Raise ValueError
               end
  | _ => Ok s
  end.

(** [pd.to_numeric(s, errors='ignore')] *)
Definition to_numeric_ignore (s : series) : series :=
  match to_numeric s with
  | Ok s' => s'
  | Raise _ => s
  end.

(** [df.apply(f)] for an [f] from columns to columns.  On a frame
    without rows or without columns [f] is not called on the columns
    and the frame is copied as it is. *)
Definition apply_cols (f : series -> series) (df : frame) : frame :=
  if ((List.length (index df) =? 0) || (List.length (columns df) =? 0))%nat
  then df
  else {| index := index df;
          columns := map (fun c => (fst c, f (snd c))) (columns df) |}.

(** [s.apply(f)] for an [f] that returns strings or lists. *)
Definition apply (f : cell -> result cell) (s : series) : result series :=
  vs <- Py.mapM f (vals s) ;;
  Ok {| dt := DObject; vals := vs |}.

(** ** Cell-wise Python operations *)

(** [x[1:]] *)
Definition from1 (c : cell) : result cell :=
  match c with
  | Str s => Ok (Str (match s with String _ s' => s' | EmptyString => s end))
  | Strs l => Ok (Strs (tl l))
  | Tuples l => Ok (Tuples (tl l))
  | _ => Raise TypeError
  end.

Fixpoint split_go (sep : string) (skip : nat) (acc : string) (s : string)
  : list string :=
  match s with
  | EmptyString => [acc]
  | String c s' =>
      match skip with
      | S k => split_go sep k acc s'
      | O =>
          match Re.strip_prefix sep s with
          | Some _ => acc :: split_go sep (String.length sep - 1) EmptyString s'
          | None => split_go sep 0 (acc ++ String c EmptyString)%string s'
          end
      end
  end.

(** [s.split(sep)] for a non-empty [sep]. *)
Definition str_split (sep s : string) : list string := split_go sep 0 EmptyString s.

(** [s.replace(old, new)] for a non-empty [old]. *)
Definition str_replace (old new s : string) : string :=
  Py.join new (str_split old s).

(** [x.split(sep)] *)
Definition split (sep : string) (c : cell) : result cell :=
  match c with
  | Str s => Ok (Strs (str_split sep s))
  | _ => Raise AttributeError
  end.

(** [x.replace(old, new)] *)
Definition replace (old new : string) (c : cell) : result cell :=
  match c with
  | Str s => Ok (Str (str_replace old new s))
  | _ => Raise AttributeError
  end.

(** [x == s] for a string [s] *)
Definition eq_str (s : string) (c : cell) : bool :=
  match c with
  | Str t => String.eqb t s
  | _ => false
  end.

(** [not x], which is what [np.logical_not] computes on an object
    column; NaN is a non-zero float. *)
Definition py_not (c : cell) : bool :=
  match c with
  | Str s => String.eqb s EmptyString
  | Num x => num_is_zero x
  | NaN => false
  | Bool b => negb b
  | Strs l => match l with [] => true | _ => false end
  | Tuples l => match l with [] => true | _ => false end
  end.

(** [pd.isnull(x)] *)
Definition isnull (c : cell) : bool :=
  match c with
  | NaN => true
  | _ => false
  end.

Fixpoint map2 {A B C} (f : A -> B -> C) (l : list A) (m : list B) : list C :=
  match l, m with
  | a :: l', b :: m' => f a b :: map2 f l' m'
  | _, _ => []
  end.

(** [df.loc[mask, l] = v] on a column of object dtype. *)
Definition loc_set (mask : list bool) (l : label) (v : cell) (df : frame)
  : result frame :=
  s <- getcol df l ;;
  Ok (setcol df l {| dt := dt s;
                     vals := map2 (fun (m : bool) c => if m then v else c)
                                  mask (vals s) |}).

(** ** The [.str] methods *)

Definition group_label (p : Re.pattern) (i : nat) : label :=
  match find (fun e => (snd e =? S i)%nat) (Re.groupindex p) with
  | Some (name, _) => LStr name
  | None => LInt (Z.of_nat i)
  end.

Definition extract_row (p : Re.pattern) (c : cell) : list cell :=
  match c with
  | Str s =>
      match Re.search p s with
      | Some cs => map (fun g => match g with
                                 | Some t => Str t
                                 | None => NaN
                                 end) (Re.groups_of p cs)
      | None => repeat NaN (Re.groups p)
      end
  | _ => repeat NaN (Re.groups p)
  end.

(** [s.str.extract(pat, expand=True)]: one object column per group,
    named after it; a cell that is no string or has no match gives
    NaN in each. *)
Definition str_extract (p : Re.pattern) (s : series)
  : result (list (label * series)) :=
  if is_object (dt s) then
    let rows := map (extract_row p) (vals s) in
    Ok (map (fun i => (group_label p i,
                       {| dt := DObject;
                          vals := map (fun r => nth i r NaN) rows |}))
            (List.seq 0 (Re.groups p)))
  else Raise AttributeError.

(** [s.str.match(pat)] for a pattern without groups: a boolean per
    string, NaN for a cell that is no string. *)
Definition str_match (p : Re.pattern) (s : series) : result (list cell) :=
  if is_object (dt s) then
    Ok (map (fun c => match c with
                      | Str t => Bool (match Re.match_ p t with
                                       | Some _ => true
                                       | None => false
                                       end)
                      | _ => NaN
                      end) (vals s))
  else Raise AttributeError.

(** A boolean indexer: NaN in it is an error. *)
Definition as_mask (cs : list cell) : result (list bool) :=
  Py.mapM (fun c => match c with
                    | Bool b => Ok b
                    | _ => Raise ValueError
                    end) cs.

(** ** In-place methods: the frame passed in is the state *)

Definition M (A : Type) : Type := frame -> frame * result A.

Definition ret {A} (a : A) : M A := fun df => (df, Ok a).

Definition bindM {A B} (m : M A) (f : A -> M B) : M B :=
  fun df => match m df with
            | (df', Ok a) => f a df'
            | (df', Raise e) => (df', Raise e)
            end.

(** An expression over the frame. *)
Definition read {A} (f : frame -> result A) : M A := fun df => (df, f df).

(** A method called with [inplace=True], or an item assignment. *)
Definition inplace (f : frame -> result frame) : M unit :=
  fun df => match f df with
            | Ok df' => (df', Ok tt)
            | Raise e => (df, Raise e)
            end.

End Frames.

Arguments cell {N}.
Arguments series {N}.
Arguments frame {N}.

End Pandas.

Notation "x <~ m ;; k" := (Pandas.bindM m (fun x => k))
  (at level 61, m at next level, right associativity).

(* ================================================================= *)
(** * The formatters of [League] and [Team] *)

Module Espn.
Import Pandas.
Local Open Scope re_scope.

(** The character [\xa0]. *)
Definition nbsp : string := String (ascii_of_nat 160) EmptyString.

(** [u'\xa0\xa0K'] *)
Definition keeperMark : string := (nbsp ++ nbsp ++ "K")%string.

(** ['(?P<PLAYER>.+?), (?P<TEAM>\w+)\xa0(?P<POS>\w+)'
     '(?P<KEEPER>\xa0\xa0K$|$)'] *)
Definition draftRe : Re.pattern :=
  {| Re.body :=
       Re.Grp 1 (Re.PlusL Re.Dot) +++ Re.Lit ", " +++
       Re.Grp 2 (Re.PlusG Re.Word) +++ Re.Lit nbsp +++
       Re.Grp 3 (Re.PlusG Re.Word) +++
       Re.Grp 4 (Re.Alt (Re.Lit keeperMark +++ Re.Eol) Re.Eol);
     Re.groups := 4;
     Re.groupindex := [("PLAYER", 1); ("TEAM", 2); ("POS", 3);
                       ("KEEPER", 4)]%nat |}.

(** ['^(?P<PLAYER>.+?), (?P<TEAM>\w+)\xa0(?P<POS>.+?)'
     '(?P<DTD>$|\xa0\xa0DTD$)'] *)
Definition statsRe : Re.pattern :=
  {| Re.body :=
       Re.Bol +++ Re.Grp 1 (Re.PlusL Re.Dot) +++ Re.Lit ", " +++
       Re.Grp 2 (Re.PlusG Re.Word) +++ Re.Lit nbsp +++
       Re.Grp 3 (Re.PlusL Re.Dot) +++
       Re.Grp 4 (Re.Alt Re.Eol
                        (Re.Lit (nbsp ++ nbsp ++ "DTD")%string +++ Re.Eol));
     Re.groups := 4;
     Re.groupindex := [("PLAYER", 1); ("TEAM", 2); ("POS", 3);
                       ("DTD", 4)]%nat |}.

(** ['1\d'] *)
Definition numberedRe : Re.pattern :=
  {| Re.body := Re.Lit "1" +++ Re.One Re.Digit;
     Re.groups := 0; Re.groupindex := [] |}.

(** ['Unnamed: \d+'] *)
Definition unnamedRe : Re.pattern :=
  {| Re.body := Re.Lit "Unnamed: " +++ Re.PlusG Re.Digit;
     Re.groups := 0; Re.groupindex := [] |}.

Definition found (p : Re.pattern) (s : string) : bool :=
  match Re.search p s with
  | Some _ => true
  | None => false
  end.

Section Formatters.
Context {N : Numeric}.

(** ** Draft recap *)

Definition _formatAuctionDraftTable (df : frame) : result frame :=
  c1 <- getcol df (LInt 1) ;;
  extracted <- str_extract draftRe c1 ;;
  df <- join df extracted ;;
  k <- getcol df (LStr "KEEPER") ;;
  df <- loc_set (map (eq_str keeperMark) (vals k)) (LStr "KEEPER")
                (Bool true) df ;;
  k <- getcol df (LStr "KEEPER") ;;
  df <- loc_set (map py_not (vals k)) (LStr "KEEPER") (Bool false) df ;;
  drop_cols [LInt 0; LInt 1; LInt 2] df.

(** The columns [_formatAuctionDraftTable] adds, in closed form:
    the text of a group row by row, and what the two assignments
    through [df.loc] make of a KEEPER text. *)
Definition group_col (g : nat) (c1 : series) : series :=
  {| dt := DObject;
     vals := map (fun c => nth g (extract_row draftRe c) NaN) (vals c1) |}.

Definition keeper_flag (c : cell) : cell :=
  let c' := if eq_str keeperMark c then Bool true else c in
  if py_not c' then Bool false else c'.

Definition raw_cols : list label := [LInt 0; LInt 1; LInt 2].

(** The columns [df.drop([0, 1, 2], axis=1)] leaves. *)
Definition kept (c : label * series) : bool :=
  negb (existsb (label_eqb (fst c)) raw_cols).

Definition derived (c1 : series) : list (label * series) :=
  [(LStr "PLAYER", group_col 0 c1);
   (LStr "TEAM", group_col 1 c1);
   (LStr "POS", group_col 2 c1);
   (LStr "KEEPER", {| dt := DObject;
                      vals := map keeper_flag (vals (group_col 3 c1)) |})].

(** The frames [_formatAuctionDraftTable] does not raise on: raw
    columns 0, 1 and 2, the second of object dtype, and none of the
    four names it adds. *)
Definition draft_shape (df : frame) : bool :=
  match getcol df (LInt 1) with
  | Ok c1 =>
      is_object (dt c1)
      && negb (existsb (fun c => has_col df (fst c)) (derived c1))
      && has_col df (LInt 0) && has_col df (LInt 2)
  | Raise _ => false
  end.

Definition _formatAuctionTable : M frame :=
  manager <~ read (fun df => c0 <- getcol df (LInt 0) ;; ix df c0 0) ;;
  _ <~ inplace (fun df =>
                  Ok (setcol df (LStr "MANAGER") (broadcast df manager))) ;;
  _ <~ inplace (drop_rows [0]) ;;
  _ <~ inplace (fun df =>
                  c0 <- getcol df (LInt 0) ;;
                  pick <- to_numeric c0 ;;
                  Ok (setcol df (LStr "PICK") pick)) ;;
  _ <~ inplace (fun df =>
                  c2 <- getcol df (LInt 2) ;;
                  amount <- apply from1 c2 ;;
                  price <- to_numeric amount ;;
                  Ok (setcol df (LStr "PRICE") price)) ;;
  df <~ read _formatAuctionDraftTable ;;
  read (fun _ =>
          select_cols [LStr "MANAGER"; LStr "PLAYER"; LStr "PICK";
                       LStr "TEAM"; LStr "POS"; LStr "PRICE";
                       LStr "KEEPER"] df).

(** The statements of [_formatDraftTable], run on a frame bound to
    the name [df]. *)
Definition draftTable_body : M frame :=
  rnd <~ read (fun df =>
                 c0 <- getcol df (LInt 0) ;;
                 first <- ix df c0 0 ;;
                 replace "ROUND " EmptyString first) ;;
  _ <~ inplace (drop_rows [0]) ;;
  _ <~ inplace (fun df => Ok (setcol df (LStr "ROUND") (broadcast df rnd))) ;;
  _ <~ inplace (fun df =>
                  c0 <- getcol df (LInt 0) ;;
                  pick <- to_numeric c0 ;;
                  Ok (setcol df (LStr "PICK") pick)) ;;
  _ <~ inplace (fun df =>
                  c2 <- getcol df (LInt 2) ;;
                  Ok (setcol df (LStr "MANAGER") c2)) ;;
  df <~ read _formatAuctionDraftTable ;;
  read (fun _ =>
          select_cols [LStr "ROUND"; LStr "PICK"; LStr "MANAGER";
                       LStr "PLAYER"; LStr "TEAM"; LStr "POS";
                       LStr "KEEPER"] df).

(** Reading a local name of a function: a name the function assigns
    somewhere is local throughout, and reading it before it is bound
    raises. *)
Definition load_fast {A} (slot : option A) : result A :=
  match slot with
  | Some v => Ok v
  | None => Raise UnboundLocalError
  end.

(** [def _formatDraftTable(self, html)]: the parameter is [html], the
    body works on [df], a local name with no binding on entry. *)
Definition _formatDraftTable : M frame :=
  fun html =>
    let df_slot : option frame := None in
    match load_fast df_slot with
    | Ok df => (html, snd (draftTable_body df))
    | Raise e => (html, Raise e)
    end.

(** [_formatDraft] returns [None] when no branch is taken. *)
Definition _formatDraft (draftType : string) : M (option frame) :=
  if String.eqb draftType "Auction Draft" then
    df <~ _formatAuctionTable ;; ret (Some df)
  else if String.eqb draftType "Snake Draft"
          || String.eqb draftType "Offline Draft"
          || String.eqb draftType "Autopick Draft" then
    df <~ _formatDraftTable ;; ret (Some df)
  else ret None.

(** ** Standings *)

(** [str(x)] for a column label; a text with a character outside
    ASCII is a [unicode] object and does not encode. *)
Definition str (x : label) : result string :=
  match x with
  | LInt n => Ok (Py.str_of_int n)
  | LStr s =>
      if forallb (fun c => (nat_of_ascii c <? 128)%nat)
                 (list_ascii_of_string s)
      then Ok s else Raise UnicodeError
  end.

Definition _formatStandingsTable (columns : list label) : M frame :=
  _ <~ inplace (set_columns columns) ;;
  _ <~ inplace (fun df =>
                  c0 <- icol df 0 ;;
                  drop_rows (pick (map isnull (vals c0)) (index df)) df) ;;
  read (select (fun x => s <- str x ;; Ok (negb (found numberedRe s)))).

(** ** Active stats *)

(** [df.iloc[rows]] addresses rows by position. *)
Definition positions (n : nat) (rows : list Z) : result (list nat) :=
  Py.mapM (fun r =>
             let k := if r <? 0 then Z.of_nat n + r else r in
             if (k <? 0) || (Z.of_nat n <=? k) then Raise IndexError
             else Ok (Z.to_nat k)) rows.

Fixpoint replace_at (ps : list nat) (old : string) (i : nat)
         (cs : list cell) : list cell :=
  match cs with
  | [] => []
  | c :: cs' =>
      (if existsb (Nat.eqb i) ps && eq_str old c then NaN else c)
        :: replace_at ps old (S i) cs'
  end.

(** [df.iloc[rows] = df.iloc[rows].replace(to_replace=old,
    value=np.nan)] *)
Definition replace_rows (rows : list Z) (old : string) (df : frame)
  : result frame :=
  ps <- positions (List.length (index df)) rows ;;
  Ok {| index := index df;
        columns := map (fun c => (fst c,
                                  {| dt := dt (snd c);
                                     vals := replace_at ps old 0
                                                        (vals (snd c)) |}))
                       (columns df) |}.

(** The first statements of [_formatActiveStatsTable]: the footer
    row, the placeholders, the coercion. *)
Definition activeStats_coerce : M frame :=
  _ <~ inplace (fun df =>
                  drop_rows [Py.len (index df) - 1] df) ;;
  third <~ read (fun df => icol df 2) ;;
  _ <~ (if is_object (dt third) then
          inplace (fun df =>
                     replace_rows
                       (pick (map (eq_str "--") (vals third)) (index df))
                       "--" df)
        else ret tt) ;;
  read (fun df => Ok (apply_cols to_numeric_ignore df)).

(** The rest of it, on the new frame [df.apply] made. *)
Definition activeStats_extract (df : frame) : result frame :=
  c <- getcol df (LStr "PLAYER, TEAM POS") ;;
  extracted <- str_extract statsRe c ;;
  df <- join df extracted ;;
  df <- drop_cols [LStr "PLAYER, TEAM POS"] df ;;
  pos <- getcol df (LStr "POS") ;;
  pos <- apply (split ", ") pos ;;
  let df := setcol df (LStr "POS") pos in
  select (fun x => match x with
                   | LStr s => Ok (negb (found unnamedRe s))
                   | LInt _ => Raise TypeError
                   end) df.

Definition _formatActiveStatsTable : M frame :=
  df <~ activeStats_coerce ;;
  read (fun _ => activeStats_extract df).

End Formatters.

Section Transactions.
Context {N : Numeric}.

(** [l[start::step]], with [wait = start] to begin with. *)
Fixpoint stride {A} (step wait : nat) (l : list A) : list A :=
  match l with
  | [] => []
  | x :: l' =>
      match wait with
      | O => x :: stride step (step - 1) l'
      | S w => stride step w l'
      end
  end.

(** [df[l] = values] for a list of strings. *)
Definition setcol_list (l : label) (values : list string) (df : frame)
  : result frame :=
  if (List.length values =? List.length (index df))%nat
  then Ok (setcol df l {| dt := DObject; vals := map Str values |})
  else Raise ValueError.

Definition key (s : string) : Re.pattern :=
  {| Re.body := Re.Lit s; Re.groups := 0; Re.groupindex := [] |}.

Definition waiversOrFA : Re.re :=
  Re.Alt (Re.Lit "Waivers") (Re.Lit "Free Agency").

(** ['(\w+) dropped (.+?), \w+ \w+ to (Waivers|Free Agency)'] with
    the groups numbered from [g + 1]. *)
Definition droppedRe (g : nat) : Re.re :=
  Re.Grp (g + 1) (Re.PlusG Re.Word) +++ Re.Lit " dropped " +++
  Re.Grp (g + 2) (Re.PlusL Re.Dot) +++ Re.Lit ", " +++
  Re.PlusG Re.Word +++ Re.Lit " " +++ Re.PlusG Re.Word +++
  Re.Lit " to " +++ Re.Grp (g + 3) waiversOrFA.

(** ['(\w+) added (.+?), \w+ \w+ from (Waivers|Free Agency)'] *)
Definition addedRe (g : nat) : Re.re :=
  Re.Grp (g + 1) (Re.PlusG Re.Word) +++ Re.Lit " added " +++
  Re.Grp (g + 2) (Re.PlusL Re.Dot) +++ Re.Lit ", " +++
  Re.PlusG Re.Word +++ Re.Lit " " +++ Re.PlusG Re.Word +++
  Re.Lit " from " +++ Re.Grp (g + 3) waiversOrFA.

Definition addDropKey : Re.pattern :=
  key ("Transaction" ++ nbsp ++ nbsp ++ "Add/Drop")%string.
Definition addDropStr : Re.pattern :=
  {| Re.body := Re.Alt (droppedRe 0) (addedRe 3);
     Re.groups := 6; Re.groupindex := [] |}.

Definition addKey : Re.pattern :=
  key ("Transaction" ++ nbsp ++ nbsp ++ "Add")%string.
Definition addStr : Re.pattern :=
  {| Re.body := addedRe 0; Re.groups := 3; Re.groupindex := [] |}.

Definition dropKey : Re.pattern :=
  key ("Transaction" ++ nbsp ++ nbsp ++ "Drop")%string.
Definition dropStr : Re.pattern :=
  {| Re.body := droppedRe 0; Re.groups := 3; Re.groupindex := [] |}.

Definition tradeKey : Re.pattern :=
  key ("Transaction" ++ nbsp ++ nbsp ++ "Trade Processed")%string.
(** ['(\w+) traded (.+?), \w+ \w+ to (\w+)'] *)
Definition tradeStr : Re.pattern :=
  {| Re.body :=
       Re.Grp 1 (Re.PlusG Re.Word) +++ Re.Lit " traded " +++
       Re.Grp 2 (Re.PlusL Re.Dot) +++ Re.Lit ", " +++
       Re.PlusG Re.Word +++ Re.Lit " " +++ Re.PlusG Re.Word +++
       Re.Lit " to " +++ Re.Grp 3 (Re.PlusG Re.Word);
     Re.groups := 3; Re.groupindex := [] |}.

(** The value of a row in one of the four series: the list [findall]
    returned, or NaN ([None]) for a DETAIL that is no string. *)
Definition found_t : Type := option (list (list string)).

(** [pd.Series(df[df['TYPE'].str.match(k)]['DETAIL'].str.findall(p))],
    as the list of its (row label, value) pairs. *)
Definition family (k p : Re.pattern) (df : frame)
  : result (list (Z * found_t)) :=
  ty <- getcol df (LStr "TYPE") ;;
  m <- str_match k ty ;;
  mask <- as_mask m ;;
  let sub := rows_of mask df in
  detail <- getcol sub (LStr "DETAIL") ;;
  if is_object (dt detail) then
    Ok (combine (index sub)
                (map (fun c => match c with
                               | Str t => Some (Re.findall p t)
                               | _ => None
                               end) (vals detail)))
  else Raise AttributeError.

(** [s.apply(f)] on such a series. *)
Definition apply_found (f : found_t -> result found_t)
           (s : list (Z * found_t)) : result (list (Z * found_t)) :=
  Py.mapM (fun e => v <- f (snd e) ;; Ok (fst e, v)) s.

(** [lambda x: [x[0][:3], x[1][:3:-1]]] *)
Definition addDrop_pair (x : found_t) : result found_t :=
  match x with
  | Some l =>
      x0 <- Py.item l 0 ;;
      x1 <- Py.item l 1 ;;
      Ok (Some [Py.slice_to x0 3; rev (skipn 4 x1)])
  | None => Raise TypeError
  end.

(** [lambda x: [x[0][::-1]]] *)
Definition add_single (x : found_t) : result found_t :=
  match x with
  | Some l => x0 <- Py.item l 0 ;; Ok (Some [rev x0])
  | None => Raise TypeError
  end.

Definition cell_of_found (x : found_t) : cell :=
  match x with
  | Some l => Tuples l
  | None => NaN
  end.

(** [df.join(s)] for a named series [s] with an index of its own: a
    left join on the row labels, one row per matching entry of [s]
    and one with NaN where there is none. *)
Definition join_series (df : frame) (name : label) (s : list (Z * cell))
  : result frame :=
  if has_col df name then Raise ValueError
  else
    let hits := map (fun l =>
                       match map snd (filter (fun e => fst e =? l) s) with
                       | [] => [NaN]
                       | cs => cs
                       end) (index df) in
    let expand {A} (xs : list A) : list A :=
      flat_map (fun e => repeat (fst e) (List.length (snd e)))
               (combine xs hits) in
    Ok {| index := expand (index df);
          columns :=
            map (fun c => (fst c, {| dt := dt (snd c);
                                     vals := expand (vals (snd c)) |}))
                (columns df)
            ++ [(name, {| dt := DObject; vals := concat hits |})] |}.

(** [Team._formatTransactionTable(htmlStr, tds)]: [df] is
    [pd.read_html(htmlStr, header=1)[0]] and each element of [tds] is
    given by its [itertext()]. *)
Definition _formatTransactionTable (df : frame) (tds : list (list string))
  : result frame :=
  let dates := map (Py.join " ") (stride 4 0 tds) in
  df <- setcol_list (LStr "DATE") dates df ;;
  let details :=
    map (fun i => str_replace " ," ","
                    (str_replace "  " " " (Py.join " " i)))
        (stride 4 2 tds) in
  df <- setcol_list (LStr "DETAIL") details df ;;
  addDrop <- family addDropKey addDropStr df ;;
  addDrop <- apply_found addDrop_pair addDrop ;;
  add <- family addKey addStr df ;;
  add <- apply_found add_single add ;;
  drop <- family dropKey dropStr df ;;
  trade <- family tradeKey tradeStr df ;;
  let transactions := addDrop ++ add ++ drop ++ trade in
  join_series df (LStr "TRANSACTION")
              (map (fun e => (fst e, cell_of_found (snd e))) transactions).

End Transactions.

(** ** An instance to run the formatters on: decimal integers
    stand for the numbers, the empty string parses to NaN. *)
Definition decimal (s : string) : option (option Z) :=
  match s with
  | EmptyString => Some None
  | _ => match Py.int s with
         | Ok n => Some (Some n)
         | Raise _ => None
         end
  end.

Definition Decimal : Numeric :=
  {| num := Z; parse_num := decimal; num_is_zero := Z.eqb 0 |}.

End Espn.

(* ================================================================= *)
(** * The callers: team directory and page assembly *)

Module Pages.
Import Headers Pandas Espn.

(** [l[i:j]] *)
Definition slice {A} (l : list A) (i j : Z) : list A :=
  let n := Py.len l in
  let clip k := Z.to_nat (Z.min n (Z.max 0 (if k <? 0 then n + k else k))) in
  firstn (clip j - clip i) (skipn (clip i) l).

(** ** [League._getTeamDict] *)

(** [name.strip()] and [name.upper()], which depend on whether the text
    is a byte string or a unicode object. *)
Class Text : Type := {
  strip : string -> string;
  upper : string -> string
}.

(** ['teamId=(\d+)'] *)
Definition teamIdRe : Re.pattern :=
  {| Re.body := (Re.Lit "teamId=" +++ Re.Grp 1 (Re.PlusG Re.Digit))%re;
     Re.groups := 1; Re.groupindex := [] |}.

(** [re.findall] for a pattern with one group: the text of the group,
    match by match. *)
Definition findall1 (p : Re.pattern) (s : string) : list string :=
  map (fun t => nth 0 t EmptyString) (Re.findall p s).

(** A dict with string keys, as the list of its items; iteration order
    is not modelled. *)
Definition dict : Type := list (string * string).

(** [d[k] = v] *)
Fixpoint dict_set (k v : string) (d : dict) : dict :=
  match d with
  | [] => [(k, v)]
  | (k', v') :: d' =>
      if String.eqb k k' then (k, v) :: d' else (k', v') :: dict_set k v d'
  end.

(** [dict(pairs)] *)
Definition dict_of (pairs : list (string * string)) : dict :=
  fold_left (fun d kv => dict_set (fst kv) (snd kv) d) pairs [].

(** [k in d] for a string [k] *)
Definition dict_mem (k : string) (d : dict) : bool :=
  existsb (fun e => String.eqb k (fst e)) d.

Fixpoint dict_find (k : string) (d : dict) : option string :=
  match d with
  | [] => None
  | (k', v) :: d' => if String.eqb k k' then Some v else dict_find k d'
  end.

(** [d[key]] for a key that is an int or a string: an int is equal to
    no string. *)
Definition dict_get (d : dict) (key : label) : result string :=
  match key with
  | LStr k => match dict_find k d with
              | Some v => Ok v
              | None => Raise KeyError
              end
  | LInt _ => Raise KeyError
  end.

(** A cell of a sub-header row without text. *)
Definition is_padding (c : td) : bool :=
  match texts c with
  | [] => true
  | _ :: _ => false
  end.

(** Every character of [s] satisfies [p]. *)
Fixpoint string_forall (p : ascii -> bool) (s : string) : bool :=
  match s with
  | EmptyString => true
  | String c s' => p c && string_forall p s'
  end.

(** A non-empty string of digits. *)
Definition is_team_id (s : string) : Prop :=
  s <> EmptyString /\ string_forall Py.is_digit s = true.

Section TeamDict.
Context {T : Text}.

(** The [href]s and the texts of the team tabs of the league page. *)
Definition _getTeamDict (hrefs names : list string) : result dict :=
  teamIds <- Py.mapM (fun i => Py.item (findall1 teamIdRe i) 0) hrefs ;;
  let teamNames :=
    map (fun name => str_replace "  " " " (upper (strip name))) names in
  Ok (dict_of (combine teamIds teamNames)).

End TeamDict.

Section Assembly.
Context {N : Numeric}.

(** Every column has a cell for every row. *)
Definition aligned (df : frame) : bool :=
  forallb (fun c => (length (vals (snd c)) =? length (index df))%nat)
          (columns df).

(** The criterion of [df.select] in [_formatStandingsTable]. *)
Definition unnumbered (x : label) : result bool :=
  s <- str x ;; Ok (negb (found numberedRe s)).

(** The criterion of [df.select] in [_formatActiveStatsTable]. *)
Definition named (x : label) : result bool :=
  match x with
  | LStr s => Ok (negb (found unnamedRe s))
  | LInt _ => Raise TypeError
  end.

(** The column [_formatActiveStatsTable] splits, the columns it keeps
    of the table, and the text of a group of its pattern row by row. *)
Definition name_col : label := LStr "PLAYER, TEAM POS".

Definition not_name (c : label * series) : bool :=
  negb (existsb (label_eqb (fst c)) [name_col]).

Definition stats_group (g : nat) (c : series) : series :=
  {| dt := DObject;
     vals := map (fun x => nth g (extract_row statsRe x) NaN) (vals c) |}.

Definition type_col : label := LStr "TYPE".
Definition detail_col : label := LStr "DETAIL".

(** The DETAIL texts [_formatTransactionTable] reads from the cells. *)
Definition details_of (tds : list (list string)) : list string :=
  map (fun i => str_replace " ," ","
                  (str_replace "  " " " (Py.join " " i)))
      (stride 4 2 tds).

(** The table of [_formatTransactionTable] after the DATE and DETAIL
    columns have been assigned. *)
Definition with_texts (df : frame) (tds : list (list string)) : frame :=
  setcol (setcol df (LStr "DATE")
                 {| dt := DObject;
                    vals := map Str (map (Py.join " ") (stride 4 0 tds)) |})
         detail_col
         {| dt := DObject; vals := map Str (details_of tds) |}.

(** [s.str.match(k)] and [s.str.findall(p)] on one cell. *)
Definition in_family (k : Re.pattern) (c : cell) : cell :=
  match c with
  | Str t => Bool (match Re.match_ k t with
                   | Some _ => true
                   | None => false
                   end)
  | _ => NaN
  end.

Definition found_of (p : Re.pattern) (c : cell) : found_t :=
  match c with
  | Str t => Some (Re.findall p t)
  | _ => None
  end.

(** The entries of a series for the row label [l] in a left join, NaN
    when it has none. *)
Definition hits_of (s : list (Z * cell)) (l : Z) : list cell :=
  match map snd (filter (fun e => fst e =? l) s) with
  | [] => [NaN]
  | cs => cs
  end.

(** [df.columns.tolist()] *)
Definition labels (df : frame) : list label := map fst (columns df).

(** [League._downloadActiveStatsTable], from the table [pd.read_html]
    made of the fetched page, which is the state. *)
Definition _downloadActiveStatsTable (teamDict : dict) (teamId : label)
  : M frame :=
  known <~ read (fun _ => s <- str teamId ;; Ok (dict_mem s teamDict)) ;;
  if negb known then read (fun _ => Raise AssertionError)
  else
    teamName <~ read (fun _ => dict_get teamDict teamId) ;;
    df <~ _formatActiveStatsTable ;;
    read (fun _ =>
            let df := setcol df (LStr "MANAGER")
                             (broadcast df (Str teamName)) in
            let cols := labels df in
            last <- Py.item cols (-1) ;;
            select_cols ([last] ++ slice cols (-5) (-1)
                                ++ Py.slice_to cols (-5)) df).

(** [League._downloadStandingsTable], from the table regions of the
    fetched page, each with the frame [pd.read_html(..., skiprows=2)]
    makes of it. *)
Definition _downloadStandingsTable (tables : list (table * frame))
  : result (list frame) :=
  Py.mapM (fun t =>
             '(head, columns) <- _parseHeaders (fst t) ;;
             snd (_formatStandingsTable columns (snd t)))
          tables.

End Assembly.

(** An instance of [Text] for names in ASCII. *)
Definition ascii_upper (c : ascii) : ascii :=
  let n := nat_of_ascii c in
  if ((97 <=? n) && (n <=? 122))%nat then ascii_of_nat (n - 32) else c.

Fixpoint map_string (f : ascii -> ascii) (s : string) : string :=
  match s with
  | EmptyString => EmptyString
  | String c s' => String (f c) (map_string f s')
  end.

Definition AsciiText : Text :=
  {| strip := fun s => Py.rstrip (Py.lstrip s);
     upper := map_string ascii_upper |}.

End Pages.

(* ================================================================= *)
(** * Sample pages *)

Module Samples.
Import Headers Pandas Espn.
#[local] Existing Instance Decimal.

(** A header whose first row has three names and whose second has two. *)
Definition crowded : table :=
  {| tableHead := [Some "STANDINGS"];
     subHeads := [ [Td ["RANK"] None; Td ["TEAM"] None; Td ["TOTAL"] None];
                   [Td ["R"] None; Td ["HR"] None] ] |}.

Definition stats_header : table :=
  {| tableHead := [Some "SEASON STATS"];
     subHeads := [ [Td ["RANK"] None; Td ["TEAM"] None;
                    Td ["BATTING"] (Some "2"); Td [] None;
                    Td ["TOTAL"] None];
                   [Td ["R"] None; Td ["HR"] None] ] |}.

(** A header with a spanning cell in its second row. *)
Definition spanning : table :=
  {| tableHead := [Some "SEASON STATS"];
     subHeads := [ [Td ["RANK"] None; Td ["TEAM"] None;
                    Td ["BATTING"] (Some "2"); Td ["TOTAL"] None];
                   [Td ["STATS"] (Some "2")] ] |}.

Definition smith : string := ("Smith, NYY" ++ nbsp ++ "OF")%string.
Definition smith_keeper : string := (smith ++ keeperMark)%string.

Definition text (cs : list cell) : series := {| dt := DObject; vals := cs |}.
Definition numbers (cs : list cell) : series :=
  {| dt := DNumeric; vals := cs |}.

(** A block of an auction draft recap: the team in the first cell of
    the first row, then pick, player and price. *)
Definition auction_block : frame :=
  {| index := [0; 1; 2];
     columns :=
       [(LInt 0, text [Str "TEAM X"; Str "1"; Str "2"]);
        (LInt 1, text [NaN; Str smith; Str smith_keeper]);
        (LInt 2, text [NaN; Str "$5"; Str "$17"])] |}.

(** What [_formatAuctionTable] returns for it. *)
Definition auction_out : frame :=
  {| index := [1; 2];
     columns :=
       [(LStr "MANAGER", text [Str "TEAM X"; Str "TEAM X"]);
        (LStr "PLAYER", text [Str "Smith"; Str "Smith"]);
        (LStr "PICK", numbers [Num 1; Num 2]);
        (LStr "TEAM", text [Str "NYY"; Str "NYY"]);
        (LStr "POS", text [Str "OF"; Str "OF"]);
        (LStr "PRICE", numbers [Num 5; Num 17]);
        (LStr "KEEPER", text [Bool false; Bool true])] |}.

(** A block whose first row has an empty first cell and MANAGER_X in
    the second. *)
Definition misplaced_block : frame :=
  {| index := [0; 1];
     columns :=
       [(LInt 0, text [Str EmptyString; Str "1"]);
        (LInt 1, text [Str "MANAGER_X"; Str smith]);
        (LInt 2, text [Str EmptyString; Str "$5"])] |}.

(** A block of a snake draft recap. *)
Definition snake_block : frame :=
  {| index := [0; 1; 2];
     columns :=
       [(LInt 0, text [Str "ROUND 1"; Str "1"; Str "2"]);
        (LInt 1, text [NaN; Str smith; Str smith_keeper]);
        (LInt 2, text [NaN; Str "TEAM X"; Str "TEAM Y"])] |}.

(** What the statements of [_formatDraftTable] make of it when they
    run on it. *)
Definition snake_out : frame :=
  {| index := [1; 2];
     columns :=
       [(LStr "ROUND", text [Str "1"; Str "1"]);
        (LStr "PICK", numbers [Num 1; Num 2]);
        (LStr "MANAGER", text [Str "TEAM X"; Str "TEAM Y"]);
        (LStr "PLAYER", text [Str "Smith"; Str "Smith"]);
        (LStr "TEAM", text [Str "NYY"; Str "NYY"]);
        (LStr "POS", text [Str "OF"; Str "OF"]);
        (LStr "KEEPER", text [Bool false; Bool true])] |}.

(** A standings table with a spacer row, and its resolved columns. *)
Definition standings_raw : frame :=
  {| index := [0; 1; 2];
     columns :=
       [(LInt 0, numbers [Num 1; NaN; Num 2]);
        (LInt 1, text [Str "TEAM X"; NaN; Str "TEAM Y"]);
        (LInt 2, numbers [NaN; NaN; NaN]);
        (LInt 3, numbers [Num 40; NaN; Num 31])] |}.

Definition standings_columns : list label :=
  [LStr "RANK"; LStr "TEAM"; LInt 10; LStr "R"].

Definition jones : string :=
  ("Jones, BOS" ++ nbsp ++ "1B, OF" ++ nbsp ++ nbsp ++ "DTD")%string.

(** An active stats table: two players and the totals row.  The first
    player has a placeholder in HR only. *)
Definition stats_table : frame :=
  {| index := [0; 1; 2];
     columns :=
       [(LStr "PLAYER, TEAM POS", text [Str smith; Str jones; Str "TOTALS"]);
        (LStr "Unnamed: 1", numbers [NaN; NaN; NaN]);
        (LStr "AB", text [Str "12"; Str "--"; Str "30"]);
        (LStr "HR", text [Str "--"; Str "--"; Str "5"])] |}.

(** The same with a first row whose name cell is not in the pattern. *)
Definition stats_unmatched : frame :=
  {| index := [0; 1; 2];
     columns :=
       [(LStr "PLAYER, TEAM POS",
         text [Str "Smith NYY OF"; Str jones; Str "TOTALS"]);
        (LStr "Unnamed: 1", numbers [NaN; NaN; NaN]);
        (LStr "AB", text [Str "12"; Str "--"; Str "30"]);
        (LStr "HR", text [Str "7"; Str "--"; Str "5"])] |}.

(** A recent-activity table with one row of type Add/Drop, and the
    texts of its four cells. *)
Definition activity : frame :=
  {| index := [0];
     columns :=
       [(LStr "DATE", text [Str "Mon, Apr 3 9:15 AM"]);
        (LStr "TYPE",
         text [Str ("Transaction" ++ nbsp ++ nbsp ++ "Add/Drop")%string]);
        (LStr "DETAIL",
         text [Str "PlayerA dropped PlayerB, was sent to Waivers"]);
        (LStr "ACTION", numbers [NaN])] |}.

Definition activity_tds : list (list string) :=
  [ ["Mon, Apr 3"; "9:15 AM"];
    ["Transaction" ++ nbsp ++ nbsp ++ "Add/Drop"]%string;
    ["PlayerA dropped"; "PlayerB"; ", was sent to Waivers"];
    [] ].

End Samples.

(* ================================================================= *)
(** * Further sample pages *)

Module Examples.
Import Headers Pandas Espn Pages Samples.
#[local] Existing Instance Decimal.
#[local] Existing Instance AsciiText.

(** A header with three sub-header rows, and one without a heading. *)
Definition three_rows : table :=
  {| tableHead := [Some "STANDINGS"];
     subHeads := [ [Td ["RANK"] None]; [Td ["R"] None];
                   [Td ["HR"] None] ] |}.

Definition headless : table :=
  {| tableHead := []; subHeads := [ [Td ["RANK"] None] ] |}.

(** A header whose second row fills the first from its third column
    to its end. *)
Definition fitting : table :=
  {| tableHead := [Some "STANDINGS"];
     subHeads := [ [Td ["RANK"] None; Td ["TEAM"] None; Td [] None;
                    Td [] None];
                   [Td ["R"] None; Td ["HR"] None] ] |}.

(** A row of plain cells: names and padding. *)
Definition plain_row : list td :=
  [Td ["RANK"] None; Td [] None; Td ["TEAM"] None; Td [] (Some "2")].

(** A standings table as wide as the columns of [stats_header], with
    a spacer row. *)
Definition standings_wide : frame :=
  {| index := [0; 1; 2];
     columns :=
       [(LInt 0, numbers [Num 1; NaN; Num 2]);
        (LInt 1, text [Str "TEAM X"; NaN; Str "TEAM Y"]);
        (LInt 2, numbers [Num 40; NaN; Num 31]);
        (LInt 3, numbers [Num 9; NaN; Num 4]);
        (LInt 4, numbers [NaN; NaN; NaN]);
        (LInt 5, numbers [Num 15; NaN; Num 11])] |}.

Definition standings_page : list (table * frame) :=
  [(stats_header, standings_wide)].

(** What [_formatStandingsTable] returns for the samples. *)
Definition standings_out : frame :=
  {| index := [0; 2];
     columns :=
       [(LStr "RANK", numbers [Num 1; Num 2]);
        (LStr "TEAM", text [Str "TEAM X"; Str "TEAM Y"]);
        (LStr "R", numbers [Num 40; Num 31])] |}.

(** Its first column once the spacer row is gone. *)
Definition ranks : series := numbers [Num 1; Num 2].

Definition standings_wide_out : frame :=
  {| index := [0; 2];
     columns :=
       [(LStr "RANK", numbers [Num 1; Num 2]);
        (LStr "TEAM", text [Str "TEAM X"; Str "TEAM Y"]);
        (LStr "R", numbers [Num 40; Num 31]);
        (LStr "HR", numbers [Num 9; Num 4]);
        (LStr "TOTAL", numbers [Num 15; Num 11])] |}.

(** What [_formatActiveStatsTable] returns for [stats_table]. *)
Definition stats_out : frame :=
  {| index := [0; 1];
     columns :=
       [(LStr "AB", numbers [Num 12; NaN]);
        (LStr "HR", text [Str "--"; NaN]);
        (LStr "PLAYER", text [Str "Smith"; Str "Jones"]);
        (LStr "TEAM", text [Str "NYY"; Str "BOS"]);
        (LStr "POS", text [Strs ["OF"]; Strs ["1B"; "OF"]]);
        (LStr "DTD",
         text [Str EmptyString; Str (nbsp ++ nbsp ++ "DTD")%string])] |}.

(** An active stats table with no row at all, and one with two
    columns only. *)
Definition stats_empty : frame :=
  {| index := [];
     columns :=
       [(LStr "PLAYER, TEAM POS", text []);
        (LStr "Unnamed: 1", numbers []);
        (LStr "AB", numbers [])] |}.

Definition stats_narrow : frame :=
  {| index := [0; 1];
     columns :=
       [(LStr "PLAYER, TEAM POS", text [Str smith; Str "TOTALS"]);
        (LStr "AB", text [Str "12"; Str "30"])] |}.

(** What [_formatAuctionDraftTable] returns for [auction_block]. *)
Definition auction_derived : frame :=
  {| index := [0; 1; 2];
     columns :=
       [(LStr "PLAYER", text [NaN; Str "Smith"; Str "Smith"]);
        (LStr "TEAM", text [NaN; Str "NYY"; Str "NYY"]);
        (LStr "POS", text [NaN; Str "OF"; Str "OF"]);
        (LStr "KEEPER", text [NaN; Bool false; Bool true])] |}.

(** The team links of a league page and the team names beside them. *)
Definition team_links : list string :=
  ["/flb/clubhouse?leagueId=1&teamId=3&seasonId=2016";
   "/flb/clubhouse?leagueId=1&teamId=12&seasonId=2016"].

Definition team_names : list string :=
  [" Team  x "; "team y"].

Definition team_dict : dict := [("3", "TEAM X"); ("12", "TEAM Y")].

Definition standings_link : string := "/flb/standings?leagueId=1".

(** A recent-activity table whose one row, of type Add/Drop, names a
    dropped and an added player, and the texts of its cells. *)
Definition add_drop_type : string :=
  ("Transaction" ++ nbsp ++ nbsp ++ "Add/Drop")%string.

Definition add_drop_detail : string :=
  ("Lions dropped PlayerB, NYY OF to Waivers " ++
   "Lions added PlayerA, BOS 1B from Free Agency")%string.

Definition swap : frame :=
  {| index := [0];
     columns :=
       [(LStr "DATE", text [Str "Mon, Apr 3 9:15 AM"]);
        (LStr "TYPE", text [Str add_drop_type]);
        (LStr "DETAIL", text [Str add_drop_detail]);
        (LStr "ACTION", numbers [NaN])] |}.

Definition swap_tds : list (list string) :=
  [ ["Mon, Apr 3"; "9:15 AM"];
    [add_drop_type];
    ["Lions dropped"; "PlayerB"; ", NYY OF to Waivers";
     "Lions added"; "PlayerA"; ", BOS 1B from Free Agency"];
    [] ].

(** What [_formatTransactionTable] returns for it. *)
Definition swap_out : frame :=
  {| index := [0; 0];
     columns :=
       [(LStr "DATE",
         text [Str "Mon, Apr 3 9:15 AM"; Str "Mon, Apr 3 9:15 AM"]);
        (LStr "TYPE", text [Str add_drop_type; Str add_drop_type]);
        (LStr "DETAIL", text [Str add_drop_detail; Str add_drop_detail]);
        (LStr "ACTION", numbers [NaN; NaN]);
        (LStr "TRANSACTION",
         text [Tuples [["Lions"; "PlayerB"; "Waivers"];
                       ["Free Agency"; "PlayerA"]];
               Tuples [["Free Agency"; "PlayerA"; "Lions"]]])] |}.

(** A recent-activity table whose one row is a roster move. *)
Definition roster_move : frame :=
  {| index := [0];
     columns :=
       [(LStr "DATE", text [Str "Mon, Apr 3 9:15 AM"]);
        (LStr "TYPE", text [Str "Roster"]);
        (LStr "DETAIL", text [Str "Lions moved PlayerA"]);
        (LStr "ACTION", numbers [NaN])] |}.

Definition roster_tds : list (list string) :=
  [ ["Mon, Apr 3"; "9:15 AM"];
    ["Roster"];
    ["Lions moved"; "PlayerA"];
    [] ].

End Examples.

(* ================================================================= *)
(** * Properties of header resolution *)

Section HeaderFacts.
Import Headers Samples.

Lemma slice_to_2_length {A} (l : list A) :
  (2 <= length l)%nat -> length (Py.slice_to l 2) = 2%nat.
Proof.
  intros H. unfold Py.slice_to. change (2 <? 0) with false. cbv iota.
  rewrite length_firstn. change (Z.to_nat 2) with 2%nat. lia.
Qed.

Lemma slice_from_neg_length {A} (l : list A) (n : Z) :
  0 < n <= Py.len l ->
  length (Py.slice_from l (- n)) = Z.to_nat n.
Proof.
  intros H. unfold Py.slice_from, Py.len in *.
  destruct (Z.ltb_spec (- n) 0); [|lia].
  rewrite length_skipn. lia.
Qed.

Lemma merge_length (r1 r2 : list label) :
  (length r2 + 2 < length r1)%nat ->
  length (merge r1 r2) = length r1.
Proof.
  intros H. unfold merge.
  rewrite !length_app, slice_to_2_length by lia.
  rewrite slice_from_neg_length; unfold Py.len; lia.
Qed.

(** C1, as stated, fails: with L1 = 3 and L2 = 2 (so L2 >= L1 - 2) the
    merged list has six entries, not three. *)
Lemma merged_length_counterexample :
  scanRow 10 [Td ["RANK"] None; Td ["TEAM"] None; Td ["TOTAL"] None]
  = Ok ([LStr "RANK"; LStr "TEAM"; LStr "TOTAL"], 10) /\
  scanRow 10 [Td ["R"] None; Td ["HR"] None]
  = Ok ([LStr "R"; LStr "HR"], 10) /\
  _parseHeaders crowded
  = Ok (Some "STANDINGS",
        [LStr "RANK"; LStr "TEAM"; LStr "R"; LStr "HR";
         LStr "TEAM"; LStr "TOTAL"]) /\
  length [LStr "RANK"; LStr "TEAM"; LStr "R"; LStr "HR";
          LStr "TEAM"; LStr "TOTAL"] <> 3%nat.
Proof.
  repeat split; try reflexivity. discriminate.
Qed.

(** With N = 0 the slice [subHead1[-0:]] is the whole first row. *)
Example merge_without_tail :
  merge [LStr "RANK"; LStr "TEAM"] []
  = [LStr "RANK"; LStr "TEAM"; LStr "RANK"; LStr "TEAM"].
Proof. reflexivity. Qed.

(** C1 (amended): for a two-row header whose rows resolve to L1 and L2
    entries with L2 < L1 - 2, that is N = L1 - 2 - L2 >= 1, header
    resolution succeeds and the merged column list has exactly L1
    entries. *)
Theorem merged_length (t : table) (h : option string)
        (hs : list (option string)) (row1 row2 : list td)
        (r1 r2 : list label) (c1 c2 : Z) :
  tableHead t = h :: hs ->
  subHeads t = [row1; row2] ->
  scanRow 10 row1 = Ok (r1, c1) ->
  scanRow c1 row2 = Ok (r2, c2) ->
  (length r2 + 2 < length r1)%nat ->
  exists cols,
    _parseHeaders t = Ok (h, cols) /\ length cols = length r1.
Proof.
  intros Hh Hs H1 H2 Hlen.
  exists (merge r1 r2). split.
  - unfold _parseHeaders. rewrite Hh, Hs. cbn.
    rewrite H1. cbn. rewrite H2. reflexivity.
  - now apply merge_length.
Qed.

Lemma merged_length_witness :
  exists cols,
    _parseHeaders stats_header = Ok (Some "SEASON STATS", cols) /\
    length cols = 6%nat.
Proof.
  apply (merged_length stats_header (Some "SEASON STATS") []
           [Td ["RANK"] None; Td ["TEAM"] None; Td ["BATTING"] (Some "2");
            Td [] None; Td ["TOTAL"] None]
           [Td ["R"] None; Td ["HR"] None]
           [LStr "RANK"; LStr "TEAM"; LInt 10; LInt 10; LInt 11; LStr "TOTAL"]
           [LStr "R"; LStr "HR"] 12 12);
    try reflexivity.
  simpl. lia.
Defined.

(** ** The synthetic names *)

Lemma scanTd_bounds c cell here c' :
  scanTd c cell = Ok (here, c') ->
  c <= c' /\ forall k, In (LInt k) here -> c <= k < c'.
Proof.
  unfold scanTd. destruct (texts cell) as [|x xs].
  - intros E. inversion E; subst. split; [lia|].
    intros k [Hk|[]]. inversion Hk. lia.
  - destruct (colspan cell) as [a|].
    + destruct (Py.int a) as [n|e]; cbn; intros E; inversion E; subst.
      split; [lia|]. intros k Hk.
      apply repeat_spec in Hk. inversion Hk. lia.
    + intros E. inversion E; subst. split; [lia|].
      intros k [Hk|[]]. discriminate.
Qed.

Lemma scanRow_bounds tds : forall c row c',
  scanRow c tds = Ok (row, c') ->
  c <= c' /\ forall k, In (LInt k) row -> c <= k < c'.
Proof.
  induction tds as [|cell tds IH]; intros c row c'; cbn.
  - intros E. inversion E; subst. split; [lia|]. intros k [].
  - destruct (scanTd c cell) as [[here c1]|e] eqn:E1; cbn; [|discriminate].
    destruct (scanRow c1 tds) as [[rest c2]|e] eqn:E2; cbn; [|discriminate].
    intros E. inversion E; subst.
    apply scanTd_bounds in E1. apply IH in E2.
    destruct E1 as [L1 B1], E2 as [L2 B2]. split; [lia|].
    intros k Hk. apply in_app_or in Hk as [Hk|Hk].
    + specialize (B1 k Hk). lia.
    + specialize (B2 k Hk). lia.
Qed.

Lemma scanRow_app pre : forall c post row c',
  scanRow c (pre ++ post) = Ok (row, c') ->
  exists rpre cpre rpost,
    scanRow c pre = Ok (rpre, cpre) /\
    scanRow cpre post = Ok (rpost, c') /\
    row = rpre ++ rpost.
Proof.
  induction pre as [|cell pre IH]; intros c post row c'; cbn.
  - intros E. exists [], c, row. auto.
  - destruct (scanTd c cell) as [[here c1]|e] eqn:E1; cbn; [|discriminate].
    destruct (scanRow c1 (pre ++ post)) as [[rest c2]|e] eqn:E2; cbn;
      [|discriminate].
    intros E. inversion E; subst.
    destruct (IH _ _ _ _ E2) as (rpre & cpre & rpost & Hp & Hq & ->).
    exists (here ++ rpre), cpre, rpost. rewrite Hp. cbn.
    rewrite app_assoc. auto.
Qed.

(** C10, as stated, fails: a cell with column-span 2 contributes the
    same name twice and uses up one counter value (the next cell gets
    11, not 12), and the resolved list has a duplicate. *)
Lemma unique_columns_counterexample :
  scanRow 10 [Td ["BATTING"] (Some "2"); Td [] None]
  = Ok ([LInt 10; LInt 10; LInt 11], 12) /\
  _parseHeaders spanning
  = Ok (Some "SEASON STATS",
        [LStr "RANK"; LStr "TEAM"; LInt 11; LInt 11; LStr "TOTAL"]) /\
  ~ NoDup [LStr "RANK"; LStr "TEAM"; LInt 11; LInt 11; LStr "TOTAL"].
Proof.
  repeat split; try reflexivity.
  intros H. inversion H as [|? ? _ H1]; subst.
  inversion H1 as [|? ? _ H2]; subst.
  inversion H2 as [|? ? H3 _]; subst.
  apply H3. now left.
Qed.

(** C10 (amended): a sub-header cell with text and column-span N
    contributes N copies of one synthetic name, the counter value on
    reaching the cell, and uses up that one value; every synthetic
    name the other cells of the row contribute is different from it. *)
Theorem colspan_placeholders (c : Z) (pre post : list td) (cell : td)
        (row : list label) (c' : Z) (a : string) (n : Z) :
  texts cell <> [] ->
  colspan cell = Some a ->
  Py.int a = Ok n ->
  scanRow c (pre ++ cell :: post) = Ok (row, c') ->
  exists rpre cpre rpost,
    scanRow c pre = Ok (rpre, cpre) /\
    scanRow (cpre + 1) post = Ok (rpost, c') /\
    row = rpre ++ repeat (LInt cpre) (Z.to_nat n) ++ rpost /\
    (forall k, In (LInt k) rpre -> k < cpre) /\
    (forall k, In (LInt k) rpost -> cpre < k).
Proof.
  intros Ht Hc Hn H.
  apply scanRow_app in H as (rpre & cpre & rest & Hpre & Hrest & ->).
  cbn in Hrest. unfold scanTd in Hrest.
  destruct (texts cell) as [|x xs]; [congruence|].
  rewrite Hc, Hn in Hrest. cbn in Hrest.
  destruct (scanRow (cpre + 1) post) as [[rpost c2]|e] eqn:Hpost;
    cbn in Hrest; [|discriminate].
  inversion Hrest; subst.
  exists rpre, cpre, rpost. repeat split; auto.
  - intros k Hk. apply scanRow_bounds in Hpre as [_ B]. specialize (B k Hk). lia.
  - intros k Hk. apply scanRow_bounds in Hpost as [_ B]. specialize (B k Hk). lia.
Qed.

Lemma colspan_placeholders_witness :
  exists rpre cpre rpost,
    scanRow 10 [Td [] None] = Ok (rpre, cpre) /\
    scanRow (cpre + 1) [Td [] None] = Ok (rpost, 13) /\
    [LInt 10; LInt 11; LInt 11; LInt 11; LInt 12]
    = rpre ++ repeat (LInt cpre) (Z.to_nat 3) ++ rpost /\
    (forall k, In (LInt k) rpre -> k < cpre) /\
    (forall k, In (LInt k) rpost -> cpre < k).
Proof.
  apply (colspan_placeholders 10 [Td [] None] [Td [] None]
           (Td ["PITCHING"] (Some "3"))
           [LInt 10; LInt 11; LInt 11; LInt 11; LInt 12] 13 "3" 3).
  - discriminate.
  - reflexivity.
  - reflexivity.
  - reflexivity.
Defined.

End HeaderFacts.

(* ================================================================= *)
(** * Facts about frames *)

Section FrameFacts.
Import Pandas.
Context {N : Numeric}.

Lemma label_eqb_eq (a b : label) : label_eqb a b = true <-> a = b.
Proof.
  destruct a, b; cbn; split; intros H; try discriminate; try congruence.
  - apply Z.eqb_eq in H. congruence.
  - inversion H. apply Z.eqb_refl.
  - apply String.eqb_eq in H. congruence.
  - inversion H. apply String.eqb_refl.
Qed.

Lemma label_eqb_refl (a : label) : label_eqb a a = true.
Proof. now apply label_eqb_eq. Qed.

Lemma label_eqb_neq (a b : label) : a <> b -> label_eqb a b = false.
Proof.
  intros H. destruct (label_eqb a b) eqn:E; [|reflexivity].
  apply label_eqb_eq in E. contradiction.
Qed.

Lemma lookup_absent l cols : mentions l cols = false -> lookup l cols = None.
Proof.
  unfold mentions. induction cols as [|[l' s] cols IH]; cbn; [reflexivity|].
  destruct (label_eqb l l'); cbn; [discriminate|exact IH].
Qed.

Lemma lookup_present l cols :
  mentions l cols = true -> exists s, lookup l cols = Some s.
Proof.
  unfold mentions. induction cols as [|[l' s] cols IH]; cbn; [discriminate|].
  destruct (label_eqb l l'); cbn; [eauto|exact IH].
Qed.

Lemma lookup_some_present l cols s :
  lookup l cols = Some s -> mentions l cols = true.
Proof.
  unfold mentions. induction cols as [|[l' s'] cols IH]; cbn; [discriminate|].
  destruct (label_eqb l l'); cbn; auto.
Qed.

Lemma mentions_app l a b : mentions l (a ++ b) = mentions l a || mentions l b.
Proof. unfold mentions. apply existsb_app. Qed.

Lemma lookup_app l a b :
  lookup l (a ++ b) = match lookup l a with
                      | Some s => Some s
                      | None => lookup l b
                      end.
Proof.
  induction a as [|[l' s] a IH]; cbn; [reflexivity|].
  destruct (label_eqb l l'); auto.
Qed.

Lemma set_assoc_app_absent l s a b :
  mentions l a = false -> set_assoc l s (a ++ b) = a ++ set_assoc l s b.
Proof.
  unfold mentions. induction a as [|[l' s'] a IH]; cbn; [reflexivity|].
  destruct (label_eqb l l'); cbn; [discriminate|].
  intros H. now rewrite IH.
Qed.

Lemma lookup_set_assoc_same l s cols : lookup l (set_assoc l s cols) = Some s.
Proof.
  induction cols as [|[l' s'] cols IH]; cbn.
  - now rewrite label_eqb_refl.
  - destruct (label_eqb l l') eqn:E; cbn.
    + now rewrite label_eqb_refl.
    + now rewrite E.
Qed.

Lemma lookup_set_assoc_other l l' s cols :
  l <> l' -> lookup l (set_assoc l' s cols) = lookup l cols.
Proof.
  intros Hne. induction cols as [|[l2 s2] cols IH]; cbn.
  - now rewrite label_eqb_neq.
  - destruct (label_eqb l' l2) eqn:E; cbn.
    + apply label_eqb_eq in E. subst l2.
      now rewrite label_eqb_neq.
    + destruct (label_eqb l l2); auto.
Qed.

Lemma set_assoc_twice l s s' cols :
  set_assoc l s' (set_assoc l s cols) = set_assoc l s' cols.
Proof.
  induction cols as [|[l2 s2] cols IH]; cbn.
  - now rewrite label_eqb_refl.
  - destruct (label_eqb l l2) eqn:E; cbn.
    + now rewrite label_eqb_refl.
    + now rewrite E, IH.
Qed.

Lemma getcol_setcol_same df l s : getcol (setcol df l s) l = Ok s.
Proof. unfold getcol, setcol. cbn. now rewrite lookup_set_assoc_same. Qed.

Lemma getcol_setcol_other df l l' s :
  l <> l' -> getcol (setcol df l' s) l = getcol df l.
Proof.
  intros H. unfold getcol, setcol. cbn.
  now rewrite lookup_set_assoc_other.
Qed.

Lemma setcol_setcol df l s s' :
  setcol (setcol df l s) l s' = setcol df l s'.
Proof. unfold setcol. cbn. now rewrite set_assoc_twice. Qed.

Lemma loc_set_ok mask l v df s :
  getcol df l = Ok s ->
  loc_set mask l v df
  = Ok (setcol df l {| dt := dt s;
                       vals := map2 (fun (m : bool) c => if m then v else c)
                                    mask (vals s) |}).
Proof. intros H. unfold loc_set. now rewrite H. Qed.

Lemma lookup_filter_kept l labs cols :
  existsb (label_eqb l) labs = false ->
  lookup l (filter (fun c => negb (existsb (label_eqb (fst c)) labs)) cols)
  = lookup l cols.
Proof.
  intros H. induction cols as [|[l' s] cols IH]; cbn; [reflexivity|].
  destruct (label_eqb l l') eqn:E.
  - apply label_eqb_eq in E. subst l'. rewrite H. cbn.
    now rewrite label_eqb_refl.
  - destruct (existsb (label_eqb l') labs); cbn; [exact IH|].
    now rewrite E.
Qed.

Lemma lookup_rows_of l mask df :
  lookup l (columns (rows_of mask df))
  = option_map (fun s => {| dt := dt s; vals := pick mask (vals s) |})
               (lookup l (columns df)).
Proof.
  unfold rows_of. cbn. induction (columns df) as [|[l' s] cols IH]; cbn;
    [reflexivity|].
  destruct (label_eqb l l'); auto.
Qed.

Lemma pick_map_filter {A} (f : A -> bool) (l : list A) :
  pick (map f l) l = filter f l.
Proof.
  induction l as [|x l IH]; cbn; [reflexivity|].
  destruct (f x); now rewrite IH.
Qed.

Lemma pick_repeat {A B} (f : B -> bool) (idx : list B) (x : A) :
  pick (map f idx) (repeat x (length idx))
  = repeat x (length (filter f idx)).
Proof.
  induction idx as [|i idx IH]; cbn; [reflexivity|].
  destruct (f i); cbn; now rewrite IH.
Qed.

Lemma map2_map_self {A B} (f : bool -> A -> B) (g : A -> bool) (l : list A) :
  map2 f (map g l) l = map (fun x => f (g x) x) l.
Proof.
  induction l as [|x l IH]; cbn; [reflexivity|]. now rewrite IH.
Qed.

End FrameFacts.

(* ================================================================= *)
(** * Properties of the draft formatters *)

Section DraftFacts.
Import Pandas Espn.
Context {N : Numeric}.

Lemma str_extract_draft (c1 : series) :
  is_object (dt c1) = true ->
  str_extract draftRe c1
  = Ok [(LStr "PLAYER", group_col 0 c1);
        (LStr "TEAM", group_col 1 c1);
        (LStr "POS", group_col 2 c1);
        (LStr "KEEPER", group_col 3 c1)].
Proof.
  intros H. unfold str_extract. rewrite H. cbn.
  unfold group_col. now rewrite !map_map.
Qed.

Lemma keeper_assignments (k : list cell) :
  let k1 := map2 (fun (m : bool) c => if m then Bool true else c)
                 (map (eq_str keeperMark) k) k in
  map2 (fun (m : bool) c => if m then Bool false else c) (map py_not k1) k1
  = map keeper_flag k.
Proof.
  cbn. rewrite !map2_map_self, map_map. reflexivity.
Qed.

(** [_formatAuctionDraftTable] in closed form: when it raises and what
    it returns. *)
Lemma formatAuctionDraftTable_eq (df : frame) :
  _formatAuctionDraftTable df
  = match getcol df (LInt 1) with
    | Raise e => Raise e
    | Ok c1 =>
        if negb (is_object (dt c1)) then Raise AttributeError
        else if existsb (fun c => has_col df (fst c)) (derived c1)
             then Raise ValueError
             else if negb (has_col df (LInt 0) && has_col df (LInt 2))
                  then Raise ValueError
                  else Ok {| index := index df;
                             columns := filter kept (columns df)
                                        ++ derived c1 |}
    end.
Proof.
  unfold _formatAuctionDraftTable.
  destruct (getcol df (LInt 1)) as [c1|e] eqn:E1; cbn [Py.bind];
    [|reflexivity].
  destruct (is_object (dt c1)) eqn:Eo; cbn [negb].
  2:{ unfold str_extract. rewrite Eo. reflexivity. }
  rewrite (str_extract_draft c1 Eo). cbn [Py.bind].
  unfold join.
  change (existsb (fun c => has_col df (fst c))
                  [(LStr "PLAYER", group_col 0 c1);
                   (LStr "TEAM", group_col 1 c1);
                   (LStr "POS", group_col 2 c1);
                   (LStr "KEEPER", group_col 3 c1)])
    with (existsb (fun c => has_col df (fst c)) (derived c1)).
  destruct (existsb (fun c => has_col df (fst c)) (derived c1)) eqn:Hov;
    [reflexivity|].
  cbn [Py.bind].
  assert (Hk : mentions (LStr "KEEPER") (columns df) = false).
  { cbn in Hov. unfold has_col in Hov.
    destruct (mentions (LStr "KEEPER") (columns df)); [|reflexivity].
    now rewrite !orb_true_r in Hov. }
  match goal with
  | |- context [getcol ?d (LStr "KEEPER")] => set (D := d)
  end.
  assert (HD : getcol D (LStr "KEEPER") = Ok (group_col 3 c1)).
  { unfold getcol, D. cbn [columns]. rewrite lookup_app, (lookup_absent _ _ Hk).
    reflexivity. }
  rewrite HD. cbn [Py.bind].
  rewrite (loc_set_ok _ _ _ _ _ HD). cbn [Py.bind].
  rewrite getcol_setcol_same. cbn [Py.bind].
  rewrite (loc_set_ok _ _ _ _ _ (getcol_setcol_same _ _ _)).
  cbn [Py.bind dt vals]. rewrite setcol_setcol.
  change (String "160" (String "160" "K")) with keeperMark.
  rewrite (keeper_assignments (vals (group_col 3 c1))).
  unfold setcol, D. cbn [columns index].
  rewrite (set_assoc_app_absent _ _ _ _ Hk).
  unfold drop_cols, has_col. cbn [columns index].
  assert (H1 : mentions (LInt 1) (columns df) = true).
  { unfold getcol in E1.
    destruct (lookup (LInt 1) (columns df)) eqn:El; [|discriminate].
    eapply lookup_some_present; eauto. }
  cbn [forallb]. rewrite !mentions_app, H1.
  replace (mentions (LInt 0) (set_assoc _ _ _)) with false by reflexivity.
  replace (mentions (LInt 2) (set_assoc _ _ _)) with false by reflexivity.
  rewrite !orb_false_r. cbn [orb andb].
  rewrite andb_true_r.
  destruct (mentions (LInt 0) (columns df)); cbn [andb negb]; [|reflexivity].
  destruct (mentions (LInt 2) (columns df)); cbn [andb negb]; [|reflexivity].
  rewrite filter_app. reflexivity.
Qed.


Lemma formatAuctionDraftTable_inv (df out : frame) :
  _formatAuctionDraftTable df = Ok out ->
  exists c1,
    getcol df (LInt 1) = Ok c1 /\
    out = {| index := index df;
             columns := filter kept (columns df) ++ derived c1 |}.
Proof.
  rewrite formatAuctionDraftTable_eq.
  destruct (getcol df (LInt 1)) as [c1|e]; [|discriminate].
  destruct (negb (is_object (dt c1))); [discriminate|].
  destruct (existsb _ (derived c1)); [discriminate|].
  destruct (negb _); [discriminate|].
  intros H. inversion H. eauto.
Qed.

Lemma formatAuctionDraftTable_ok (df : frame) (c1 : series) :
  draft_shape df = true ->
  getcol df (LInt 1) = Ok c1 ->
  _formatAuctionDraftTable df
  = Ok {| index := index df;
          columns := filter kept (columns df) ++ derived c1 |}.
Proof.
  unfold draft_shape. intros Hs Hc. rewrite Hc in Hs.
  rewrite formatAuctionDraftTable_eq, Hc.
  apply andb_prop in Hs as [Hs H2]. apply andb_prop in Hs as [Hs H0].
  apply andb_prop in Hs as [Ho Hov].
  rewrite Ho, H0, H2. apply negb_true_iff in Hov. rewrite Hov.
  reflexivity.
Qed.

Lemma mentions_filter l p cols :
  mentions l cols = false -> mentions l (filter p cols) = false.
Proof.
  unfold mentions. induction cols as [|c cols IH]; cbn; [reflexivity|].
  intros H. apply orb_false_iff in H as [H1 H2].
  destruct (p c); cbn; [rewrite H1|]; auto.
Qed.

(** The cell of a derived column in the closed form. *)
Lemma iat_derived (df : frame) (c1 : series) (l : label) (i : nat) :
  has_col df l = false ->
  iat {| index := index df;
         columns := filter kept (columns df) ++ derived c1 |} l i
  = match lookup l (derived c1) with
    | Some s => nth_error (vals s) i
    | None => None
    end.
Proof.
  intros H. unfold iat. cbn [columns].
  rewrite lookup_app, lookup_absent; [reflexivity|].
  now apply mentions_filter.
Qed.

Lemma shape_no_overlap (df : frame) (c1 : series) :
  draft_shape df = true ->
  getcol df (LInt 1) = Ok c1 ->
  has_col df (LStr "PLAYER") = false /\
  has_col df (LStr "TEAM") = false /\
  has_col df (LStr "POS") = false /\
  has_col df (LStr "KEEPER") = false.
Proof.
  unfold draft_shape. intros Hs Hc. rewrite Hc in Hs.
  apply andb_prop in Hs as [Hs _]. apply andb_prop in Hs as [Hs _].
  apply andb_prop in Hs as [_ Hov]. apply negb_true_iff in Hov.
  cbn in Hov.
  destruct (has_col df (LStr "PLAYER")); [discriminate|].
  destruct (has_col df (LStr "TEAM")); [discriminate|].
  destruct (has_col df (LStr "POS")); [discriminate|].
  destruct (has_col df (LStr "KEEPER")); [discriminate|].
  auto.
Qed.

(** What the four derived columns hold in row [i], from the cell [c]
    of raw column 1 in that row. *)
Lemma derived_cells (df : frame) (c1 : series) (i : nat) (c : cell) :
  draft_shape df = true ->
  getcol df (LInt 1) = Ok c1 ->
  nth_error (vals c1) i = Some c ->
  exists out,
    _formatAuctionDraftTable df = Ok out /\
    index out = index df /\
    iat out (LStr "PLAYER") i = Some (nth 0 (extract_row draftRe c) NaN) /\
    iat out (LStr "TEAM") i = Some (nth 1 (extract_row draftRe c) NaN) /\
    iat out (LStr "POS") i = Some (nth 2 (extract_row draftRe c) NaN) /\
    iat out (LStr "KEEPER") i
    = Some (keeper_flag (nth 3 (extract_row draftRe c) NaN)).
Proof.
  intros Hs Hc Hi.
  destruct (shape_no_overlap df c1 Hs Hc) as (Hp & Ht & Hq & Hk).
  eexists. split; [apply (formatAuctionDraftTable_ok df c1 Hs Hc)|].
  split; [reflexivity|].
  rewrite !iat_derived by assumption. cbn.
  rewrite !map_map. 
  repeat split;
    (erewrite map_nth_error; [reflexivity|exact Hi]).
Qed.

(** C9: on a frame [_formatAuctionDraftTable] accepts, a row whose
    composite text is "Smith, NYY\xa0OF" gets PLAYER "Smith", TEAM
    "NYY", POS "OF" and KEEPER False, and a row whose text has the
    keeper marker "\xa0\xa0K" after it gets the same with KEEPER
    True. *)
Theorem keeper_extraction (df : frame) (c1 : series) (i : nat) (k : bool) :
  draft_shape df = true ->
  getcol df (LInt 1) = Ok c1 ->
  nth_error (vals c1) i
  = Some (Str ("Smith, NYY" ++ nbsp ++ "OF"
               ++ if k then keeperMark else EmptyString)%string) ->
  exists out,
    _formatAuctionDraftTable df = Ok out /\
    iat out (LStr "PLAYER") i = Some (Str "Smith") /\
    iat out (LStr "TEAM") i = Some (Str "NYY") /\
    iat out (LStr "POS") i = Some (Str "OF") /\
    iat out (LStr "KEEPER") i = Some (Bool k).
Proof.
  intros Hs Hc Hi.
  destruct (derived_cells df c1 i _ Hs Hc Hi)
    as (out & Ho & _ & Hp & Ht & Hq & Hk).
  exists out. split; [exact Ho|].
  rewrite Hp, Ht, Hq, Hk. destruct k; repeat split; reflexivity.
Qed.

(** X19: Player/Team/Position/Keeper extraction is soft per row.  On a
    frame it accepts, [_formatAuctionDraftTable] returns a frame with
    every row of its input, and a row whose composite cell is no
    string or does not match the pattern has NaN in PLAYER, TEAM, POS
    and KEEPER. *)
Theorem draft_extraction_soft (df : frame) (c1 : series) :
  draft_shape df = true ->
  getcol df (LInt 1) = Ok c1 ->
  exists out,
    _formatAuctionDraftTable df = Ok out /\
    index out = index df /\
    forall i c,
      nth_error (vals c1) i = Some c ->
      (forall s, c = Str s -> Re.search draftRe s = None) ->
      iat out (LStr "PLAYER") i = Some NaN /\
      iat out (LStr "TEAM") i = Some NaN /\
      iat out (LStr "POS") i = Some NaN /\
      iat out (LStr "KEEPER") i = Some NaN.
Proof.
  intros Hs Hc.
  eexists. split; [apply (formatAuctionDraftTable_ok df c1 Hs Hc)|].
  split; [reflexivity|].
  intros i c Hi Hno.
  destruct (derived_cells df c1 i c Hs Hc Hi)
    as (out & Ho & _ & Hp & Ht & Hq & Hk).
  rewrite (formatAuctionDraftTable_ok df c1 Hs Hc) in Ho.
  inversion Ho as [Heq]. rewrite Heq, Hp, Ht, Hq, Hk.
  assert (Hrow : extract_row draftRe c = repeat NaN 4).
  { destruct c; try reflexivity.
    unfold extract_row. now rewrite (Hno s eq_refl). }
  rewrite Hrow. repeat split; reflexivity.
Qed.

End DraftFacts.
(* ================================================================= *)
(** * Properties of [_formatAuctionTable] and [_formatDraft] *)

Section AuctionFacts.
Import Pandas Espn.
Context {N : Numeric}.

Lemma getcol_rows_of mask df l s :
  getcol df l = Ok s ->
  getcol (rows_of mask df) l
  = Ok {| dt := dt s; vals := pick mask (vals s) |}.
Proof.
  unfold getcol. rewrite lookup_rows_of.
  destruct (lookup l (columns df)); [|discriminate].
  intros H. inversion H. reflexivity.
Qed.

Lemma drop_rows_inv labs df df' :
  drop_rows labs df = Ok df' ->
  df' = rows_of (map (fun l => negb (mem l labs)) (index df)) df.
Proof.
  unfold drop_rows. destruct (forallb _ labs); [|discriminate].
  intros H. now inversion H.
Qed.

Lemma select_cols_head l labs df out :
  select_cols (l :: labs) df = Ok out ->
  index out = index df /\ getcol out l = getcol df l.
Proof.
  unfold select_cols. cbn.
  destruct (getcol df l) as [s|e] eqn:E; cbn; [|discriminate].
  destruct (Py.mapM _ labs) as [cols|e]; cbn; [|discriminate].
  intros H. inversion H. split; [reflexivity|].
  unfold getcol. cbn. now rewrite label_eqb_refl.
Qed.

Lemma getcol_formatted l df out :
  _formatAuctionDraftTable df = Ok out ->
  existsb (label_eqb l) raw_cols = false ->
  has_col df l = true ->
  index out = index df /\ getcol out l = getcol df l.
Proof.
  intros H Hl Hc.
  apply formatAuctionDraftTable_inv in H as (c1 & _ & ->).
  split; [reflexivity|].
  unfold getcol. cbn [columns]. rewrite lookup_app.
  unfold kept. rewrite (lookup_filter_kept l raw_cols _ Hl).
  destruct (lookup_present _ _ Hc) as [s Hs]. now rewrite Hs.
Qed.

(** C4 (amended): for an auction block whose carrier row (label 0) has
    the manager name in its first cell, column 0, a formatting that
    returns gives every remaining row that first cell as MANAGER, and
    no row of the output has the carrier row's label. *)
Theorem auction_manager_propagated
        (df df' out : frame) (manager : cell) (d : dtype)
        (picks : list cell) (others : list (label * series))
        (rest : list Z) :
  index df = 0 :: rest ->
  columns df = (LInt 0, {| dt := d; vals := manager :: picks |}) :: others ->
  _formatAuctionTable df = (df', Ok out) ->
  index out = filter (fun l => negb (l =? 0)) rest /\
  ~ In 0 (index out) /\
  exists s,
    getcol out (LStr "MANAGER") = Ok s /\
    vals s = repeat manager (length (index out)).
Proof.
  intros Hi Hc H.
  unfold _formatAuctionTable, bindM, read, inplace in H.
  assert (E0 : getcol df (LInt 0) = Ok {| dt := d; vals := manager :: picks |}).
  { unfold getcol. rewrite Hc. reflexivity. }
  rewrite E0 in H. cbn [Py.bind] in H.
  assert (Ex : ix df {| dt := d; vals := manager :: picks |} 0 = Ok manager).
  { unfold ix. rewrite Hi. reflexivity. }
  rewrite Ex in H.
  set (df1 := setcol df (LStr "MANAGER") (broadcast df manager)) in *.
  destruct (drop_rows [0] df1) as [df2|e] eqn:E2; [|discriminate].
  destruct (getcol df2 (LInt 0)) as [c0|e] eqn:E3; cbn [Py.bind] in H;
    [|discriminate].
  destruct (to_numeric c0) as [pk|e] eqn:E4; cbn [Py.bind] in H;
    [|discriminate].
  set (df3 := setcol df2 (LStr "PICK") pk) in *.
  destruct (getcol df3 (LInt 2)) as [c2|e] eqn:E5; cbn [Py.bind] in H;
    [|discriminate].
  destruct (apply from1 c2) as [am|e] eqn:E6; cbn [Py.bind] in H;
    [|discriminate].
  destruct (to_numeric am) as [pr|e] eqn:E7; cbn [Py.bind] in H;
    [|discriminate].
  set (df4 := setcol df3 (LStr "PRICE") pr) in *.
  destruct (_formatAuctionDraftTable df4) as [df5|e] eqn:E8; [|discriminate].
  inversion H as [[Hdf' Hout]]. clear H.
  apply select_cols_head in Hout as [Hidx Hman].
  assert (Hm1 : getcol df1 (LStr "MANAGER") = Ok (broadcast df manager))
    by apply getcol_setcol_same.
  apply drop_rows_inv in E2.
  assert (Hm2 : getcol df2 (LStr "MANAGER")
                = Ok {| dt := dtype_of manager;
                        vals := repeat manager (length (index df2)) |}).
  { rewrite E2. erewrite getcol_rows_of by exact Hm1.
    unfold broadcast. cbn [dt vals index rows_of df1 setcol].
    now rewrite pick_repeat, pick_map_filter. }
  assert (Hm4 : getcol df4 (LStr "MANAGER") = getcol df2 (LStr "MANAGER")).
  { unfold df4, df3. rewrite !getcol_setcol_other by discriminate.
    reflexivity. }
  assert (Hh4 : has_col df4 (LStr "MANAGER") = true).
  { rewrite Hm2 in Hm4. unfold getcol in Hm4. unfold has_col.
    destruct (lookup (LStr "MANAGER") (columns df4)) eqn:El; [|discriminate].
    eapply lookup_some_present; eauto. }
  destruct (getcol_formatted (LStr "MANAGER") df4 df5 E8 eq_refl Hh4)
    as [Hi5 Hm5].
  assert (Hidx2 : index df2 = filter (fun l => negb (l =? 0)) rest).
  { rewrite E2. cbn [index rows_of df1 setcol].
    rewrite pick_map_filter, Hi. cbn.
    apply filter_ext. intros l. now rewrite orb_false_r. }
  assert (Hio : index out = index df2).
  { rewrite Hidx, Hi5. reflexivity. }
  split; [now rewrite Hio|]. split.
  - rewrite Hio, Hidx2. intros Hin. apply filter_In in Hin as [_ Hin].
    discriminate.
  - eexists. split.
    + rewrite Hman, Hm5, Hm4. exact Hm2.
    + cbn [vals]. now rewrite Hio.
Qed.

End AuctionFacts.
(* ================================================================= *)
(** * Properties of [_formatStandingsTable] *)

Section StandingsFacts.
Import Pandas Espn.
Context {N : Numeric}.

Lemma combine_fst_snd {A B} (l : list (A * B)) :
  combine (map fst l) (map snd l) = l.
Proof.
  induction l as [|[a b] l IH]; cbn; [reflexivity|]. now rewrite IH.
Qed.

Lemma map_fst_combine {A B} (a : list A) (b : list B) :
  length a = length b -> map fst (combine a b) = a.
Proof.
  revert b. induction a as [|x a IH]; intros [|y b]; cbn; try discriminate;
    [reflexivity|].
  intros H. inversion H. now rewrite IH.
Qed.

Lemma pick_all {A B} (idx : list B) (l : list A) :
  (length l <= length idx)%nat ->
  pick (map (fun _ => true) idx) l = l.
Proof.
  revert l. induction idx as [|i idx IH]; intros [|x l]; cbn; intros H;
    try reflexivity; [lia|].
  rewrite IH; [reflexivity|lia].
Qed.

Lemma pick_length_le {A B} (f : B -> bool) (idx : list B) (l : list A) :
  (length (pick (map f idx) l) <= length (pick (map f idx) idx))%nat.
Proof.
  revert l. induction idx as [|i idx IH]; intros [|x l]; cbn; try lia.
  destruct (f i); cbn; [specialize (IH l); lia|apply IH].
Qed.

(** Once the rows with a null first cell are gone, none is left. *)
Lemma no_null_left (labs : list Z) (idx : list Z) : forall (cs : list cell),
  (forall l, In l (pick (map isnull cs) idx) -> mem l labs = true) ->
  let mask := map (fun l => negb (mem l labs)) idx in
  pick (map isnull (pick mask cs)) (pick mask idx) = [].
Proof.
  induction idx as [|i idx IH]; intros [|c cs] H; cbn; try reflexivity.
  cbn in H. destruct (mem i labs) eqn:Ei; cbn.
  - apply IH. intros l Hl. apply H.
    destruct (isnull c); [now right|exact Hl].
  - destruct (isnull c) eqn:Ec.
    + specialize (H i (or_introl eq_refl)). congruence.
    + apply IH. exact H.
Qed.

Lemma rows_of_all (df : frame) :
  (forall c, In c (columns df) ->
             (length (vals (snd c)) <= length (index df))%nat) ->
  rows_of (map (fun l => negb (mem l [])) (index df)) df = df.
Proof.
  intros H. unfold rows_of. destruct df as [idx cols]. cbn in *.
  f_equal.
  - change (fun l : Z => negb false) with (fun _ : Z => true).
    now apply pick_all.
  - rewrite <- (map_id cols) at 2. apply map_ext_in.
    intros [l [d v]] Hin. cbn. f_equal. f_equal.
    change (fun l : Z => negb false) with (fun _ : Z => true).
    apply pick_all. exact (H _ Hin).
Qed.

(** C5 (amended): standings formatting run again on the table it has
    already formatted, with the same columns, returns the same content
    and leaves the table as the first run left it. *)
Theorem standings_rerun (cols : list label) (df df' out : frame) :
  _formatStandingsTable cols df = (df', Ok out) ->
  _formatStandingsTable cols df' = (df', Ok out).
Proof.
  unfold _formatStandingsTable, bindM, read, inplace.
  destruct (set_columns cols df) as [d1|e] eqn:E1; [|discriminate].
  destruct (icol d1 0) as [c0|e] eqn:E2; cbn [Py.bind]; [|discriminate].
  destruct (drop_rows _ d1) as [d2|e] eqn:E3; [|discriminate].
  intros H. inversion H as [[Hd Ho]]. subst d2.
  apply drop_rows_inv in E3.
  set (labs := pick (map isnull (vals c0)) (index d1)) in *.
  set (mask := map (fun l => negb (mem l labs)) (index d1)) in *.
  (* the first run fixed the column labels *)
  assert (Hfst : map fst (columns d1) = cols).
  { unfold set_columns in E1.
    destruct (Nat.eqb_spec (length cols) (length (columns df)));
      [|discriminate].
    inversion E1. cbn. apply map_fst_combine. now rewrite length_map. }
  assert (Hfst' : map fst (columns df') = cols).
  { rewrite E3. unfold rows_of. cbn [columns]. rewrite map_map. cbn [fst].
    exact Hfst. }
  assert (S1 : set_columns cols df' = Ok df').
  { unfold set_columns. rewrite <- Hfst' at 1. rewrite length_map, Nat.eqb_refl.
    rewrite <- Hfst' at 1. rewrite combine_fst_snd. now destruct df'. }
  rewrite S1.
  (* its first column has no null cell left *)
  assert (S2 : icol df' 0 = Ok {| dt := dt c0; vals := pick mask (vals c0) |}).
  { unfold icol in *. rewrite E3. unfold rows_of. cbn [columns].
    rewrite nth_error_map.
    destruct (nth_error (columns d1) 0) as [[l s]|]; [|discriminate].
    inversion E2. reflexivity. }
  rewrite S2. cbn [Py.bind vals].
  assert (S3 : pick (map isnull (pick mask (vals c0))) (index df') = []).
  { rewrite E3. unfold rows_of. cbn [index].
    apply no_null_left. intros l Hl.
    unfold mem. apply existsb_exists. exists l. split; [exact Hl|apply Z.eqb_refl]. }
  rewrite S3.
  assert (S4 : drop_rows [] df' = Ok df').
  { unfold drop_rows. cbn [forallb]. f_equal. apply rows_of_all.
    intros c Hc. rewrite E3 in Hc |- *. unfold rows_of in *. cbn [columns index] in *.
    apply in_map_iff in Hc as (c' & <- & _). cbn [snd vals].
    apply pick_length_le. }
  rewrite S4, Ho. reflexivity.
Qed.

End StandingsFacts.
(* ================================================================= *)
(** * Properties of [_formatActiveStatsTable] *)

Section StatsFacts.
Import Pandas Espn.
Context {N : Numeric}.

Lemma pick_prefix {A} (n : nat) (l : list A) :
  pick (repeat true n ++ [false]) l = firstn n l.
Proof.
  revert l. induction n as [|n IH]; intros [|x l]; cbn; try reflexivity.
  now rewrite IH.
Qed.

Lemma In_pick {A} (m : list bool) : forall (l : list A) x,
  In x (pick m l) -> In x l.
Proof.
  induction m as [|b m IH]; intros [|y l] x; cbn; try tauto.
  destruct b; cbn; intros H; [destruct H|]; auto.
Qed.

Lemma map_all_true {A} (f : A -> bool) (l : list A) :
  (forall x, In x l -> f x = true) -> map f l = repeat true (length l).
Proof.
  induction l as [|x l IH]; cbn; intros H; [reflexivity|].
  rewrite H by now left. rewrite IH; [reflexivity|].
  intros y Hy. apply H. now right.
Qed.

Lemma footer_mask (n : nat) :
  map (fun l => negb (mem l [Z.of_nat n])) (Py.range (S n))
  = repeat true n ++ [false].
Proof.
  unfold Py.range. rewrite seq_S, !map_app. cbn.
  rewrite Z.eqb_refl. cbn. f_equal.
  rewrite map_all_true.
  - now rewrite length_map, length_seq.
  - intros l Hl. apply in_map_iff in Hl as (k & <- & Hk).
    apply in_seq in Hk.
    destruct (Z.eqb_spec (Z.of_nat k) (Z.of_nat n)); [lia|reflexivity].
Qed.

Lemma range_S_prefix (n : nat) : firstn n (Py.range (S n)) = Py.range n.
Proof.
  unfold Py.range. rewrite seq_S, map_app.
  rewrite firstn_app.
  rewrite length_map, length_seq, Nat.sub_diag. cbn.
  rewrite app_nil_r. apply firstn_all2.
  now rewrite length_map, length_seq.
Qed.

Lemma positions_ok (n : nat) (rows : list Z) :
  (forall r, In r rows -> 0 <= r < Z.of_nat n) ->
  positions n rows = Ok (map Z.to_nat rows).
Proof.
  unfold positions. induction rows as [|r rows IH]; cbn; intros H;
    [reflexivity|].
  assert (Hr : 0 <= r < Z.of_nat n) by (apply H; now left).
  destruct (Z.ltb_spec r 0); [lia|].
  destruct (Z.ltb_spec r 0); [lia|].
  destruct (Z.leb_spec (Z.of_nat n) r); [lia|]. cbn.
  rewrite IH; [reflexivity|]. intros; apply H; now right.
Qed.

Lemma hit_to_nat (i : nat) (rows : list Z) :
  (forall r, In r rows -> 0 <= r) ->
  existsb (Nat.eqb i) (map Z.to_nat rows) = mem (Z.of_nat i) rows.
Proof.
  unfold mem. induction rows as [|r rows IH]; cbn; intros H; [reflexivity|].
  rewrite IH by (intros; apply H; now right). f_equal.
  assert (0 <= r) by (apply H; now left).
  destruct (Nat.eqb_spec i (Z.to_nat r)), (Z.eqb_spec (Z.of_nat i) r);
    try reflexivity; lia.
Qed.

Lemma mem_cons (z x : Z) (l : list Z) :
  mem z (x :: l) = (z =? x) || mem z l.
Proof. reflexivity. Qed.

Lemma mem_pick_seq (n : nat) : forall (m : list bool) (k i : nat),
  mem (Z.of_nat (k + i)) (pick m (map Z.of_nat (seq k n)))
  = (i <? n)%nat && nth i m false.
Proof.
  induction n as [|n IH]; intros m k i.
  - destruct m; reflexivity.
  - destruct m as [|b m].
    { rewrite andb_comm. destruct i; reflexivity. }
    assert (Hlow : mem (Z.of_nat k) (pick m (map Z.of_nat (seq (S k) n)))
                   = false).
    { destruct (mem _ _) eqn:E; [|reflexivity].
      apply existsb_exists in E as (x & Hx & Hk).
      apply In_pick, in_map_iff in Hx as (j & <- & Hj).
      apply in_seq in Hj. apply Z.eqb_eq in Hk. lia. }
    change (pick (b :: m) (map Z.of_nat (seq k (S n))))
      with (if b then Z.of_nat k :: pick m (map Z.of_nat (seq (S k) n))
            else pick m (map Z.of_nat (seq (S k) n))).
    destruct i as [|i].
    + rewrite Nat.add_0_r. change (nth 0 (b :: m) false) with b.
      change (0 <? S n)%nat with true.
      destruct b; [|exact Hlow].
      rewrite mem_cons, Z.eqb_refl. reflexivity.
    + replace (k + S i)%nat with (S k + i)%nat by lia.
      specialize (IH m (S k) i).
      change (S i <? S n)%nat with (i <? n)%nat.
      change (nth (S i) (b :: m) false) with (nth i m false).
      destruct b; [|exact IH].
      rewrite mem_cons, IH.
      destruct (Z.eqb_spec (Z.of_nat (S k + i)) (Z.of_nat k)); [lia|].
      reflexivity.
Qed.

Lemma nth_error_replace_at (ps : list nat) (old : string) (cs : list cell) :
  forall k i,
    nth_error (replace_at ps old k cs) i
    = option_map (fun c => if existsb (Nat.eqb (k + i)) ps && eq_str old c
                           then NaN else c)
                 (nth_error cs i).
Proof.
  induction cs as [|c cs IH]; intros k i; cbn.
  - destruct i; reflexivity.
  - destruct i as [|i]; cbn.
    + now rewrite Nat.add_0_r.
    + rewrite IH. now replace (S k + i)%nat with (k + S i)%nat by lia.
Qed.

Lemma to_numeric_ignore_spec (s : series) :
  (forall vs, dt s = DObject -> all_numeric (vals s) = Some vs ->
              to_numeric_ignore s = {| dt := DNumeric; vals := vs |}) /\
  (all_numeric (vals s) = None -> to_numeric_ignore s = s) /\
  (dt s <> DObject -> to_numeric_ignore s = s).
Proof.
  unfold to_numeric_ignore, to_numeric. repeat split.
  - intros vs Hd Hv. now rewrite Hd, Hv.
  - intros Hv. rewrite Hv. now destruct (dt s).
  - intros Hd. destruct (dt s); congruence.
Qed.

Lemma nth_map_firstn {A} (f : A -> bool) (n i : nat) (l : list A) :
  (i < n)%nat ->
  nth i (map f (firstn n l)) false
  = match nth_error l i with
    | Some t => f t
    | None => false
    end.
Proof.
  revert i l. induction n as [|n IH]; intros i l Hi; [lia|].
  destruct l as [|x l]; cbn.
  - destruct i; reflexivity.
  - destruct i as [|i]; cbn; [reflexivity|]. apply IH. lia.
Qed.

Lemma nth_error_firstn_lt {A} (n i : nat) (l : list A) :
  (i < n)%nat -> nth_error (firstn n l) i = nth_error l i.
Proof.
  revert i l. induction n as [|n IH]; intros i l Hi; [lia|].
  destruct l as [|x l]; cbn; [reflexivity|].
  destruct i as [|i]; cbn; [reflexivity|]. apply IH. lia.
Qed.

Lemma map_pair_eta {A B} (l : list (A * B)) :
  map (fun c => (fst c, snd c)) l = l.
Proof.
  induction l as [|[a b] l IH]; cbn; [reflexivity|]. now rewrite IH.
Qed.

(** [df.apply(f)] keeps the rows, and calls [f] on the columns of a
    frame that has rows only. *)
Lemma apply_cols_spec (f : series -> series) (df : frame) :
  index (apply_cols f df) = index df /\
  columns (apply_cols f df)
  = map (fun c => (fst c, match index df with
                          | [] => snd c
                          | _ :: _ => f (snd c)
                          end)) (columns df).
Proof.
  unfold apply_cols.
  destruct (index df) as [|i idx] eqn:Ei; cbn [length Nat.eqb orb].
  - rewrite Ei. split; [reflexivity|]. now rewrite map_pair_eta.
  - destruct (columns df) as [|c cs] eqn:Ec; cbn [length Nat.eqb];
      rewrite ?Ei, ?Ec; split; reflexivity.
Qed.

(** The frame without its footer row. *)
Lemma drop_footer (df : frame) (n : nat) :
  index df = Py.range (S n) ->
  drop_rows [Py.len (index df) - 1] df
  = Ok {| index := Py.range n;
          columns := map (fun c => (fst c,
                                    {| dt := dt (snd c);
                                       vals := firstn n (vals (snd c)) |}))
                         (columns df) |}.
Proof.
  intros Hi.
  assert (Hl : Py.len (index df) - 1 = Z.of_nat n).
  { rewrite Hi. unfold Py.len, Py.range.
    rewrite length_map, length_seq. lia. }
  rewrite Hl. unfold drop_rows. rewrite Hi.
  assert (Hm : mem (Z.of_nat n) (Py.range (S n)) = true).
  { unfold mem. apply existsb_exists. exists (Z.of_nat n).
    split; [|apply Z.eqb_refl].
    unfold Py.range. apply in_map, in_seq. lia. }
  cbn [forallb]. rewrite Hm. cbn [andb].
  rewrite footer_mask. unfold rows_of. rewrite Hi.
  rewrite pick_prefix, range_S_prefix. do 2 f_equal.
  apply map_ext. intros c. now rewrite pick_prefix.
Qed.

(** The rows [replace_rows] is given by [_formatActiveStatsTable] are
    positions of the frame. *)
Lemma marked_rows (n : nat) (third : list cell) (i : nat) :
  let rows := pick (map (eq_str "--") (firstn n third)) (Py.range n) in
  positions n rows = Ok (map Z.to_nat rows) /\
  ((i < n)%nat ->
   existsb (Nat.eqb i) (map Z.to_nat rows)
   = match nth_error third i with
     | Some t => eq_str "--" t
     | None => false
     end).
Proof.
  intros rows.
  assert (Hin : forall r, In r rows -> 0 <= r < Z.of_nat n).
  { intros r Hr. apply In_pick in Hr. unfold Py.range in Hr.
    apply in_map_iff in Hr as (k & <- & Hk). apply in_seq in Hk. lia. }
  split; [now apply positions_ok|].
  intros Hi. rewrite hit_to_nat by (intros r Hr; apply Hin in Hr; lia).
  unfold rows, Py.range.
  rewrite (mem_pick_seq n _ 0 i).
  destruct (Nat.ltb_spec i n); [|lia]. cbn [andb].
  now apply nth_map_firstn.
Qed.

(** C6 (amended): in ActiveStats formatting of a table with footer, a
    "--" cell becomes NaN before the coercion exactly when the third
    column has object dtype and is "--" in the same row; every other
    cell stays as it is.  When a row is left beside the footer, the
    coercion then makes numeric each column all of whose cells are
    NaN, numbers or strings that parse, and leaves a column with any
    other cell unchanged; when the footer was the only row, no column
    is coerced. *)
Theorem activeStats_placeholders (df : frame) (n : nat) (third : series) :
  index df = Py.range (S n) ->
  icol df 2 = Ok third ->
  exists df' out,
    activeStats_coerce df = (df', Ok out) /\
    index df' = Py.range n /\
    index out = Py.range n /\
    forall j l s,
      nth_error (columns df) j = Some (l, s) ->
      exists s',
        nth_error (columns df') j = Some (l, s') /\
        dt s' = dt s /\
        (forall i c,
           (i < n)%nat ->
           nth_error (vals s) i = Some c ->
           nth_error (vals s') i
           = Some (if is_object (dt third)
                      && match nth_error (vals third) i with
                         | Some t => eq_str "--" t
                         | None => false
                         end
                      && eq_str "--" c
                   then NaN else c)) /\
        nth_error (columns out) j
        = Some (l, match n with
                   | O => s'
                   | S _ => to_numeric_ignore s'
                   end) /\
        (forall vs,
           dt s' = DObject -> all_numeric (vals s') = Some vs ->
           to_numeric_ignore s' = {| dt := DNumeric; vals := vs |}) /\
        (all_numeric (vals s') = None -> to_numeric_ignore s' = s').
Proof.
  intros Hi H3.
  unfold activeStats_coerce, bindM, read, inplace.
  rewrite (drop_footer df n Hi).
  set (d1 := {| index := Py.range n; columns := _ |}).
  assert (E2 : icol d1 2 = Ok {| dt := dt third;
                                 vals := firstn n (vals third) |}).
  { unfold icol in *. unfold d1. cbn [columns]. rewrite nth_error_map.
    destruct (nth_error (columns df) 2) as [[l s]|]; [|discriminate].
    inversion H3. reflexivity. }
  rewrite E2. cbn [dt vals].
  destruct (is_object (dt third)) eqn:Eo.
  - cbn [index d1].
    destruct (marked_rows n (vals third) 0) as [Hpos _].
    cbn zeta in Hpos.
    unfold replace_rows. cbn [index d1]. 
    replace (length (Py.range n)) with n
      by (unfold Py.range; now rewrite length_map, length_seq).
    rewrite Hpos. cbn [Py.bind].
    eexists. eexists. split; [reflexivity|].
    split; [reflexivity|]. split; [apply apply_cols_spec|].
    intros j l s Hj. eexists. 
    split.
    { cbn [columns d1]. rewrite !nth_error_map, Hj. reflexivity. }
    split; [reflexivity|].
    split.
    { intros i c Hlt Hc. cbn [vals andb snd fst dt].
      rewrite nth_error_replace_at, nth_error_firstn_lt, Hc by exact Hlt.
      cbn [option_map Nat.add].
      destruct (marked_rows n (vals third) i) as [_ Hhit].
      cbn zeta in Hhit. rewrite (Hhit Hlt). reflexivity. }
    split.
    { rewrite (proj2 (apply_cols_spec _ _)). cbn [columns index d1].
      rewrite !nth_error_map, Hj. cbn [option_map fst snd].
      destruct n; reflexivity. }
    split; apply to_numeric_ignore_spec.
  - unfold ret.
    eexists. eexists. split; [reflexivity|].
    split; [reflexivity|]. split; [apply apply_cols_spec|].
    intros j l s Hj. eexists.
    split.
    { cbn [columns d1]. rewrite nth_error_map, Hj. reflexivity. }
    split; [reflexivity|].
    split.
    { intros i c Hlt Hc. cbn [vals andb snd fst dt].
      now rewrite nth_error_firstn_lt, Hc by exact Hlt. }
    split.
    { rewrite (proj2 (apply_cols_spec _ _)). cbn [columns index d1].
      rewrite !nth_error_map, Hj. cbn [option_map fst snd].
      destruct n; reflexivity. }
    split; apply to_numeric_ignore_spec.
Qed.

Lemma mapM_raises {A B} (f : A -> result B) (l : list A) (i : nat) (x : A)
      (e : exn) :
  nth_error l i = Some x ->
  f x = Raise e ->
  forall ys, Py.mapM f l <> Ok ys.
Proof.
  revert i. induction l as [|y l IH]; intros i Hi Hx ys.
  - destruct i; discriminate.
  - destruct i as [|i]; cbn in Hi |- *.
    + inversion Hi; subst. now rewrite Hx.
    + destruct (f y); cbn; [|discriminate].
      destruct (Py.mapM f l) as [zs|] eqn:E; cbn; [|discriminate].
      exfalso. exact (IH i Hi Hx zs eq_refl).
Qed.

Lemma str_extract_stats (c : series) :
  is_object (dt c) = true ->
  str_extract statsRe c
  = Ok (map (fun g => (fst g,
                       {| dt := DObject;
                          vals := map (fun x => nth (snd g)
                                                    (extract_row statsRe x) NaN)
                                      (vals c) |}))
            [(LStr "PLAYER", 0%nat); (LStr "TEAM", 1%nat);
             (LStr "POS", 2%nat); (LStr "DTD", 3%nat)]).
Proof.
  intros H. unfold str_extract. rewrite H. cbn.
  now rewrite !map_map.
Qed.

(** ActiveStats extraction is not soft: if the name cell of some row
    is no string or does not match the pattern, no table is returned. *)
Lemma stats_extraction_not_soft (df : frame) (c : series) (i : nat)
      (x : cell) :
  getcol df (LStr "PLAYER, TEAM POS") = Ok c ->
  nth_error (vals c) i = Some x ->
  (forall s, x = Str s -> Re.search statsRe s = None) ->
  forall out, activeStats_extract df <> Ok out.
Proof.
  intros Hc Hi Hno out. unfold activeStats_extract.
  rewrite Hc. cbn [Py.bind].
  destruct (is_object (dt c)) eqn:Eo.
  2:{ unfold str_extract. rewrite Eo. discriminate. }
  rewrite (str_extract_stats c Eo). cbn [Py.bind map fst snd].
  unfold join.
  destruct (existsb _ _) eqn:Hov; [discriminate|].
  cbn [Py.bind].
  assert (Hpos : has_col df (LStr "POS") = false).
  { cbn in Hov. destruct (has_col df (LStr "POS")); [|reflexivity].
    now rewrite !orb_true_r in Hov. }
  unfold drop_cols.
  destruct (forallb _ _); [|discriminate].
  cbn [Py.bind index columns].
  unfold getcol at 1. cbn [columns].
  rewrite filter_app, lookup_app.
  rewrite lookup_absent by (apply mentions_filter; exact Hpos).
  cbn [filter fst existsb label_eqb negb orb String.eqb Ascii.eqb
       Bool.eqb lookup].
  cbn [Py.bind]. unfold apply. cbn [vals].
  assert (Hrow : extract_row statsRe x = repeat NaN 4).
  { destruct x; try reflexivity.
    unfold extract_row. now rewrite (Hno s eq_refl). }
  destruct (Py.mapM (split ", ") _) as [ys|e] eqn:Em; [|discriminate].
  exfalso. revert Em.
  apply (mapM_raises (split ", ") _ i NaN AttributeError).
  - erewrite map_nth_error by exact Hi. now rewrite Hrow.
  - reflexivity.
Qed.

End StatsFacts.
(* ================================================================= *)
(** * [_formatDraft] and [_formatDraftTable] *)

Section DraftTypeFacts.
Import Pandas Espn.
Context {N : Numeric}.

(** C2 (amended): for a draft-type string outside Auction Draft, Snake
    Draft, Offline Draft and Autopick Draft, [_formatDraft] raises
    nothing: it returns [None] and leaves the block as it was. *)
Theorem unsupported_draft_returns_none (draftType : string) (df : frame) :
  draftType <> "Auction Draft" ->
  draftType <> "Snake Draft" ->
  draftType <> "Offline Draft" ->
  draftType <> "Autopick Draft" ->
  _formatDraft draftType df = (df, Ok None).
Proof.
  intros Ha Hs Ho Hp. unfold _formatDraft.
  apply String.eqb_neq in Ha, Hs, Ho, Hp.
  rewrite Ha, Hs, Ho, Hp. reflexivity.
Qed.

(** C3: [_formatDraftTable] raises on every block, before it reads
    any of it, and so does [_formatDraft] for the three draft types
    that go through it: the body reads the local name [df], which is
    unbound, the parameter being [html]. *)
Theorem snake_draft_unbound (html : frame) :
  _formatDraftTable html = (html, Raise UnboundLocalError) /\
  _formatDraft "Snake Draft" html = (html, Raise UnboundLocalError) /\
  _formatDraft "Offline Draft" html = (html, Raise UnboundLocalError) /\
  _formatDraft "Autopick Draft" html = (html, Raise UnboundLocalError).
Proof. repeat split. Qed.

End DraftTypeFacts.

(* ================================================================= *)
(** * The formatters on the sample pages *)

Section Runs.
Import Headers Pandas Espn Samples.
#[local] Existing Instance Decimal.

(** C2, as stated, fails: an unknown draft type raises no error. *)
Lemma unsupported_draft_counterexample :
  _formatDraft "Keeper Draft" auction_block = (auction_block, Ok None).
Proof. reflexivity. Qed.

Lemma unsupported_draft_witness :
  _formatDraft "Slow Draft" snake_block = (snake_block, Ok None).
Proof.
  apply (unsupported_draft_returns_none "Slow Draft" snake_block);
    discriminate.
Defined.

(** The statements of [_formatDraftTable], run on the block itself,
    give what C3 describes. *)
Lemma draftTable_body_sample :
  snd (draftTable_body snake_block) = Ok snake_out.
Proof. reflexivity. Qed.

(** C4, as stated, fails: with a carrier row that has an empty first
    cell and MANAGER_X in the second, the MANAGER column holds the
    first cell, the empty string. *)
Lemma manager_counterexample :
  (out <- snd (_formatAuctionTable misplaced_block) ;;
   getcol out (LStr "MANAGER")) = Ok (text [Str EmptyString]) /\
  text [Str EmptyString] <> text [Str "MANAGER_X"].
Proof. split; [reflexivity|discriminate]. Qed.

Lemma auction_manager_propagated_witness :
  index auction_out = filter (fun l => negb (l =? 0)) [1; 2] /\
  ~ In 0 (index auction_out) /\
  exists s,
    getcol auction_out (LStr "MANAGER") = Ok s /\
    vals s = repeat (Str "TEAM X") (length (index auction_out)).
Proof.
  apply (auction_manager_propagated
           auction_block (fst (_formatAuctionTable auction_block))
           auction_out (Str "TEAM X") DObject [Str "1"; Str "2"]
           (tl (columns auction_block)) [1; 2]);
    reflexivity.
Defined.

(** C5, as stated, fails: auction formatting changes the block it is
    given (the carrier row goes), and a second run on that block
    raises instead of returning the same content. *)
Lemma rerun_counterexample :
  snd (_formatAuctionTable auction_block) = Ok auction_out /\
  index auction_block = [0; 1; 2] /\
  index (fst (_formatAuctionTable auction_block)) = [1; 2] /\
  snd (_formatAuctionTable (fst (_formatAuctionTable auction_block)))
  = Raise KeyError.
Proof. repeat split. Qed.

Lemma standings_rerun_witness :
  _formatStandingsTable standings_columns
    (fst (_formatStandingsTable standings_columns standings_raw))
  = _formatStandingsTable standings_columns standings_raw.
Proof.
  apply (standings_rerun standings_columns standings_raw). reflexivity.
Defined.

(** C6, as stated, fails: the placeholder of the first player, in a
    row whose third column holds a number, is still the string "--"
    before and after the coercion, and the HR column stays text. *)
Lemma placeholder_counterexample :
  iat stats_table (LStr "AB") 0 = Some (Str "12") /\
  iat stats_table (LStr "HR") 0 = Some (Str "--") /\
  iat (fst (activeStats_coerce stats_table)) (LStr "HR") 0
  = Some (Str "--") /\
  (out <- snd (activeStats_coerce stats_table) ;; getcol out (LStr "HR"))
  = Ok (text [Str "--"; NaN]) /\
  (out <- snd (_formatActiveStatsTable stats_table) ;;
   getcol out (LStr "HR")) = Ok (text [Str "--"; NaN]).
Proof. repeat split. Qed.

Lemma activeStats_placeholders_witness :
  exists df' out,
    activeStats_coerce stats_table = (df', Ok out) /\
    index df' = Py.range 2 /\
    index out = Py.range 2 /\
    forall j l s,
      nth_error (columns stats_table) j = Some (l, s) ->
      exists s',
        nth_error (columns df') j = Some (l, s') /\
        dt s' = dt s /\
        (forall i c,
           (i < 2)%nat ->
           nth_error (vals s) i = Some c ->
           nth_error (vals s') i
           = Some (if is_object DObject
                      && match nth_error [Str "12"; Str "--"; Str "30"] i with
                         | Some t => eq_str "--" t
                         | None => false
                         end
                      && eq_str "--" c
                   then NaN else c)) /\
        nth_error (columns out) j = Some (l, to_numeric_ignore s') /\
        (forall vs,
           dt s' = DObject -> all_numeric (vals s') = Some vs ->
           to_numeric_ignore s' = {| dt := DNumeric; vals := vs |}) /\
        (all_numeric (vals s') = None -> to_numeric_ignore s' = s').
Proof.
  apply (activeStats_placeholders stats_table 2
           (text [Str "12"; Str "--"; Str "30"])); reflexivity.
Defined.

(** C7: in ActiveStats formatting a row whose name cell does not
    match the pattern is not given missing values: the split of POS
    raises on it and no table is returned, although the coercion
    before it went through. *)
Theorem stats_unmatched_row_raises :
  iat stats_unmatched (LStr "PLAYER, TEAM POS") 0
  = Some (Str "Smith NYY OF") /\
  Re.search statsRe "Smith NYY OF" = None /\
  (exists df, snd (activeStats_coerce stats_unmatched) = Ok df) /\
  snd (_formatActiveStatsTable stats_unmatched) = Raise AttributeError.
Proof.
  repeat split. eexists. reflexivity.
Qed.

(** The draft recipe on the auction block: its first row has no
    composite text. *)
Lemma draft_extraction_soft_witness :
  exists out,
    _formatAuctionDraftTable auction_block = Ok out /\
    index out = index auction_block /\
    forall i c,
      nth_error [NaN; Str smith; Str smith_keeper] i = Some c ->
      (forall s, c = Str s -> Re.search draftRe s = None) ->
      iat out (LStr "PLAYER") i = Some NaN /\
      iat out (LStr "TEAM") i = Some NaN /\
      iat out (LStr "POS") i = Some NaN /\
      iat out (LStr "KEEPER") i = Some NaN.
Proof.
  apply (draft_extraction_soft auction_block
           (text [NaN; Str smith; Str smith_keeper])); reflexivity.
Defined.

(** C8: the row is in the add+drop family and [findall] gives one
    tuple for its DETAIL; the lambda applied to the family reads
    [x[1]], which a list of one tuple does not have, and the
    formatting raises. *)
Theorem transaction_add_drop_raises :
  map (fun i => str_replace " ," ","
                  (str_replace "  " " " (Py.join " " i)))
      (stride 4 2 activity_tds)
  = ["PlayerA dropped PlayerB, was sent to Waivers"] /\
  family addDropKey addDropStr activity
  = Ok [(0, Some [["PlayerA"; "PlayerB"; "Waivers";
                   EmptyString; EmptyString; EmptyString]])] /\
  (forall t, addDrop_pair (Some [t]) = Raise IndexError) /\
  _formatTransactionTable activity activity_tds = Raise IndexError.
Proof. repeat split. Qed.

Lemma keeper_extraction_witness :
  exists out,
    _formatAuctionDraftTable auction_block = Ok out /\
    iat out (LStr "PLAYER") 2 = Some (Str "Smith") /\
    iat out (LStr "TEAM") 2 = Some (Str "NYY") /\
    iat out (LStr "POS") 2 = Some (Str "OF") /\
    iat out (LStr "KEEPER") 2 = Some (Bool true).
Proof.
  apply (keeper_extraction auction_block
           (text [NaN; Str smith; Str smith_keeper]) 2 true); reflexivity.
Defined.

End Runs.

(* ================================================================= *)
(** * More on header resolution *)

Section HeaderShape.
Import Headers Pages.

(** X1: More than two sub-header rows are refused, once a title cell has
    been found. *)
Theorem parseHeaders_too_many_rows (t : table) :
  tableHead t <> [] ->
  (2 < length (subHeads t))%nat ->
  _parseHeaders t = Raise AssertionError.
Proof.
  intros Hh Hn. unfold _parseHeaders.
  destruct (tableHead t) as [|h hs]; [congruence|]. cbn [Py.item].
  unfold Py.item. cbn.
  unfold Py.len. destruct (Z.leb_spec (Z.of_nat (length (subHeads t))) 2);
    [lia|reflexivity].
Qed.

(** X2: A table without a title cell, or without any sub-header row, is an
    [IndexError]. *)
Theorem parseHeaders_nothing_to_read (t : table) :
  tableHead t = [] \/ subHeads t = [] ->
  _parseHeaders t = Raise IndexError.
Proof.
  intros [H|H]; unfold _parseHeaders.
  - rewrite H. reflexivity.
  - rewrite H. destruct (tableHead t); reflexivity.
Qed.

Lemma slice_from_tail {A} (l : list A) (n : Z) :
  0 < n <= Py.len l ->
  Py.slice_from l (- n) = skipn (length l - Z.to_nat n) l.
Proof.
  intros H. unfold Py.slice_from, Py.len in *.
  destruct (Z.ltb_spec (- n) 0); [|lia]. f_equal. lia.
Qed.

Lemma parseHeaders_two_rows (t : table) (h : option string)
      (hs : list (option string)) (row1 row2 : list td)
      (r1 r2 : list label) (c1 c2 : Z) :
  tableHead t = h :: hs ->
  subHeads t = [row1; row2] ->
  scanRow 10 row1 = Ok (r1, c1) ->
  scanRow c1 row2 = Ok (r2, c2) ->
  _parseHeaders t = Ok (h, merge r1 r2).
Proof.
  intros Hh Hs H1 H2.
  unfold _parseHeaders. rewrite Hh, Hs. cbn. rewrite H1. cbn. rewrite H2.
  reflexivity.
Qed.

(** X3: The merge is an overlay: with N = L1 - 2 - L2 >= 1, the resolved
    list is row 1 with its entries 2 .. 2 + L2 - 1 replaced by row 2. *)
Theorem merge_overlay (t : table) (h : option string)
        (hs : list (option string)) (row1 row2 : list td)
        (r1 r2 : list label) (c1 c2 : Z) :
  tableHead t = h :: hs ->
  subHeads t = [row1; row2] ->
  scanRow 10 row1 = Ok (r1, c1) ->
  scanRow c1 row2 = Ok (r2, c2) ->
  (length r2 + 2 < length r1)%nat ->
  _parseHeaders t
  = Ok (h, firstn 2 r1 ++ r2 ++ skipn (2 + length r2) r1).
Proof.
  intros Hh Hs H1 H2 Hlen.
  rewrite (parseHeaders_two_rows t h hs row1 row2 r1 r2 c1 c2 Hh Hs H1 H2).
  do 2 f_equal. unfold merge.
  change (Py.slice_to r1 2) with (firstn 2 r1). do 2 f_equal.
  rewrite slice_from_tail by (unfold Py.len; lia).
  f_equal. unfold Py.len. lia.
Qed.

(** X4: With N = 0, that is L2 = L1 - 2, the slice [subHead1[-0:]] is the
    whole of row 1: the resolved list is the first two entries of row
    1, row 2, and row 1 once more, twice L1 entries in all. *)
Theorem merge_no_tail (t : table) (h : option string)
        (hs : list (option string)) (row1 row2 : list td)
        (r1 r2 : list label) (c1 c2 : Z) :
  tableHead t = h :: hs ->
  subHeads t = [row1; row2] ->
  scanRow 10 row1 = Ok (r1, c1) ->
  scanRow c1 row2 = Ok (r2, c2) ->
  (length r2 + 2 = length r1)%nat ->
  _parseHeaders t = Ok (h, firstn 2 r1 ++ r2 ++ r1) /\
  (length (firstn 2 r1 ++ r2 ++ r1) = 2 * length r1)%nat.
Proof.
  intros Hh Hs H1 H2 Hlen. split.
  - rewrite (parseHeaders_two_rows t h hs row1 row2 r1 r2 c1 c2 Hh Hs H1 H2).
    do 2 f_equal. unfold merge.
    replace (- (Py.len r1 - 2 - Py.len r2)) with 0 by (unfold Py.len; lia).
    reflexivity.
  - rewrite !length_app, length_firstn. lia.
Qed.

(** X5: A row in which no cell with text has a column-span resolves to one
    entry per cell; the counter moves on by the number of cells without
    text, and no synthetic name occurs twice. *)
Theorem scanRow_plain (tds : list td) : forall (c : Z),
  (forall cell, In cell tds -> texts cell = [] \/ colspan cell = None) ->
  exists row,
    scanRow c tds
    = Ok (row, c + Z.of_nat (length (filter is_padding tds))) /\
    length row = length tds /\
    forall i j k,
      nth_error row i = Some (LInt k) ->
      nth_error row j = Some (LInt k) -> i = j.
Proof.
  induction tds as [|cell tds IH]; intros c H.
  - exists []. cbn. rewrite Z.add_0_r. repeat split.
    intros i j k Hi. destruct i; discriminate.
  - destruct (IH (if is_padding cell then c + 1 else c)) as (rest & Hr & Hl & Hu).
    { intros x Hx. apply H. now right. }
    assert (Hcell : scanTd c cell
                    = Ok ([if is_padding cell then LInt c
                           else LStr (Py.join " " (texts cell))],
                          if is_padding cell then c + 1 else c)).
    { unfold scanTd, is_padding.
      destruct (H cell (or_introl eq_refl)) as [E|E].
      - rewrite E. reflexivity.
      - rewrite E. destruct (texts cell); reflexivity. }
    eexists. split; [|split].
    + cbn [scanRow]. rewrite Hcell. cbn [Py.bind]. rewrite Hr. cbn [Py.bind].
      do 2 f_equal. cbn [filter].
      destruct (is_padding cell); cbn [length]; lia.
    + cbn. now rewrite Hl.
    + intros i j k Hi Hj.
      assert (Hb := scanRow_bounds _ _ _ _ Hr).
      destruct Hb as [_ Hb].
      assert (Hhead : forall m, nth_error rest m = Some (LInt k) ->
                                is_padding cell = true -> c < k).
      { intros m Hm Hp. rewrite Hp in Hb.
        apply nth_error_In in Hm. specialize (Hb k Hm). lia. }
      destruct i as [|i], j as [|j]; cbn in Hi, Hj.
      * reflexivity.
      * destruct (is_padding cell) eqn:Ep; [|discriminate].
        inversion Hi; subst. specialize (Hhead j Hj eq_refl). lia.
      * destruct (is_padding cell) eqn:Ep; [|discriminate].
        inversion Hj; subst. specialize (Hhead i Hi eq_refl). lia.
      * f_equal. eapply Hu; eauto.
Qed.

End HeaderShape.

(* ================================================================= *)
(** * More on standings *)

Section StandingsColumns.
Import Headers Pandas Espn Pages.
Context {N : Numeric}.

Lemma filterM_ok {A} (p : A -> result bool) (l r : list A) :
  filterM p l = Ok r ->
  r = filter (fun x => match p x with Ok b => b | Raise _ => false end) l /\
  forall x, In x l -> exists b, p x = Ok b.
Proof.
  revert r. induction l as [|x l IH]; intros r; cbn.
  - intros H. inversion H. split; [reflexivity|]. intros x [].
  - destruct (p x) as [b|e] eqn:E; cbn; [|discriminate].
    destruct (filterM p l) as [r'|e] eqn:E'; cbn; [|discriminate].
    intros H. inversion H; subst. destruct (IH r' eq_refl) as [-> Hall].
    split; [reflexivity|].
    intros y [<-|Hy]; eauto.
Qed.

(** A [df.select] that returns gives the columns that satisfy the
    criterion. *)
Lemma select_inv (crit : label -> result bool) (df out : frame) :
  select crit df = Ok out ->
  exists cols,
    filterM (fun c => crit (fst c)) (columns df) = Ok cols /\
    out = {| index := index df; columns := cols |}.
Proof.
  unfold select.
  destruct (filterM _ (columns df)) as [cols|e]; cbn [Py.bind];
    [|discriminate].
  destruct (_ && _); [discriminate|].
  intros H. inversion H. eauto.
Qed.

Lemma select_labels (crit : label -> result bool) (df out : frame) :
  select crit df = Ok out ->
  index out = index df /\
  labels out
  = filter (fun l => match crit l with Ok b => b | Raise _ => false end)
           (labels df) /\
  forall c, In c (columns out) -> In c (columns df).
Proof.
  intros H. apply select_inv in H as (cols & E & ->). cbn.
  apply filterM_ok in E as [-> _]. split; [reflexivity|]. split.
  - unfold labels. cbn. induction (columns df) as [|c cs IH]; cbn;
      [reflexivity|].
    destruct (crit (fst c)) as [[|]|]; cbn; now rewrite IH.
  - intros c Hc. now apply filter_In in Hc.
Qed.

(** What a run of [_formatStandingsTable] that returns went through. *)
Lemma standings_inv (cols : list label) (df df' out : frame) :
  _formatStandingsTable cols df = (df', Ok out) ->
  exists d1 c0,
    set_columns cols df = Ok d1 /\
    icol d1 0 = Ok c0 /\
    df' = rows_of (map (fun l => negb (mem l (pick (map isnull (vals c0))
                                                   (index d1))))
                       (index d1)) d1 /\
    select unnumbered df' = Ok out /\
    labels df' = cols.
Proof.
  unfold _formatStandingsTable, bindM, read, inplace.
  destruct (set_columns cols df) as [d1|e] eqn:E1; [|discriminate].
  destruct (icol d1 0) as [c0|e] eqn:E2; cbn [Py.bind]; [|discriminate].
  destruct (drop_rows _ d1) as [d2|e] eqn:E3; [|discriminate].
  intros H. inversion H as [[Hd Ho]]. subst d2.
  apply drop_rows_inv in E3.
  exists d1, c0. repeat split; auto.
  rewrite E3. unfold labels, rows_of. cbn [columns]. rewrite map_map. cbn [fst].
  unfold set_columns in E1.
  destruct (Nat.eqb_spec (length cols) (length (columns df))); [|discriminate].
  inversion E1. cbn. apply map_fst_combine. now rewrite length_map.
Qed.

Lemma numbered_teens (k : Z) :
  10 <= k < 20 -> unnumbered (LInt k) = Ok false.
Proof.
  intros H.
  assert (E : k = 10 \/ k = 11 \/ k = 12 \/ k = 13 \/ k = 14 \/ k = 15 \/
              k = 16 \/ k = 17 \/ k = 18 \/ k = 19) by lia.
  repeat (destruct E as [->|E]; [reflexivity|]). subst. reflexivity.
Qed.

Lemma unnumbered_two_digits (k : Z) :
  20 <= k < 100 -> unnumbered (LInt k) = Ok true.
Proof.
  intros H.
  assert (Hall : forallb (fun i => match unnumbered (LInt (20 + Z.of_nat i)) with
                                   | Ok b => b
                                   | Raise _ => false
                                   end) (seq 0 80) = true)
    by (vm_compute; reflexivity).
  rewrite forallb_forall in Hall.
  specialize (Hall (Z.to_nat (k - 20))).
  replace (20 + Z.of_nat (Z.to_nat (k - 20))) with k in Hall by lia.
  assert (Hin : In (Z.to_nat (k - 20)) (seq 0 80)) by (apply in_seq; lia).
  specialize (Hall Hin).
  unfold unnumbered in *. cbn [str Py.bind] in *.
  destruct (found numberedRe (Py.str_of_int k)); [discriminate|reflexivity].
Qed.

Lemma standings_labels (cols : list label) (df df' out : frame) :
  _formatStandingsTable cols df = (df', Ok out) ->
  index out = index df' /\
  labels out
  = filter (fun l => match unnumbered l with Ok b => b | Raise _ => false end)
           cols.
Proof.
  intros H. apply standings_inv in H as (d1 & c0 & _ & _ & _ & Hs & Hl).
  apply select_labels in Hs as (Hi & Hs & _). rewrite Hl in Hs. auto.
Qed.

(** X7: The columns standings formatting returns are the resolved names
    that do not have a 1 followed by a digit in them, in their order.
    So the synthetic names 10 to 19 never come out, and a synthetic
    name from 20 to 99 always does. *)
Theorem standings_columns_kept (cols : list label) (df df' out : frame) :
  _formatStandingsTable cols df = (df', Ok out) ->
  labels out
  = filter (fun l => match str l with
                     | Ok s => negb (found numberedRe s)
                     | Raise _ => false
                     end) cols /\
  (forall k, 10 <= k < 20 -> ~ In (LInt k) (labels out)) /\
  (forall k, 20 <= k < 100 -> In (LInt k) cols -> In (LInt k) (labels out)).
Proof.
  intros H. apply standings_labels in H as [_ Hl].
  assert (Hl' : labels out
                = filter (fun l => match str l with
                                   | Ok s => negb (found numberedRe s)
                                   | Raise _ => false
                                   end) cols).
  { rewrite Hl. apply filter_ext. intros l. unfold unnumbered.
    destruct (str l); reflexivity. }
  split; [exact Hl'|]. split.
  - intros k Hk Hin. rewrite Hl in Hin. apply filter_In in Hin as [_ Hin].
    now rewrite (numbered_teens k Hk) in Hin.
  - intros k Hk Hin. rewrite Hl. apply filter_In. split; [exact Hin|].
    now rewrite (unnumbered_two_digits k Hk).
Qed.

Lemma kept_cells_not_null (labs idx : list Z) : forall (cs : list cell),
  (forall l, In l (pick (map isnull cs) idx) -> mem l labs = true) ->
  forallb (fun c => negb (isnull c))
          (pick (map (fun l => negb (mem l labs)) idx) cs) = true.
Proof.
  induction idx as [|i idx IH]; intros [|c cs] H; cbn; try reflexivity.
  cbn in H. destruct (mem i labs) eqn:Ei; cbn.
  - apply IH. intros l Hl. apply H. destruct (isnull c); [now right|exact Hl].
  - destruct (isnull c) eqn:Ec.
    + specialize (H i (or_introl eq_refl)). congruence.
    + cbn. apply IH. exact H.
Qed.

(** X8: After standings formatting the table has no spacer row left: no
    cell of its first column is null, and the frame returned has the
    rows of the table and columns taken from it. *)
Theorem standings_no_spacer (cols : list label) (df df' out : frame)
        (c0 : series) :
  _formatStandingsTable cols df = (df', Ok out) ->
  icol df' 0 = Ok c0 ->
  forallb (fun c => negb (isnull c)) (vals c0) = true /\
  index out = index df' /\
  forall c, In c (columns out) -> In c (columns df').
Proof.
  intros H H0.
  apply standings_inv in H as (d1 & c1 & _ & E2 & E3 & Hs & _).
  apply select_labels in Hs as (Hi & _ & Hc).
  split; [|split; assumption].
  unfold icol in *. rewrite E3 in H0. unfold rows_of in H0. cbn [columns] in H0.
  rewrite nth_error_map in H0.
  destruct (nth_error (columns d1) 0) as [[l s]|]; [|discriminate].
  inversion E2; subst. inversion H0; subst. cbn [vals snd].
  apply kept_cells_not_null. intros z Hz.
  unfold mem. apply existsb_exists. exists z. split; [exact Hz|apply Z.eqb_refl].
Qed.

Lemma mapM_nth {A B} (f : A -> result B) (l : list A) (ys : list B) :
  Py.mapM f l = Ok ys ->
  length ys = length l /\
  forall i x, nth_error l i = Some x ->
              exists y, nth_error ys i = Some y /\ f x = Ok y.
Proof.
  revert ys. induction l as [|a l IH]; intros ys; cbn.
  - intros H. inversion H. split; [reflexivity|]. intros [|i] x; discriminate.
  - destruct (f a) as [b|e] eqn:E; cbn; [|discriminate].
    destruct (Py.mapM f l) as [zs|e] eqn:E'; cbn; [|discriminate].
    intros H. inversion H; subst. destruct (IH zs eq_refl) as [Hl Hn].
    split; [cbn; now rewrite Hl|].
    intros [|i] x Hx; cbn in *.
    + inversion Hx; subst. eauto.
    + eauto.
Qed.

Lemma In_firstn_l {A} (n : nat) (l : list A) (x : A) :
  In x (firstn n l) -> In x l.
Proof.
  intros H. rewrite <- (firstn_skipn n l). apply in_or_app. now left.
Qed.

Lemma In_skipn_l {A} (n : nat) (l : list A) (x : A) :
  In x (skipn n l) -> In x l.
Proof.
  intros H. rewrite <- (firstn_skipn n l). apply in_or_app. now right.
Qed.

Lemma In_merge (l : label) (r1 r2 : list label) :
  In l (merge r1 r2) -> In l r1 \/ In l r2.
Proof.
  unfold merge, Py.slice_to, Py.slice_from. intros H.
  apply in_app_or in H as [H|H].
  - left. destruct (_ <? _); eapply In_firstn_l; eauto.
  - apply in_app_or in H as [H|H]; [now right|].
    left. destruct (_ <? _); eapply In_skipn_l; eauto.
Qed.

(** X9: Header resolution and standings formatting together: for a table
    of the standings page with two sub-header rows in which the
    counter of synthetic names does not pass 20, that is with at most
    ten placeholder cells, the table returned has no synthetic column
    at all. *)
Theorem standings_page_no_synthetic
        (tables : list (table * frame)) (outs : list frame)
        (i : nat) (t : table) (df out : frame)
        (row1 row2 : list td) (r1 r2 : list label) (c1 c2 : Z) :
  _downloadStandingsTable tables = Ok outs ->
  nth_error tables i = Some (t, df) ->
  nth_error outs i = Some out ->
  subHeads t = [row1; row2] ->
  scanRow 10 row1 = Ok (r1, c1) ->
  scanRow c1 row2 = Ok (r2, c2) ->
  c2 <= 20 ->
  forall k, ~ In (LInt k) (labels out).
Proof.
  intros Hd Ht Ho Hs H1 H2 Hc k Hin.
  apply mapM_nth in Hd as [_ Hd].
  destruct (Hd i (t, df) Ht) as (y & Hy & Hf). rewrite Ho in Hy.
  inversion Hy; subst y. clear Hy. cbn [fst snd] in Hf.
  destruct (_parseHeaders t) as [[head cols]|e] eqn:Ep; cbn in Hf;
    [|discriminate].
  assert (Hcols : cols = merge r1 r2).
  { destruct (tableHead t) as [|h hs] eqn:Eh.
    { unfold _parseHeaders in Ep. rewrite Eh in Ep. discriminate. }
    rewrite (parseHeaders_two_rows t h hs row1 row2 r1 r2 c1 c2 Eh Hs H1 H2)
      in Ep.
    now inversion Ep. }
  destruct (_formatStandingsTable cols df) as [df' r] eqn:Ef.
  cbn [snd] in Hf. subst r.
  apply standings_labels in Ef as [_ Hl].
  rewrite Hl in Hin. apply filter_In in Hin as [Hin Hkeep].
  subst cols. apply In_merge in Hin.
  pose proof (scanRow_bounds _ _ _ _ H1) as [L1 B1].
  pose proof (scanRow_bounds _ _ _ _ H2) as [L2 B2].
  assert (Hk : 10 <= k < 20).
  { destruct Hin as [Hin|Hin]; [specialize (B1 k Hin)|specialize (B2 k Hin)];
      lia. }
  now rewrite (numbered_teens k Hk) in Hkeep.
Qed.

End StandingsColumns.

(* ================================================================= *)
(** * More on active stats *)

Section StatsColumns.
Import Headers Pandas Espn Pages.
Context {N : Numeric}.

(** What a run of [activeStats_extract] that returns went through. *)
Lemma activeStats_extract_inv (df out : frame) :
  activeStats_extract df = Ok out ->
  exists c pos,
    getcol df name_col = Ok c /\
    has_col df (LStr "POS") = false /\
    apply (split ", ") (stats_group 2 c) = Ok pos /\
    select named
           {| index := index df;
              columns := filter not_name (columns df)
                         ++ [(LStr "PLAYER", stats_group 0 c);
                             (LStr "TEAM", stats_group 1 c);
                             (LStr "POS", pos);
                             (LStr "DTD", stats_group 3 c)] |} = Ok out.
Proof.
  unfold activeStats_extract. fold name_col.
  destruct (getcol df name_col) as [c|e] eqn:Hc; cbn [Py.bind]; [|discriminate].
  destruct (is_object (dt c)) eqn:Eo.
  2:{ unfold str_extract. rewrite Eo. discriminate. }
  rewrite (str_extract_stats c Eo). cbn [Py.bind map fst snd].
  fold (stats_group 0 c) (stats_group 1 c) (stats_group 2 c) (stats_group 3 c).
  unfold join.
  destruct (existsb _ _) eqn:Hov; [discriminate|].
  cbn [Py.bind].
  assert (Hpos : has_col df (LStr "POS") = false).
  { cbn in Hov. destruct (has_col df (LStr "POS")); [|reflexivity].
    now rewrite !orb_true_r in Hov. }
  unfold drop_cols.
  destruct (forallb _ _); [|discriminate].
  cbn [Py.bind index columns].
  unfold getcol at 1. cbn [columns].
  rewrite filter_app, lookup_app.
  rewrite lookup_absent by (apply mentions_filter; exact Hpos).
  cbn [filter fst existsb label_eqb negb orb String.eqb Ascii.eqb
       Bool.eqb lookup name_col].
  cbn [Py.bind].
  destruct (apply (split ", ") (stats_group 2 c)) as [pos|e] eqn:Ea;
    cbn [Py.bind]; [|discriminate].
  unfold setcol. cbn [index columns].
  rewrite set_assoc_app_absent by (apply mentions_filter; exact Hpos).
  cbn [set_assoc label_eqb String.eqb Ascii.eqb Bool.eqb].
  intros H. exists c, pos. repeat split; auto.
Qed.

Lemma labels_mapped (idx : list Z) (g : label * series -> series)
      (cols : list (label * series)) :
  labels {| index := idx; columns := map (fun c => (fst c, g c)) cols |}
  = map fst cols.
Proof. unfold labels. cbn. now rewrite map_map. Qed.

Lemma apply_cols_labels (f : series -> series) (df : frame) :
  labels (apply_cols f df) = labels df.
Proof.
  unfold labels. rewrite (proj2 (apply_cols_spec f df)).
  now rewrite map_map.
Qed.

Lemma activeStats_coerce_index (df df' d : frame) (n : nat) :
  index df = Py.range (S n) ->
  activeStats_coerce df = (df', Ok d) ->
  index df' = Py.range n /\ index d = Py.range n /\ labels d = labels df.
Proof.
  intros Hi. unfold activeStats_coerce, bindM, read, inplace.
  rewrite (drop_footer df n Hi).
  set (d1 := {| index := Py.range n; columns := _ |}).
  destruct (icol d1 2) as [third|e]; [|discriminate].
  assert (Hl1 : labels d1 = labels df) by apply labels_mapped.
  destruct (is_object (dt third)).
  - unfold replace_rows.
    destruct (positions _ _) as [ps|e]; cbn [Py.bind]; [|discriminate].
    intros H. inversion H; subst. cbn [index].
    split; [reflexivity|]. split; [apply apply_cols_spec|].
    rewrite apply_cols_labels.
    etransitivity; [apply labels_mapped|]. exact Hl1.
  - unfold ret. intros H. inversion H; subst.
    split; [reflexivity|]. split; [apply apply_cols_spec|].
    rewrite apply_cols_labels. exact Hl1.
Qed.

Lemma activeStats_coerce_labels (df df' d : frame) :
  activeStats_coerce df = (df', Ok d) -> labels d = labels df.
Proof.
  unfold activeStats_coerce, bindM, read, inplace.
  destruct (drop_rows _ df) as [d1|e] eqn:E1; [|discriminate].
  apply drop_rows_inv in E1.
  assert (Hl1 : labels d1 = labels df).
  { rewrite E1. apply labels_mapped. }
  clear E1.
  destruct (icol d1 2) as [third|e]; [|discriminate].
  destruct (is_object (dt third)).
  - unfold replace_rows.
    destruct (positions _ _) as [ps|e]; cbn [Py.bind]; [|discriminate].
    intros H. injection H as _ Hd. subst d.
    rewrite apply_cols_labels, labels_mapped. exact Hl1.
  - unfold ret. intros H. injection H as _ Hd. subst d.
    rewrite apply_cols_labels. exact Hl1.
Qed.

Lemma formatActiveStatsTable_inv (df df' out : frame) :
  _formatActiveStatsTable df = (df', Ok out) ->
  exists d, activeStats_coerce df = (df', Ok d) /\
            activeStats_extract d = Ok out.
Proof.
  unfold _formatActiveStatsTable, bindM, read.
  destruct (activeStats_coerce df) as [df1 [d|e]]; [|discriminate].
  intros H. inversion H; subst. eauto.
Qed.

(** X13: ActiveStats formatting of a fresh table returns exactly one row
    fewer than the table had, and has removed the last row, the footer,
    from the table itself too. *)
Theorem activeStats_one_row_fewer (df df' out : frame) (n : nat) :
  index df = Py.range (S n) ->
  _formatActiveStatsTable df = (df', Ok out) ->
  index out = Py.range n /\ index df' = Py.range n.
Proof.
  intros Hi H.
  apply formatActiveStatsTable_inv in H as (d & Hc & He).
  apply (activeStats_coerce_index df df' d n Hi) in Hc as (H1 & H2 & _).
  apply activeStats_extract_inv in He as (c & pos & _ & _ & _ & Hs).
  apply select_labels in Hs as [Hs _]. cbn [index] in Hs.
  split; congruence.
Qed.

(** X11: On a table without rows ActiveStats formatting raises: there is no
    footer row to drop. *)
Theorem activeStats_empty (df : frame) :
  index df = [] ->
  _formatActiveStatsTable df = (df, Raise ValueError).
Proof.
  intros H. unfold _formatActiveStatsTable, activeStats_coerce, bindM, inplace,
    drop_rows. rewrite H. reflexivity.
Qed.

(** X12: On a fresh table with fewer than three columns ActiveStats
    formatting raises when it looks at the third, after it has removed
    the footer row from the table. *)
Theorem activeStats_too_narrow (df : frame) (n : nat) :
  index df = Py.range (S n) ->
  (length (columns df) < 3)%nat ->
  exists df',
    _formatActiveStatsTable df = (df', Raise IndexError) /\
    index df' = Py.range n /\
    labels df' = labels df.
Proof.
  intros Hi Hn.
  unfold _formatActiveStatsTable, activeStats_coerce, bindM, read, inplace.
  rewrite (drop_footer df n Hi).
  set (d1 := {| index := Py.range n; columns := _ |}).
  assert (E : icol d1 2 = Raise IndexError).
  { unfold icol, d1. cbn [columns].
    destruct (nth_error _ 2) eqn:E; [|reflexivity].
    assert (Hs : nth_error (map (fun c : label * series =>
                                   (fst c, {| dt := dt (snd c);
                                              vals := firstn n (vals (snd c)) |}))
                                (columns df)) 2 <> None) by congruence.
    apply nth_error_Some in Hs. rewrite length_map in Hs. lia. }
  rewrite E. exists d1. repeat split. apply labels_mapped.
Qed.

Lemma split_go_cons (sep : string) (s : string) : forall skip acc,
  exists x xs, split_go sep skip acc s = x :: xs.
Proof.
  induction s as [|a s IH]; intros skip acc; cbn.
  - eauto.
  - destruct skip as [|k]; [|apply IH].
    destruct (Re.strip_prefix sep (String a s)); [eauto|apply IH].
Qed.

Lemma mapM_In {A B} (f : A -> result B) (l : list A) (ys : list B) (y : B) :
  Py.mapM f l = Ok ys -> In y ys -> exists x, In x l /\ f x = Ok y.
Proof.
  revert ys. induction l as [|a l IH]; intros ys; cbn.
  - intros H. inversion H. intros [].
  - destruct (f a) as [b|e] eqn:E; cbn; [|discriminate].
    destruct (Py.mapM f l) as [zs|e] eqn:E'; cbn; [|discriminate].
    intros H. inversion H; subst. intros [<-|Hy]; [eauto|].
    destruct (IH zs eq_refl Hy) as (x & Hx & Hf). eauto.
Qed.

Lemma lookup_filter_fst (p : label -> bool) (l : label)
      (cols : list (label * series)) :
  lookup l (filter (fun c => p (fst c)) cols)
  = if p l then lookup l cols else None.
Proof.
  induction cols as [|[l' s] cols IH]; cbn.
  - now destruct (p l).
  - destruct (label_eqb l l') eqn:E.
    + apply label_eqb_eq in E. subst l'.
      destruct (p l) eqn:Ep; cbn; [now rewrite label_eqb_refl|].
      exact IH.
    + destruct (p l'); cbn; [rewrite E|]; exact IH.
Qed.

Lemma select_columns (crit : label -> result bool) (df out : frame) :
  select crit df = Ok out ->
  columns out
  = filter (fun c => match crit (fst c) with Ok b => b | Raise _ => false end)
           (columns df).
Proof.
  intros H. apply select_inv in H as (cols & E & ->). cbn.
  now apply filterM_ok in E as [-> _].
Qed.

Lemma activeStats_labels (df df' out : frame) :
  _formatActiveStatsTable df = (df', Ok out) ->
  exists front,
    labels out = front ++ [LStr "PLAYER"; LStr "TEAM"; LStr "POS"; LStr "DTD"]
    /\ forall l, In l front -> In l (labels df).
Proof.
  intros H.
  apply formatActiveStatsTable_inv in H as (d & Hc & He).
  pose proof (activeStats_coerce_labels df df' d Hc) as Hld.
  apply activeStats_extract_inv in He as (c & pos & _ & Hpos & Ha & Hs).
  apply select_labels in Hs as (_ & Hl & _).
  unfold labels in Hl at 2. cbn [columns] in Hl.
  rewrite map_app, filter_app in Hl. cbn in Hl.
  eexists. split; [exact Hl|].
  intros l Hin. apply filter_In in Hin as [Hin _].
  apply in_map_iff in Hin as (x & <- & Hin).
  apply filter_In in Hin as [Hin _]. rewrite <- Hld.
  unfold labels. now apply in_map.
Qed.

(** X14: The columns ActiveStats formatting returns: the combined name
    column and the columns called "Unnamed: n" are gone; what is kept
    of the table comes first, then PLAYER, TEAM, POS and DTD; and
    every POS cell is a non-empty list of strings. *)
Theorem activeStats_output_columns (df df' out : frame) :
  _formatActiveStatsTable df = (df', Ok out) ->
  ~ In (LStr "PLAYER, TEAM POS") (labels out) /\
  (forall l, In l (labels out) ->
             exists s, l = LStr s /\ found unnamedRe s = false) /\
  (exists front,
     labels out = front ++ [LStr "PLAYER"; LStr "TEAM"; LStr "POS";
                            LStr "DTD"] /\
     forall l, In l front -> In l (labels df)) /\
  (exists pos,
     getcol out (LStr "POS") = Ok pos /\
     forall c, In c (vals pos) -> exists x xs, c = Strs (x :: xs)).
Proof.
  intros H.
  apply formatActiveStatsTable_inv in H as (d & Hc & He).
  assert (Hld : forall l, In l (labels d) -> In l (labels df)).
  { intros l. now rewrite (activeStats_coerce_labels df df' d Hc). }
  apply activeStats_extract_inv in He as (c & pos & _ & Hpos & Ha & Hs).
  pose proof (select_columns _ _ _ Hs) as Hcols.
  apply select_labels in Hs as (_ & Hl & _).
  unfold labels in Hl at 2. cbn [columns] in Hl.
  rewrite map_app, filter_app in Hl. cbn in Hl.
  repeat split.
  - rewrite Hl. intros Hin. apply in_app_or in Hin as [Hin|Hin].
    + apply filter_In in Hin as [Hin _].
      apply in_map_iff in Hin as (x & Hx & Hin).
      apply filter_In in Hin as [_ Hin]. unfold not_name in Hin.
      rewrite Hx in Hin. cbn in Hin. discriminate.
    + cbn in Hin. repeat (destruct Hin as [Hin|Hin]; [discriminate|]).
      exact Hin.
  - intros l Hin. rewrite Hl in Hin. apply in_app_or in Hin as [Hin|Hin].
    + apply filter_In in Hin as [_ Hin]. destruct l as [k|s]; [discriminate|].
      exists s. split; [reflexivity|]. cbn in Hin.
      now destruct (found unnamedRe s).
    + cbn in Hin.
      repeat (destruct Hin as [<-|Hin]; [eexists; split; reflexivity|]).
      destruct Hin.
  - eexists. split; [exact Hl|].
    intros l Hin. apply filter_In in Hin as [Hin _].
    apply in_map_iff in Hin as (x & <- & Hin).
    apply filter_In in Hin as [Hin _]. apply Hld.
    unfold labels. now apply in_map.
  - exists pos. split.
    + unfold getcol. rewrite Hcols.
      rewrite (lookup_filter_fst
                 (fun l => match named l with Ok b => b | Raise _ => false end)).
      cbn [named found]. 
      replace (negb (found unnamedRe "POS")) with true by reflexivity.
      cbn [columns]. rewrite lookup_app, lookup_absent.
      * reflexivity.
      * apply mentions_filter. exact Hpos.
    + intros x Hx. unfold apply in Ha.
      destruct (Py.mapM _ _) as [vs|e] eqn:Em; cbn in Ha; [|discriminate].
      inversion Ha; subst. cbn [vals] in Hx.
      destruct (mapM_In _ _ _ _ Em Hx) as (y & _ & Hy).
      destruct y; try discriminate. cbn in Hy. inversion Hy.
      unfold str_split.
      destruct (split_go_cons ", " s 0 EmptyString) as (a & rest & ->).
      eauto.
Qed.

(* ----------------------------------------------------------------- *)
(** ** [_downloadActiveStatsTable] *)

(** X17: A team id given as an int never gets a table: if its text is not
    in the directory the assertion fails, and if it is, the lookup
    with the int itself raises [KeyError]; the table is not touched. *)
Theorem download_stats_int_id (d : dict) (n : Z) (df : frame) :
  _downloadActiveStatsTable d (LInt n) df
  = (df, Raise (if dict_mem (Py.str_of_int n) d then KeyError
                else AssertionError)).
Proof.
  unfold _downloadActiveStatsTable, bindM, read. cbn [str Py.bind].
  destruct (dict_mem (Py.str_of_int n) d); reflexivity.
Qed.

Lemma dict_find_mem (k v : string) (d : dict) :
  dict_find k d = Some v -> dict_mem k d = true.
Proof.
  unfold dict_mem. induction d as [|[k' v'] d IH]; cbn; [discriminate|].
  destruct (String.eqb k k'); cbn; auto.
Qed.

Lemma mentions_In (l : label) (cols : list (label * series)) :
  mentions l cols = true <-> In l (map fst cols).
Proof.
  unfold mentions. rewrite existsb_exists. split.
  - intros (c & Hc & E). apply label_eqb_eq in E. subst. now apply in_map.
  - intros H. apply in_map_iff in H as (c & <- & Hc).
    exists c. split; [exact Hc|apply label_eqb_refl].
Qed.

Lemma set_assoc_absent (l : label) (s : series) (cols : list (label * series)) :
  mentions l cols = false -> set_assoc l s cols = cols ++ [(l, s)].
Proof.
  unfold mentions. induction cols as [|[l' s'] cols IH]; cbn; [reflexivity|].
  destruct (label_eqb l l'); cbn; [discriminate|].
  intros H. now rewrite IH.
Qed.

Lemma item_last {A} (F : list A) (x : A) : Py.item (F ++ [x]) (-1) = Ok x.
Proof.
  unfold Py.item, Py.len. rewrite length_app. cbn [length Z.ltb Z.compare].
  destruct (Z.ltb_spec (Z.of_nat (length F + 1) + -1) 0); [lia|].
  replace (Z.to_nat (Z.of_nat (length F + 1) + -1)) with (length F) by lia.
  rewrite nth_error_app2 by lia. now rewrite Nat.sub_diag.
Qed.

(** [[cols[-1]] + cols[-5:-1] + cols[:-5]] when [cols] ends with [x]:
    [x], the four entries before it, and then the rest. *)
Lemma reorder_labels {A} (F : list A) (x : A) :
  [x] ++ slice (F ++ [x]) (-5) (-1) ++ Py.slice_to (F ++ [x]) (-5)
  = x :: skipn (length F - 4) F ++ firstn (length F - 4) F.
Proof.
  cbn [app]. f_equal. f_equal.
  - unfold slice, Py.len. rewrite length_app. cbn [length].
    change (-5 <? 0) with true. change (-1 <? 0) with true. cbv iota.
    set (n := Z.of_nat (length F + 1)).
    replace (Z.to_nat (Z.min n (Z.max 0 (n + -5)))) with (length F - 4)%nat
      by lia.
    replace (Z.to_nat (Z.min n (Z.max 0 (n + -1)))) with (length F) by lia.
    rewrite skipn_app.
    replace (length F - 4 - length F)%nat with 0%nat by lia.
    cbn [skipn]. rewrite firstn_app, length_skipn.
    replace (length F - (length F - 4) - (length F - (length F - 4)))%nat
      with 0%nat by lia.
    cbn [firstn]. rewrite app_nil_r. apply firstn_all2.
    rewrite length_skipn. lia.
  - unfold Py.slice_to, Py.len. rewrite length_app. cbn [length].
    change (-5 <? 0) with true. cbv iota.
    replace (Z.to_nat (Z.max 0 (Z.of_nat (length F + 1) + -5)))
      with (length F - 4)%nat by lia.
    rewrite firstn_app.
    replace (length F - 4 - length F)%nat with 0%nat by lia.
    cbn [firstn]. now rewrite app_nil_r.
Qed.

Lemma select_cols_ok (labs : list label) (df : frame) :
  (forall l, In l labs -> mentions l (columns df) = true) ->
  exists out,
    select_cols labs df = Ok out /\
    labels out = labs /\
    index out = index df /\
    forall l, In l labs -> getcol out l = getcol df l.
Proof.
  intros H. unfold select_cols.
  assert (Hm : Py.mapM (fun l => s <- getcol df l ;; Ok (l, s)) labs
               = Ok (map (fun l => (l, match lookup l (columns df) with
                                       | Some s => s
                                       | None => {| dt := DObject; vals := [] |}
                                       end)) labs)).
  { induction labs as [|l labs IH]; [reflexivity|]. cbn [Py.mapM map].
    destruct (lookup_present l (columns df) (H l (or_introl eq_refl)))
      as [s Hs].
    unfold getcol at 1. rewrite Hs. cbn [Py.bind].
    rewrite IH by (intros; apply H; now right). reflexivity. }
  rewrite Hm. cbn [Py.bind]. eexists. split; [reflexivity|].
  split; [|split; [reflexivity|]].
  - unfold labels. cbn [columns]. rewrite map_map. cbn [fst]. apply map_id.
  - intros l Hl. unfold getcol. cbn [columns].
    destruct (lookup_present l (columns df) (H l Hl)) as [s Hs]. rewrite Hs.
    clear Hm. induction labs as [|l' labs IH]; [destruct Hl|].
    cbn [map lookup]. destruct (label_eqb l l') eqn:E.
    + apply label_eqb_eq in E. subst l'. now rewrite Hs.
    + destruct Hl as [->|Hl]; [now rewrite label_eqb_refl in E|].
      apply IH; [|exact Hl]. intros; apply H; now right.
Qed.

(** X18: For a team id given as a string of the directory, on a table
    without a MANAGER column that the formatting accepts: the table
    returned begins with MANAGER, PLAYER, TEAM, POS and DTD, the other
    columns of the formatted table follow in their order, and MANAGER
    holds the team name of the directory in every row. *)
Theorem download_stats_layout (d : dict) (k name : string)
        (df df' f : frame) :
  str (LStr k) = Ok k ->
  dict_find k d = Some name ->
  has_col df (LStr "MANAGER") = false ->
  _formatActiveStatsTable df = (df', Ok f) ->
  exists out front,
    _downloadActiveStatsTable d (LStr k) df = (df', Ok out) /\
    labels f = front ++ [LStr "PLAYER"; LStr "TEAM"; LStr "POS"; LStr "DTD"]
    /\
    labels out = [LStr "MANAGER"; LStr "PLAYER"; LStr "TEAM"; LStr "POS";
                  LStr "DTD"] ++ front /\
    index out = index f /\
    getcol out (LStr "MANAGER") = Ok (broadcast f (Str name)).
Proof.
  intros Hs Hk Hm Hf.
  destruct (activeStats_labels df df' f Hf) as (front & Hl & Hfront).
  assert (Hmf : mentions (LStr "MANAGER") (columns f) = false).
  { destruct (mentions (LStr "MANAGER") (columns f)) eqn:E; [|reflexivity].
    apply mentions_In in E. fold (labels f) in E. rewrite Hl in E.
    apply in_app_or in E as [E|E].
    - apply Hfront in E. unfold labels in E. apply mentions_In in E.
      unfold has_col in Hm. congruence.
    - cbn in E. repeat (destruct E as [E|E]; [discriminate|]). destruct E. }
  set (df2 := setcol f (LStr "MANAGER") (broadcast f (Str name))).
  assert (Hcols2 : columns df2
                   = columns f ++ [(LStr "MANAGER", broadcast f (Str name))]).
  { unfold df2, setcol. cbn [columns]. now apply set_assoc_absent. }
  assert (Hl2 : labels df2 = labels f ++ [LStr "MANAGER"]).
  { unfold labels. rewrite Hcols2, map_app. reflexivity. }
  set (labs := [LStr "MANAGER"] ++ slice (labels df2) (-5) (-1)
                                ++ Py.slice_to (labels df2) (-5)).
  assert (Hlabs : labs = [LStr "MANAGER"; LStr "PLAYER"; LStr "TEAM";
                          LStr "POS"; LStr "DTD"] ++ front).
  { unfold labs. rewrite Hl2, reorder_labels, Hl.
    rewrite length_app. cbn [length].
    replace (length front + 4 - 4)%nat with (length front) by lia.
    rewrite skipn_app, firstn_app, Nat.sub_diag.
    rewrite skipn_all, firstn_all. cbn [skipn firstn app].
    now rewrite app_nil_r. }
  destruct (select_cols_ok labs df2) as (out & Ho & Hlo & Hio & Hgo).
  { intros l Hin. apply mentions_In. fold (labels df2).
    rewrite Hlabs in Hin. rewrite Hl2, Hl.
    cbn in Hin. rewrite !in_app_iff. cbn.
    destruct Hin as [<-|[<-|[<-|[<-|[<-|Hin]]]]]; tauto. }
  exists out, front. split; [|split; [exact Hl|split; [|split]]].
  - unfold _downloadActiveStatsTable, bindM, read.
    rewrite Hs. cbn [Py.bind]. rewrite (dict_find_mem k name d Hk).
    cbn [negb dict_get]. rewrite Hk, Hf.
    fold df2. rewrite Hl2, item_last. cbn [Py.bind].
    rewrite <- Hl2. fold labs. now rewrite Ho.
  - now rewrite Hlo.
  - exact Hio.
  - rewrite Hgo by (rewrite Hlabs; now left).
    unfold df2. apply getcol_setcol_same.
Qed.

End StatsColumns.

(* ================================================================= *)
(** * More on the draft formatters *)

Section KeeperValues.
Import Pandas Espn Pages.
Context {N : Numeric}.

Lemma more_greedy_calls {R} (p : ascii -> bool) (s : string) (cs : Re.caps)
      (k : Re.cont R) (r : R) :
  Re.more_greedy R p s cs k = Some r -> exists s', k s' cs = Some r.
Proof.
  induction s as [|a s IH]; cbn; [eauto|].
  destruct (p a); [|eauto].
  destruct (Re.more_greedy R p s cs k) as [x|] eqn:E; [|eauto].
  intros H. inversion H; subst. now apply IH.
Qed.

Lemma more_lazy_calls {R} (p : ascii -> bool) (s : string) (cs : Re.caps)
      (k : Re.cont R) (r : R) :
  Re.more_lazy R p s cs k = Some r -> exists s', k s' cs = Some r.
Proof.
  induction s as [|a s IH]; cbn.
  - destruct (k EmptyString cs) eqn:E; [|discriminate].
    intros H. inversion H; subst. eauto.
  - destruct (k (String a s) cs) eqn:E.
    + intros H. inversion H; subst. eauto.
    + destruct (p a); [apply IH|discriminate].
Qed.

Lemma strip_prefix_app (p s s' : string) :
  Re.strip_prefix p s = Some s' -> s = (p ++ s')%string.
Proof.
  revert s. induction p as [|a p IH]; intros s; cbn.
  - intros H. now inversion H.
  - destruct s as [|b s]; [discriminate|].
    destruct (Ascii.eqb_spec a b); [|discriminate].
    intros H. apply IH in H. now subst.
Qed.

Lemma substring_prefix (p s : string) :
  substring 0 (String.length p) (p ++ s) = p.
Proof.
  induction p as [|a p IH]; cbn.
  - now destruct s.
  - now rewrite IH.
Qed.

Lemma string_length_app (p s : string) :
  String.length (p ++ s) = (String.length p + String.length s)%nat.
Proof. induction p as [|a p IH]; cbn; [reflexivity|now rewrite IH]. Qed.

Lemma strip_prefix_consumed (p s s' : string) :
  Re.strip_prefix p s = Some s' -> Re.consumed s s' = p.
Proof.
  intros H. apply strip_prefix_app in H. subst s. unfold Re.consumed.
  rewrite string_length_app.
  replace (String.length p + String.length s' - String.length s')%nat
    with (String.length p) by lia.
  apply substring_prefix.
Qed.

Lemma consumed_nothing (s : string) : Re.consumed s s = EmptyString.
Proof.
  unfold Re.consumed. rewrite Nat.sub_diag. now destruct s.
Qed.

(** The KEEPER group of the draft pattern holds the marker or nothing. *)
Lemma draft_keeper_group (whole s : string) (m : string * string * Re.caps) :
  Re.search_from whole (Re.body draftRe) s = Some m ->
  Re.group (snd m) 4 = Some EmptyString \/
  Re.group (snd m) 4 = Some keeperMark.
Proof.
  induction s as [|a s IH].
  - cbn [Re.search_from]. discriminate.
  - cbn [Re.search_from].
    destruct (Re.mtch whole (Re.body draftRe) (String a s) [] _) eqn:E;
      [|exact IH].
    intros H. inversion H; subst. clear H IH.
    cbn [Re.body draftRe] in E.
    cbn [Re.mtch] in E.
    destruct (Re.in_cls Re.Dot a); [|discriminate].
    apply more_lazy_calls in E as (s1 & E).
    destruct (Re.strip_prefix ", " s1) as [[|a0 s0]|]; try discriminate.
    destruct (Re.in_cls Re.Word a0); [|discriminate].
    apply more_greedy_calls in E as (s2 & E).
    destruct (Re.strip_prefix nbsp s2) as [[|a1 s1']|]; try discriminate.
    destruct (Re.in_cls Re.Word a1); [|discriminate].
    apply more_greedy_calls in E as (s3 & E).
    destruct (Re.strip_prefix keeperMark s3) as [s4|] eqn:Ek.
    + destruct (Re.at_end s4).
      * inversion E; subst. cbn. right.
        now rewrite (strip_prefix_consumed _ _ _ Ek).
      * destruct (Re.at_end s3); [|discriminate].
        inversion E; subst. cbn. left. now rewrite consumed_nothing.
    + destruct (Re.at_end s3); [|discriminate].
      inversion E; subst. cbn. left. now rewrite consumed_nothing.
Qed.

Lemma extract_keeper_cell (c : cell) :
  let x := nth 3 (extract_row draftRe c) NaN in
  x = NaN \/ x = Str EmptyString \/ x = Str keeperMark.
Proof.
  cbn zeta. destruct c; try (left; reflexivity).
  unfold extract_row, Re.search.
  destruct (Re.search_from s (Re.body draftRe) s) as [[[a b] cs]|] eqn:E;
    [|left; reflexivity].
  apply draft_keeper_group in E. cbn [snd] in E.
  unfold Re.groups_of. cbn [Re.groups draftRe seq map nth].
  destruct E as [-> | ->]; auto.
Qed.

Lemma formatAuctionDraftTable_shape (df out : frame) :
  _formatAuctionDraftTable df = Ok out -> draft_shape df = true.
Proof.
  rewrite formatAuctionDraftTable_eq. unfold draft_shape.
  destruct (getcol df (LInt 1)) as [c1|e]; [|discriminate].
  destruct (is_object (dt c1)); [|discriminate]. cbn [negb].
  destruct (existsb _ (derived c1)); [discriminate|].
  destruct (has_col df (LInt 0)); [|discriminate].
  destruct (has_col df (LInt 2)); [|discriminate].
  reflexivity.
Qed.

(** X20: The KEEPER column Player/Team/Position/Keeper extraction returns
    holds nothing but True, False and NaN: the text of the marker
    never stays in it. *)
Theorem keeper_values (df out : frame) (k : series) :
  _formatAuctionDraftTable df = Ok out ->
  getcol out (LStr "KEEPER") = Ok k ->
  forall c, In c (vals k) -> c = Bool true \/ c = Bool false \/ c = NaN.
Proof.
  intros H Hk c Hc.
  pose proof (formatAuctionDraftTable_shape df out H) as Hs.
  apply formatAuctionDraftTable_inv in H as (c1 & H1 & ->).
  destruct (shape_no_overlap df c1 Hs H1) as (_ & _ & _ & Hno).
  unfold getcol in Hk. cbn [columns] in Hk.
  rewrite lookup_app, lookup_absent in Hk
    by (apply mentions_filter; exact Hno).
  cbn in Hk. inversion Hk; subst k. clear Hk. cbn [vals] in Hc.
  rewrite map_map in Hc. apply in_map_iff in Hc as (x & <- & _).
  pose proof (extract_keeper_cell x) as Hx. cbn zeta in Hx.
  destruct Hx as [-> | [-> | ->]]; cbn; auto.
Qed.

End KeeperValues.

(* ================================================================= *)
(** * The formatters keep tables rectangular *)

Section Alignment.
Import Pandas Espn Pages.
Context {N : Numeric}.

Lemma aligned_In (df : frame) :
  aligned df = true <->
  forall c, In c (columns df) -> length (vals (snd c)) = length (index df).
Proof.
  unfold aligned. rewrite forallb_forall. split; intros H c Hc.
  - now apply Nat.eqb_eq, H.
  - now apply Nat.eqb_eq, H.
Qed.

Lemma lookup_In (l : label) (cols : list (label * series)) (s : series) :
  lookup l cols = Some s -> In (l, s) cols.
Proof.
  induction cols as [|[l' s'] cols IH]; cbn; [discriminate|].
  destruct (label_eqb l l') eqn:E.
  - apply label_eqb_eq in E. subst. intros H. inversion H. now left.
  - intros H. right. now apply IH.
Qed.

Lemma aligned_getcol (df : frame) (l : label) (s : series) :
  aligned df = true -> getcol df l = Ok s ->
  length (vals s) = length (index df).
Proof.
  intros Ha Hg. unfold getcol in Hg.
  destruct (lookup l (columns df)) eqn:E; [|discriminate].
  inversion Hg; subst. apply lookup_In in E.
  now apply (proj1 (aligned_In df) Ha (l, s)).
Qed.

Lemma In_set_assoc (l : label) (s : series) (cols : list (label * series))
      (c : label * series) :
  In c (set_assoc l s cols) -> c = (l, s) \/ In c cols.
Proof.
  induction cols as [|[l' s'] cols IH]; cbn.
  - intros [<-|[]]. now left.
  - destruct (label_eqb l l'); cbn.
    + intros [<-|H]; auto.
    + intros [<-|H]; auto. destruct (IH H); auto.
Qed.

Lemma aligned_setcol (df : frame) (l : label) (s : series) :
  aligned df = true ->
  length (vals s) = length (index df) ->
  aligned (setcol df l s) = true.
Proof.
  intros Ha Hs. apply aligned_In. intros c Hc. cbn [setcol columns index] in *.
  apply In_set_assoc in Hc as [->|Hc]; [exact Hs|].
  now apply (proj1 (aligned_In df) Ha).
Qed.

Lemma pick_length_eq {A B} (mask : list bool) : forall (a : list A) (b : list B),
  length a = length b -> length (pick mask a) = length (pick mask b).
Proof.
  induction mask as [|m mask IH]; intros [|x a] [|y b] H; cbn;
    try reflexivity; try discriminate.
  inversion H. destruct m; cbn; auto.
Qed.

Lemma aligned_rows_of (mask : list bool) (df : frame) :
  aligned df = true -> aligned (rows_of mask df) = true.
Proof.
  intros Ha. apply aligned_In. intros c Hc. unfold rows_of in *.
  cbn [columns index] in *. apply in_map_iff in Hc as (c' & <- & Hc').
  cbn [snd vals]. apply pick_length_eq.
  now apply (proj1 (aligned_In df) Ha).
Qed.

Lemma aligned_drop_rows (labs : list Z) (df df' : frame) :
  aligned df = true -> drop_rows labs df = Ok df' -> aligned df' = true.
Proof.
  intros Ha H. apply drop_rows_inv in H. subst. now apply aligned_rows_of.
Qed.

Lemma all_numeric_length (cs vs : list cell) :
  all_numeric cs = Some vs -> length vs = length cs.
Proof.
  revert vs. induction cs as [|c cs IH]; intros vs; cbn.
  - intros H. now inversion H.
  - destruct (numeric_of c); [|discriminate].
    destruct (all_numeric cs) as [ws|]; [|discriminate].
    intros H. inversion H. cbn. now rewrite (IH ws).
Qed.

Lemma to_numeric_length (s s' : series) :
  to_numeric s = Ok s' -> length (vals s') = length (vals s).
Proof.
  unfold to_numeric. destruct (dt s).
  - destruct (all_numeric (vals s)) as [vs|] eqn:E; [|discriminate].
    intros H. inversion H. cbn. now apply all_numeric_length.
  - intros H. now inversion H.
  - intros H. now inversion H.
Qed.

Lemma to_numeric_ignore_length (s : series) :
  length (vals (to_numeric_ignore s)) = length (vals s).
Proof.
  unfold to_numeric_ignore. destruct (to_numeric s) eqn:E; [|reflexivity].
  now apply to_numeric_length.
Qed.

Lemma apply_length (f : cell -> result cell) (s s' : series) :
  apply f s = Ok s' -> length (vals s') = length (vals s).
Proof.
  unfold apply. destruct (Py.mapM f (vals s)) as [vs|] eqn:E; cbn;
    [|discriminate].
  intros H. inversion H. cbn. now apply mapM_nth in E as [E _].
Qed.

Lemma select_cols_inv (labs : list label) (df out : frame) :
  select_cols labs df = Ok out ->
  index out = index df /\
  labels out = labs /\
  forall c, In c (columns out) -> getcol df (fst c) = Ok (snd c).
Proof.
  unfold select_cols.
  destruct (Py.mapM _ labs) as [cols|e] eqn:E; cbn; [|discriminate].
  intros H. inversion H; subst. clear H. cbn. split; [reflexivity|].
  revert cols E. induction labs as [|l labs IH]; intros cols; cbn.
  - intros H. inversion H. split; [reflexivity|]. intros c [].
  - destruct (getcol df l) as [s|e] eqn:Eg; cbn; [|discriminate].
    destruct (Py.mapM _ labs) as [cols'|e] eqn:E'; cbn; [|discriminate].
    intros H. inversion H; subst. destruct (IH cols' eq_refl) as [Hl Hc].
    split.
    + unfold labels in *. cbn in *. now rewrite Hl.
    + intros c [<-|Hin]; [exact Eg|now apply Hc].
Qed.

Lemma aligned_select_cols (labs : list label) (df out : frame) :
  aligned df = true -> select_cols labs df = Ok out -> aligned out = true.
Proof.
  intros Ha H. apply select_cols_inv in H as (Hi & _ & Hc).
  apply aligned_In. intros c Hin. rewrite Hi.
  eapply aligned_getcol; eauto.
Qed.

Lemma aligned_select (crit : label -> result bool) (df out : frame) :
  aligned df = true -> select crit df = Ok out -> aligned out = true.
Proof.
  intros Ha H. apply select_labels in H as (Hi & _ & Hc).
  apply aligned_In. intros c Hin. rewrite Hi.
  now apply (proj1 (aligned_In df) Ha), Hc.
Qed.

Lemma aligned_formatted (df out : frame) :
  aligned df = true ->
  _formatAuctionDraftTable df = Ok out ->
  aligned out = true.
Proof.
  intros Ha H. apply formatAuctionDraftTable_inv in H as (c1 & H1 & ->).
  pose proof (aligned_getcol df _ _ Ha H1) as Hlen.
  apply aligned_In. intros c Hc. cbn [columns index] in *.
  apply in_app_or in Hc as [Hc|Hc].
  - apply filter_In in Hc as [Hc _]. now apply (proj1 (aligned_In df) Ha).
  - cbn in Hc.
    destruct Hc as [<-|[<-|[<-|[<-|[]]]]]; cbn; now rewrite ?length_map.
Qed.

(** X21: Auction formatting of a rectangular block: the table returned has
    the columns MANAGER, PLAYER, PICK, TEAM, POS, PRICE, KEEPER, in
    this order, and it is rectangular, as is the block after the
    changes made to it in place. *)
Theorem auction_output_aligned (df df' out : frame) :
  aligned df = true ->
  _formatAuctionTable df = (df', Ok out) ->
  labels out = [LStr "MANAGER"; LStr "PLAYER"; LStr "PICK"; LStr "TEAM";
                LStr "POS"; LStr "PRICE"; LStr "KEEPER"] /\
  aligned out = true /\
  aligned df' = true.
Proof.
  intros Ha H.
  unfold _formatAuctionTable, bindM, read, inplace in H.
  destruct (getcol df (LInt 0)) as [c0|e]; cbn [Py.bind] in H; [|discriminate].
  destruct (ix df c0 0) as [manager|e]; [|discriminate].
  set (df1 := setcol df (LStr "MANAGER") (broadcast df manager)) in *.
  assert (A1 : aligned df1 = true).
  { apply aligned_setcol; [exact Ha|]. cbn. apply repeat_length. }
  destruct (drop_rows [0] df1) as [df2|e] eqn:E2; [|discriminate].
  pose proof (aligned_drop_rows _ _ _ A1 E2) as A2.
  destruct (getcol df2 (LInt 0)) as [c0'|e] eqn:E3; cbn [Py.bind] in H;
    [|discriminate].
  destruct (to_numeric c0') as [pk|e] eqn:E4; cbn [Py.bind] in H;
    [|discriminate].
  set (df3 := setcol df2 (LStr "PICK") pk) in *.
  assert (A3 : aligned df3 = true).
  { apply aligned_setcol; [exact A2|].
    rewrite (to_numeric_length _ _ E4). eapply aligned_getcol; eauto. }
  destruct (getcol df3 (LInt 2)) as [c2|e] eqn:E5; cbn [Py.bind] in H;
    [|discriminate].
  destruct (apply from1 c2) as [am|e] eqn:E6; cbn [Py.bind] in H;
    [|discriminate].
  destruct (to_numeric am) as [pr|e] eqn:E7; cbn [Py.bind] in H;
    [|discriminate].
  set (df4 := setcol df3 (LStr "PRICE") pr) in *.
  assert (A4 : aligned df4 = true).
  { apply aligned_setcol; [exact A3|].
    rewrite (to_numeric_length _ _ E7), (apply_length _ _ _ E6).
    eapply aligned_getcol; eauto. }
  destruct (_formatAuctionDraftTable df4) as [df5|e] eqn:E8; [|discriminate].
  pose proof (aligned_formatted _ _ A4 E8) as A5.
  injection H as Hdf' Hout. subst df'.
  pose proof (aligned_select_cols _ _ _ A5 Hout) as Ao.
  apply select_cols_inv in Hout as (_ & Hl & _).
  auto.
Qed.

(** X10: Standings formatting of a rectangular table returns a rectangular
    table and leaves the table it changed in place rectangular. *)
Theorem standings_output_aligned (cols : list label) (df df' out : frame) :
  aligned df = true ->
  _formatStandingsTable cols df = (df', Ok out) ->
  aligned out = true /\ aligned df' = true.
Proof.
  intros Ha H.
  apply standings_inv in H as (d1 & c0 & E1 & _ & E3 & Hs & _).
  assert (A1 : aligned d1 = true).
  { unfold set_columns in E1.
    destruct (_ =? _)%nat; [|discriminate]. inversion E1; subst.
    apply aligned_In. intros [l s] Hc. cbn [columns index snd] in *.
    apply in_combine_r in Hc. apply in_map_iff in Hc as (c' & Hc' & Hin).
    rewrite <- Hc'. now apply (proj1 (aligned_In df) Ha). }
  assert (A' : aligned df' = true).
  { rewrite E3. now apply aligned_rows_of. }
  split; [|exact A'].
  eapply aligned_select; eauto.
Qed.

Lemma replace_at_length (ps : list nat) (old : string) (cs : list cell) :
  forall i, length (replace_at ps old i cs) = length cs.
Proof.
  induction cs as [|c cs IH]; intros i; cbn; [reflexivity|].
  now rewrite IH.
Qed.

Lemma aligned_mapped (df : frame) (g : series -> list cell) :
  aligned df = true ->
  (forall s, length (g s) = length (vals s)) ->
  aligned {| index := index df;
             columns := map (fun c => (fst c, {| dt := dt (snd c);
                                                 vals := g (snd c) |}))
                            (columns df) |} = true.
Proof.
  intros Ha Hg. apply aligned_In. intros c Hc. cbn [columns index] in *.
  apply in_map_iff in Hc as (c' & <- & Hin). cbn [snd vals].
  rewrite Hg. now apply (proj1 (aligned_In df) Ha).
Qed.

(** X15: ActiveStats formatting of a rectangular table returns a rectangular
    table and leaves the table it changed in place rectangular. *)
Theorem activeStats_output_aligned (df df' out : frame) :
  aligned df = true ->
  _formatActiveStatsTable df = (df', Ok out) ->
  aligned out = true /\ aligned df' = true.
Proof.
  intros Ha H.
  apply formatActiveStatsTable_inv in H as (d & Hc & He).
  assert (Hd : aligned d = true /\ aligned df' = true).
  { unfold activeStats_coerce, bindM, read, inplace in Hc.
    destruct (drop_rows _ df) as [d1|e] eqn:E1; [|discriminate].
    pose proof (aligned_drop_rows _ _ _ Ha E1) as A1. clear E1.
    destruct (icol d1 2) as [third|e]; [|discriminate].
    assert (Hap : forall x, aligned x = true ->
                            aligned (apply_cols to_numeric_ignore x) = true).
    { intros x Hx. apply aligned_In. intros c Hin.
      destruct (apply_cols_spec to_numeric_ignore x) as [Ei Ec].
      rewrite Ei. rewrite Ec in Hin.
      apply in_map_iff in Hin as (c' & <- & Hin'). cbn [snd].
      pose proof (proj1 (aligned_In x) Hx c' Hin') as Hl.
      destruct (index x); [exact Hl|].
      now rewrite to_numeric_ignore_length. }
    destruct (is_object (dt third)).
    - unfold replace_rows in Hc.
      destruct (positions _ _) as [ps|e]; cbn [Py.bind] in Hc; [|discriminate].
      injection Hc as Hdf Hd. subst d df'.
      assert (A2 : aligned
                     {| index := index d1;
                        columns :=
                          map (fun c => (fst c,
                                         {| dt := dt (snd c);
                                            vals := replace_at ps "--" 0
                                                      (vals (snd c)) |}))
                              (columns d1) |} = true).
      { apply (aligned_mapped d1 (fun s => replace_at ps "--" 0 (vals s)) A1).
        intros s. apply replace_at_length. }
      split; [now apply Hap|exact A2].
    - unfold ret in Hc. injection Hc as Hdf Hd. subst d df'.
      split; [now apply Hap|exact A1]. }
  destruct Hd as [Ad A'].
  split; [|exact A'].
  apply activeStats_extract_inv in He as (c & pos & Hg & _ & Hp & Hs).
  eapply aligned_select; [|exact Hs].
  pose proof (aligned_getcol d _ _ Ad Hg) as Hlen.
  apply apply_length in Hp. cbn [vals stats_group] in Hp.
  rewrite length_map in Hp.
  apply aligned_In. intros x Hx. cbn [columns index] in *.
  apply in_app_or in Hx as [Hx|Hx].
  - apply filter_In in Hx as [Hx _]. now apply (proj1 (aligned_In d) Ad).
  - cbn in Hx.
    destruct Hx as [<-|[<-|[<-|[<-|[]]]]]; cbn; rewrite ?length_map; congruence.
Qed.

End Alignment.

(* ================================================================= *)
(** * More on transactions *)

Section TransactionFacts.
Import Pandas Espn Pages.
Context {N : Numeric}.

Lemma findall_from_length (p : Re.pattern) (whole : string) (fuel : nat) :
  forall s t, In t (Re.findall_from fuel p whole s) ->
              length t = Re.groups p.
Proof.
  induction fuel as [|fuel IH]; intros s t; cbn; [intros []|].
  destruct (Re.search_from whole (Re.body p) s) as [[[start rest] cs]|];
    [|intros []].
  intros [<-|H].
  - unfold Re.groups_of. now rewrite !length_map, length_seq.
  - destruct (_ =? _)%nat; [destruct rest; [destruct H|]|]; eapply IH; eauto.
Qed.

(** X24: Every match of the add+drop pattern is a tuple of six texts, so
    for a DETAIL with two matches or more the entry built for the row
    has a first tuple of three texts and a second of two: the add half
    keeps the source and the player, not the team. *)
Theorem add_drop_pair_shape (detail : string) (x0 x1 : list string)
        (more : list (list string)) :
  Re.findall addDropStr detail = x0 :: x1 :: more ->
  exists a b,
    addDrop_pair (Some (Re.findall addDropStr detail)) = Ok (Some [a; b]) /\
    a = firstn 3 x0 /\ length a = 3%nat /\
    b = [nth 5 x1 EmptyString; nth 4 x1 EmptyString] /\ length b = 2%nat.
Proof.
  intros H.
  assert (H0 : length x0 = 6%nat).
  { apply (findall_from_length addDropStr detail
                                (S (String.length detail)) detail).
    fold (Re.findall addDropStr detail). rewrite H. now left. }
  assert (H1 : length x1 = 6%nat).
  { apply (findall_from_length addDropStr detail
                                (S (String.length detail)) detail).
    fold (Re.findall addDropStr detail). rewrite H. right. now left. }
  rewrite H. exists (firstn 3 x0), [nth 5 x1 EmptyString; nth 4 x1 EmptyString].
  repeat split.
  - cbn. do 3 f_equal.
    do 7 (destruct x1 as [|? x1]; try discriminate). reflexivity.
  - rewrite length_firstn. lia.
Qed.

Lemma match_key (k t : string) :
  Re.match_ (key k) t
  = match Re.strip_prefix k t with
    | Some rest => Some (rest, [])
    | None => None
    end.
Proof. reflexivity. Qed.

Lemma add_drop_type_prefix (t : string) :
  Re.match_ addDropKey t <> None -> Re.match_ addKey t <> None.
Proof.
  unfold addDropKey, addKey. rewrite !match_key.
  destruct (Re.strip_prefix _ t) as [rest|] eqn:E; [|congruence].
  intros _. apply strip_prefix_app in E. subst t. cbn. discriminate.
Qed.

(** X23: The TYPE keys are matched as prefixes: a TYPE text of the add+drop
    family is of the add family too, and of neither the drop nor the
    trade family. *)
Theorem add_drop_type_is_add (t : string) :
  Re.match_ addDropKey t <> None ->
  Re.match_ addKey t <> None /\
  Re.match_ dropKey t = None /\
  Re.match_ tradeKey t = None.
Proof.
  unfold addDropKey, addKey, dropKey, tradeKey. rewrite !match_key.
  destruct (Re.strip_prefix _ t) as [rest|] eqn:E; [|congruence].
  intros _.
  apply strip_prefix_app in E. subst t.
  repeat split; cbn; try reflexivity. discriminate.
Qed.

Lemma formatTransactionTable_start (df : frame) (tds : list (list string)) :
  _formatTransactionTable df tds
  = if (length (stride 4 0 tds) =? length (index df))%nat
       && (length (stride 4 2 tds) =? length (index df))%nat
    then
      let df2 := with_texts df tds in
      addDrop <- family addDropKey addDropStr df2 ;;
      addDrop <- apply_found addDrop_pair addDrop ;;
      add <- family addKey addStr df2 ;;
      add <- apply_found add_single add ;;
      drop <- family dropKey dropStr df2 ;;
      trade <- family tradeKey tradeStr df2 ;;
      join_series df2 (LStr "TRANSACTION")
                  (map (fun e => (fst e, cell_of_found (snd e)))
                       (addDrop ++ add ++ drop ++ trade))
    else Raise ValueError.
Proof.
  unfold _formatTransactionTable, setcol_list.
  rewrite !length_map.
  destruct (_ =? _)%nat; [|reflexivity]. cbn [Py.bind andb].
  cbn [setcol index]. rewrite ?length_map.
  destruct (_ =? _)%nat; reflexivity.
Qed.

Lemma with_texts_detail (df : frame) (tds : list (list string)) :
  getcol (with_texts df tds) detail_col
  = Ok {| dt := DObject; vals := map Str (details_of tds) |}.
Proof. apply getcol_setcol_same. Qed.

Lemma with_texts_type (df : frame) (tds : list (list string)) :
  getcol (with_texts df tds) type_col = getcol df type_col.
Proof.
  unfold with_texts. now rewrite !getcol_setcol_other by discriminate.
Qed.

(** What [family] returns, from the mask of the rows of the family. *)
Lemma family_inv (k p : Re.pattern) (df : frame) (ty detail : series)
      (s : list (Z * found_t)) :
  getcol df type_col = Ok ty ->
  getcol df detail_col = Ok detail ->
  family k p df = Ok s ->
  exists mask,
    as_mask (map (in_family k) (vals ty)) = Ok mask /\
    s = combine (pick mask (index df))
                (map (found_of p) (pick mask (vals detail))).
Proof.
  intros Ht Hd. unfold family. fold type_col detail_col. rewrite Ht.
  cbn [Py.bind]. unfold str_match.
  destruct (is_object (dt ty)); [|discriminate]. cbn [Py.bind].
  fold (in_family k).
  destruct (as_mask _) as [mask|e]; cbn [Py.bind]; [|discriminate].
  rewrite (getcol_rows_of mask df detail_col detail Hd). cbn [Py.bind dt vals].
  destruct (is_object (dt detail)); [|discriminate].
  intros H. inversion H. exists mask. split; reflexivity.
Qed.

Lemma as_mask_nth (cs : list cell) (mask : list bool) (i : nat) (b : bool) :
  as_mask cs = Ok mask ->
  nth_error cs i = Some (Bool b) ->
  nth_error mask i = Some b.
Proof.
  intros H Hi. unfold as_mask in H.
  apply mapM_nth in H as [_ H].
  destruct (H i _ Hi) as (y & Hy & E). now inversion E; subst.
Qed.

Lemma In_pick_nth {A} (mask : list bool) : forall (l : list A) (i : nat) (x : A),
  nth_error mask i = Some true ->
  nth_error l i = Some x ->
  In x (pick mask l).
Proof.
  induction mask as [|m mask IH]; intros [|y l] [|i] x; cbn;
    try discriminate.
  - intros H1 H2. inversion H1; inversion H2; subst. now left.
  - intros H1 H2. destruct m; [right|]; eapply IH; eauto.
Qed.

Lemma family_has_row (k p : Re.pattern) (df : frame) (ty detail : series)
      (s : list (Z * found_t)) (i : nat) (l : Z) (t : string) :
  getcol df type_col = Ok ty ->
  getcol df detail_col = Ok detail ->
  length (vals detail) = length (index df) ->
  family k p df = Ok s ->
  nth_error (index df) i = Some l ->
  nth_error (vals ty) i = Some (Str t) ->
  Re.match_ k t <> None ->
  In l (map fst s).
Proof.
  intros Ht Hd Hlen Hf Hi Hc Hm.
  destruct (family_inv k p df ty detail s Ht Hd Hf) as (mask & Hmask & ->).
  rewrite map_fst_combine.
  - apply (In_pick_nth mask (index df) i l); [|exact Hi].
    apply (as_mask_nth _ _ i true Hmask).
    rewrite nth_error_map, Hc. cbn.
    destruct (Re.match_ k t); [reflexivity|congruence].
  - rewrite length_map. symmetry. now apply pick_length_eq.
Qed.

Lemma apply_found_fst (f : found_t -> result found_t)
      (s s' : list (Z * found_t)) :
  apply_found f s = Ok s' -> map fst s' = map fst s.
Proof.
  unfold apply_found. revert s'. induction s as [|e s IH]; intros s'; cbn.
  - intros H. now inversion H.
  - destruct (f (snd e)); cbn; [|discriminate].
    destruct (Py.mapM _ s) as [r|]; cbn; [|discriminate].
    intros H. inversion H. cbn. now rewrite (IH r).
Qed.

Lemma filter_label_length (l : Z) (s : list (Z * cell)) :
  In l (map fst s) ->
  (1 <= length (filter (fun e => (fst e =? l)%Z) s))%nat.
Proof.
  induction s as [|e s IH]; cbn; [intros []|].
  intros [H|H].
  - rewrite H, Z.eqb_refl. cbn. lia.
  - destruct (fst e =? l); cbn; [lia|auto].
Qed.

Lemma expand_count (h : Z -> list cell) (idx : list Z) (i : nat) (l : Z) :
  nth_error idx i = Some l ->
  (length (h l)
   <= count_occ Z.eq_dec
        (flat_map (fun e : Z * list cell => repeat (fst e) (length (snd e)))
                  (combine idx (map h idx))) l)%nat.
Proof.
  revert i. induction idx as [|a idx IH]; intros [|i]; cbn [nth_error];
    try discriminate.
  - intros H. inversion H; subst. cbn [map combine flat_map fst snd].
    rewrite count_occ_app, count_occ_repeat_eq by reflexivity. lia.
  - intros H. cbn [map combine flat_map fst snd].
    rewrite count_occ_app. specialize (IH i H). lia.
Qed.

(** X25: A row of the add+drop family comes out twice: its TYPE text is of
    the add family too, the two series are concatenated with the row
    label in both, and the join on the row labels gives the row once
    for each. *)
Theorem add_drop_row_doubled (df out : frame) (tds : list (list string))
        (ty : series) (i : nat) (l : Z) (t : string) :
  _formatTransactionTable df tds = Ok out ->
  getcol df (LStr "TYPE") = Ok ty ->
  nth_error (index df) i = Some l ->
  nth_error (vals ty) i = Some (Str t) ->
  Re.match_ addDropKey t <> None ->
  (2 <= count_occ Z.eq_dec (index out) l)%nat.
Proof.
  intros H Ht Hi Hc Hm.
  rewrite formatTransactionTable_start in H.
  destruct (Nat.eqb_spec (length (stride 4 0 tds)) (length (index df)));
    [|discriminate].
  destruct (Nat.eqb_spec (length (stride 4 2 tds)) (length (index df)));
    [|discriminate].
  cbn [andb] in H. cbn zeta in H.
  set (df2 := with_texts df tds) in *.
  assert (Ht2 : getcol df2 type_col = Ok ty).
  { unfold df2. now rewrite with_texts_type. }
  pose proof (with_texts_detail df tds) as Hd2. fold df2 in Hd2.
  assert (Hlen : length (vals {| dt := DObject;
                                 vals := map Str (details_of tds) |})
                 = length (index df2)).
  { cbn [vals]. unfold details_of. rewrite !length_map. assumption. }
  destruct (family addDropKey addDropStr df2) as [s1|] eqn:F1;
    cbn [Py.bind] in H; [|discriminate].
  destruct (apply_found addDrop_pair s1) as [s1'|] eqn:A1;
    cbn [Py.bind] in H; [|discriminate].
  destruct (family addKey addStr df2) as [s2|] eqn:F2;
    cbn [Py.bind] in H; [|discriminate].
  destruct (apply_found add_single s2) as [s2'|] eqn:A2;
    cbn [Py.bind] in H; [|discriminate].
  destruct (family dropKey dropStr df2) as [s3|] eqn:F3;
    cbn [Py.bind] in H; [|discriminate].
  destruct (family tradeKey tradeStr df2) as [s4|] eqn:F4;
    cbn [Py.bind] in H; [|discriminate].
  assert (In1 : In l (map fst s1')).
  { rewrite (apply_found_fst _ _ _ A1).
    eapply (family_has_row addDropKey addDropStr df2); eauto. }
  assert (In2 : In l (map fst s2')).
  { rewrite (apply_found_fst _ _ _ A2).
    eapply (family_has_row addKey addStr df2); eauto.
    now apply add_drop_type_prefix. }
  unfold join_series in H.
  destruct (has_col df2 (LStr "TRANSACTION")); [discriminate|].
  inversion H; subst out. clear H. cbn [index].
  set (s := map (fun e : Z * found_t => (fst e, cell_of_found (snd e)))
                (s1' ++ s2' ++ s3 ++ s4)).
  change (map (fun l0 : Z =>
                 match map snd (filter (fun e : Z * cell => fst e =? l0) s) with
                 | [] => [NaN]
                 | c :: l1 => c :: l1
                 end) (index df2))
    with (map (hits_of s) (index df2)).
  pose proof (expand_count (hits_of s) (index df2) i l Hi) as Hcount.
  assert (Hh : (2 <= length (hits_of s l))%nat).
  { assert (Hf : (2 <= length (filter (fun e : Z * cell => (fst e =? l)%Z)
                                       s))%nat).
    { unfold s. rewrite !map_app, !filter_app, !length_app.
      assert (G1 : In l (map fst (map (fun e : Z * found_t =>
                                         (fst e, cell_of_found (snd e))) s1')))
        by (rewrite map_map; exact In1).
      assert (G2 : In l (map fst (map (fun e : Z * found_t =>
                                         (fst e, cell_of_found (snd e))) s2')))
        by (rewrite map_map; exact In2).
      apply filter_label_length in G1, G2. lia. }
    unfold hits_of.
    destruct (map snd (filter (fun e : Z * cell => fst e =? l) s)) eqn:E.
    - apply (f_equal (@length cell)) in E. rewrite length_map in E.
      cbn in E. lia.
    - rewrite <- E, length_map. exact Hf. }
  eapply Nat.le_trans; [exact Hh|exact Hcount].
Qed.

Lemma pick_none {A B} (vs : list B) (l : list A) :
  pick (map (fun _ => false) vs) l = [].
Proof.
  revert l. induction vs as [|v vs IH]; intros [|x l]; cbn; auto.
Qed.

Lemma as_mask_none (k : Re.pattern) (vs : list cell) :
  (forall c, In c vs -> exists t, c = Str t /\ Re.match_ k t = None) ->
  as_mask (map (in_family k) vs) = Ok (map (fun _ => false) vs).
Proof.
  unfold as_mask. induction vs as [|v vs IH]; intros H; [reflexivity|].
  cbn [map Py.mapM].
  destruct (H v (or_introl eq_refl)) as (t & -> & Hm).
  cbn [in_family]. rewrite Hm. cbn [Py.bind].
  rewrite IH by (intros; apply H; now right). reflexivity.
Qed.

Lemma family_empty (k p : Re.pattern) (df : frame) (ty detail : series) :
  getcol df type_col = Ok ty ->
  dt ty = DObject ->
  getcol df detail_col = Ok detail ->
  dt detail = DObject ->
  (forall c, In c (vals ty) -> exists t, c = Str t /\ Re.match_ k t = None) ->
  family k p df = Ok [].
Proof.
  intros Ht Hot Hd Hod Hall. unfold family. fold type_col detail_col.
  rewrite Ht. cbn [Py.bind]. unfold str_match. rewrite Hot. cbn [is_object Py.bind].
  fold (in_family k). rewrite (as_mask_none k _ Hall). cbn [Py.bind].
  rewrite (getcol_rows_of _ df detail_col detail Hd). cbn [Py.bind dt vals].
  rewrite Hod. cbn [is_object]. cbn [rows_of index].
  now rewrite !pick_none.
Qed.

Lemma mentions_set_assoc (l l' : label) (s : series)
      (cols : list (label * series)) :
  mentions l (set_assoc l' s cols) = label_eqb l l' || mentions l cols.
Proof.
  unfold mentions. induction cols as [|[l2 s2] cols IH]; cbn.
  - reflexivity.
  - destruct (label_eqb l' l2) eqn:E; cbn.
    + apply label_eqb_eq in E. subst l2.
      destruct (label_eqb l l'); reflexivity.
    + rewrite IH. destruct (label_eqb l l'), (label_eqb l l2); reflexivity.
Qed.

Lemma mentions_mapped (l : label) (g : label * series -> series)
      (cols : list (label * series)) :
  mentions l (map (fun c => (fst c, g c)) cols) = mentions l cols.
Proof.
  unfold mentions. induction cols as [|c cs IH]; cbn; [reflexivity|].
  now rewrite IH.
Qed.

Lemma expand_once {A} (idx : list Z) (xs : list A) :
  length xs = length idx ->
  flat_map (fun e : A * list cell => repeat (fst e) (length (snd e)))
           (combine xs (map (fun _ => [NaN]) idx)) = xs.
Proof.
  revert xs. induction idx as [|i idx IH]; intros [|x xs] H; cbn;
    try reflexivity; try discriminate.
  inversion H. now rewrite IH.
Qed.

Lemma concat_singletons {A} (idx : list A) :
  concat (map (fun _ => [NaN]) idx) = repeat NaN (length idx).
Proof. induction idx as [|i idx IH]; cbn; [reflexivity|now rewrite IH]. Qed.

(** X26: A table in which no TYPE text is of the add, drop or trade family
    gets a TRANSACTION column of NaN, not of empty lists; the rows are
    those of the table. *)
Theorem transactions_without_family (df : frame) (tds : list (list string))
        (ty : series) :
  length (stride 4 0 tds) = length (index df) ->
  length (stride 4 2 tds) = length (index df) ->
  getcol df (LStr "TYPE") = Ok ty ->
  dt ty = DObject ->
  (forall c, In c (vals ty) ->
             exists t, c = Str t /\
                       Re.match_ addKey t = None /\
                       Re.match_ dropKey t = None /\
                       Re.match_ tradeKey t = None) ->
  has_col df (LStr "TRANSACTION") = false ->
  exists out,
    _formatTransactionTable df tds = Ok out /\
    index out = index df /\
    getcol out (LStr "TRANSACTION")
    = Ok {| dt := DObject; vals := repeat NaN (length (index df)) |}.
Proof.
  intros L0 L2 Ht Hot Hall Hno.
  rewrite formatTransactionTable_start, L0, L2, !Nat.eqb_refl.
  cbn [andb]. cbn zeta.
  set (df2 := with_texts df tds).
  assert (Ht2 : getcol df2 type_col = Ok ty).
  { unfold df2. now rewrite with_texts_type. }
  pose proof (with_texts_detail df tds) as Hd2. fold df2 in Hd2.
  assert (F : forall k p,
             (forall t, Re.match_ addKey t = None ->
                        Re.match_ dropKey t = None ->
                        Re.match_ tradeKey t = None ->
                        Re.match_ k t = None) ->
             family k p df2 = Ok []).
  { intros k p Hk. eapply family_empty; eauto.
    intros c Hc. destruct (Hall c Hc) as (t & -> & Ha & Hd & Hr).
    exists t. split; [reflexivity|]. now apply Hk. }
  rewrite (F addDropKey addDropStr).
  2:{ intros t Ha _ _. destruct (Re.match_ addDropKey t) eqn:E; [|reflexivity].
      exfalso. apply (add_drop_type_prefix t); [congruence|exact Ha]. }
  cbn [Py.bind apply_found Py.mapM].
  rewrite (F addKey addStr) by auto. cbn [Py.bind apply_found Py.mapM].
  rewrite (F dropKey dropStr) by auto. cbn [Py.bind].
  rewrite (F tradeKey tradeStr) by auto. cbn [Py.bind app map].
  unfold join_series.
  assert (Hno2 : has_col df2 (LStr "TRANSACTION") = false).
  { unfold has_col, df2, with_texts, setcol. cbn [columns].
    rewrite !mentions_set_assoc. exact Hno. }
  rewrite Hno2. cbn [filter map].
  eexists. split; [reflexivity|]. cbn [index]. split.
  - apply expand_once. reflexivity.
  - unfold getcol. cbn [columns]. rewrite lookup_app, lookup_absent.
    + cbn [lookup label_eqb]. rewrite String.eqb_refl.
      now rewrite concat_singletons.
    + rewrite mentions_mapped. exact Hno2.
Qed.

End TransactionFacts.

(* ================================================================= *)
(** * The team directory *)

Section TeamDictFacts.
Import Pandas Espn Pages.
Context {T : Text}.

Lemma more_greedy_run {R} (p : ascii -> bool) (s : string) (cs : Re.caps)
      (k : Re.cont R) (r : R) :
  Re.more_greedy R p s cs k = Some r ->
  exists d s', s = (d ++ s')%string /\ string_forall p d = true /\
               k s' cs = Some r.
Proof.
  induction s as [|a s IH]; cbn.
  - intros H. exists EmptyString, EmptyString. auto.
  - destruct (p a) eqn:Ep.
    + destruct (Re.more_greedy R p s cs k) as [x|] eqn:E.
      * intros H. inversion H; subst.
        destruct (IH eq_refl) as (d & s' & -> & Hd & Hk).
        exists (String a d), s'. cbn. rewrite Ep, Hd. auto.
      * intros H. exists EmptyString, (String a s). auto.
    + intros H. exists EmptyString, (String a s). auto.
Qed.

Lemma teamId_group (whole s : string) (m : string * string * Re.caps) :
  Re.search_from whole (Re.body teamIdRe) s = Some m ->
  exists id, Re.group (snd m) 1 = Some id /\ is_team_id id.
Proof.
  induction s as [|a s IH].
  - cbn [Re.search_from]. discriminate.
  - cbn [Re.search_from].
    destruct (Re.mtch whole (Re.body teamIdRe) (String a s) [] _) eqn:E;
      [|exact IH].
    intros H. inversion H; subst. clear H IH.
    cbn [Re.body teamIdRe Re.mtch] in E.
    destruct (Re.strip_prefix "teamId=" (String a s)) as [[|c s1]|];
      try discriminate.
    destruct (Re.in_cls Re.Digit c) eqn:Ec; [|discriminate].
    apply more_greedy_run in E as (d & s' & -> & Hd & E).
    inversion E; subst. cbn [snd Re.group Nat.eqb].
    exists (String c d). split.
    + f_equal. unfold Re.consumed. cbn [String.length].
      rewrite string_length_app.
      replace (S (String.length d + String.length s') - String.length s')%nat
        with (S (String.length d)) by lia.
      cbn [substring]. f_equal. apply substring_prefix.
    + split; [discriminate|].
      change (Re.in_cls Re.Digit c) with (Py.is_digit c) in Ec.
      change (string_forall (Re.in_cls Re.Digit) d)
        with (string_forall Py.is_digit d) in Hd.
      cbn [string_forall]. now rewrite Ec, Hd.
Qed.

Lemma findall1_team_ids (whole : string) (fuel : nat) :
  forall s id,
    In id (map (fun t => nth 0 t EmptyString)
               (Re.findall_from fuel teamIdRe whole s)) ->
    is_team_id id.
Proof.
  induction fuel as [|fuel IH]; intros s id H; cbn [Re.findall_from] in H;
    [destruct H|].
  destruct (Re.search_from whole (Re.body teamIdRe) s) as [[[start rest] cs]|]
    eqn:E; [|destruct H].
  cbn [map In] in H. destruct H as [<-|H].
  - apply teamId_group in E as (x & Hx & Hid). cbn [snd] in Hx.
    unfold Re.groups_of. cbn. now rewrite Hx.
  - destruct (_ =? _)%nat; [destruct rest; [destruct H|]|]; eapply IH; eauto.
Qed.

Lemma In_dict_set (k v : string) (d : dict) (e : string * string) :
  In e (dict_set k v d) -> e = (k, v) \/ In e d.
Proof.
  induction d as [|[k' v'] d IH]; cbn.
  - intros [<-|[]]. now left.
  - destruct (String.eqb k k'); cbn.
    + intros [<-|H]; auto.
    + intros [<-|H]; auto. destruct (IH H); auto.
Qed.

Lemma In_dict_of (pairs : list (string * string)) (e : string * string) :
  In e (dict_of pairs) -> In e pairs.
Proof.
  unfold dict_of.
  assert (G : forall d, In e (fold_left (fun d kv => dict_set (fst kv) (snd kv) d)
                                        pairs d) -> In e d \/ In e pairs).
  { induction pairs as [|[k v] pairs IH]; intros d; cbn; [auto|].
    intros H. apply IH in H as [H|H]; [|auto].
    apply In_dict_set in H as [->|H]; auto. }
  intros H. apply G in H as [[]|H]. exact H.
Qed.

Lemma item_first {A} (l : list A) (x : A) :
  Py.item l 0 = Ok x -> exists xs, l = x :: xs.
Proof.
  destruct l as [|y l]; [discriminate|].
  intros H. inversion H. eauto.
Qed.

(** X27: Every key of the team directory is a non-empty string of digits,
    the first [teamId=...] number of a link. *)
Theorem team_dict_keys (hrefs names : list string) (d : dict) :
  _getTeamDict hrefs names = Ok d ->
  forall k v, In (k, v) d ->
              k <> EmptyString /\ string_forall Py.is_digit k = true.
Proof.
  unfold _getTeamDict.
  destruct (Py.mapM _ hrefs) as [ids|e] eqn:E; cbn [Py.bind]; [|discriminate].
  intros H k v Hin. inversion H; subst. clear H.
  apply In_dict_of, in_combine_l in Hin.
  destruct (mapM_In _ _ _ _ E Hin) as (h & _ & Hh).
  apply item_first in Hh as (xs & Ef).
  apply (findall1_team_ids h (S (String.length h)) h).
  fold (Re.findall teamIdRe h). fold (findall1 teamIdRe h).
  rewrite Ef. now left.
Qed.

(** X28: A link without a [teamId=...] number makes the directory fail with
    an [IndexError], whatever the other links are. *)
Theorem team_dict_bad_link (hrefs names : list string) (h : string) :
  In h hrefs ->
  Re.findall teamIdRe h = [] ->
  _getTeamDict hrefs names = Raise IndexError.
Proof.
  intros Hin Hf. unfold _getTeamDict.
  assert (G : Py.mapM (fun i => Py.item (findall1 teamIdRe i) 0) hrefs
              = Raise IndexError).
  { induction hrefs as [|a hrefs IH]; [destruct Hin|].
    cbn [Py.mapM].
    destruct (Py.item (findall1 teamIdRe a) 0) as [x|e] eqn:E.
    - cbn [Py.bind]. destruct Hin as [->|Hin].
      + unfold findall1 in E. rewrite Hf in E. discriminate.
      + now rewrite IH.
    - cbn [Py.bind]. destruct (findall1 teamIdRe a); [|discriminate].
      now inversion E. }
  now rewrite G.
Qed.

Lemma dict_find_set_same (k v : string) (d : dict) :
  dict_find k (dict_set k v d) = Some v.
Proof.
  induction d as [|[k' v'] d IH]; cbn.
  - now rewrite String.eqb_refl.
  - destruct (String.eqb k k') eqn:E; cbn.
    + now rewrite String.eqb_refl.
    + now rewrite E.
Qed.

Lemma dict_find_set_other (k k' v : string) (d : dict) :
  k <> k' -> dict_find k (dict_set k' v d) = dict_find k d.
Proof.
  intros Hne. apply String.eqb_neq in Hne.
  induction d as [|[k2 v2] d IH]; cbn.
  - now rewrite Hne.
  - destruct (String.eqb k' k2) eqn:E; cbn.
    + apply String.eqb_eq in E. subst k2. now rewrite Hne.
    + destruct (String.eqb k k2); auto.
Qed.

Lemma dict_fold_other (k : string) (pairs : list (string * string)) :
  forall d,
    ~ In k (map fst pairs) ->
    dict_find k (fold_left (fun d kv => dict_set (fst kv) (snd kv) d) pairs d)
    = dict_find k d.
Proof.
  induction pairs as [|[k' v'] pairs IH]; intros d H; cbn; [reflexivity|].
  rewrite IH by (intros Hin; apply H; now right).
  apply dict_find_set_other. intros ->. apply H. now left.
Qed.

Lemma dict_fold_find (k v : string) (pairs : list (string * string)) :
  forall d,
    NoDup (map fst pairs) ->
    In (k, v) pairs ->
    dict_find k (fold_left (fun d kv => dict_set (fst kv) (snd kv) d) pairs d)
    = Some v.
Proof.
  induction pairs as [|[k' v'] pairs IH]; intros d Hnd Hin; [destruct Hin|].
  cbn in *. inversion Hnd as [|? ? Hni Hnd']; subst.
  destruct Hin as [E|Hin].
  - inversion E; subst. rewrite dict_fold_other by exact Hni.
    apply dict_find_set_same.
  - now apply IH.
Qed.

Lemma nth_error_zip {A B} (a : list A) (b : list B) (i : nat) (x : A) (y : B) :
  nth_error a i = Some x ->
  nth_error b i = Some y ->
  nth_error (combine a b) i = Some (x, y).
Proof.
  revert b i. induction a as [|a0 a IH]; intros [|b0 b] [|i]; cbn;
    try discriminate.
  - intros H1 H2. now inversion H1; inversion H2.
  - apply IH.
Qed.

(** X29: Insert and look up: when the links give distinct team ids, one
    name each, the directory maps the id of each link to the text of
    its tab, stripped, in upper case, and with each pair of spaces
    made one. *)
Theorem team_dict_lookup (hrefs names ids : list string) :
  Py.mapM (fun i => Py.item (findall1 teamIdRe i) 0) hrefs = Ok ids ->
  NoDup ids ->
  length names = length hrefs ->
  exists d,
    _getTeamDict hrefs names = Ok d /\
    forall i id name,
      nth_error ids i = Some id ->
      nth_error names i = Some name ->
      dict_get d (LStr id)
      = Ok (str_replace "  " " " (upper (strip name))).
Proof.
  intros Hids Hnd Hlen. unfold _getTeamDict. rewrite Hids. cbn [Py.bind].
  eexists. split; [reflexivity|].
  intros i id name Hi Hn. unfold dict_get, dict_of.
  set (f := fun name0 => str_replace "  " " " (upper (strip name0))).
  assert (Hl : length ids = length (map f names)).
  { rewrite length_map, Hlen. now apply mapM_nth in Hids as [Hl _]. }
  rewrite (dict_fold_find id (f name)); [reflexivity| |].
  - now rewrite map_fst_combine.
  - apply (nth_error_In _ i). apply nth_error_zip; [exact Hi|].
    now rewrite nth_error_map, Hn.
Qed.

End TeamDictFacts.

(* ================================================================= *)
(** * Further error behaviour *)

Section Refusals.
Import Pandas Espn Pages.
Context {N : Numeric}.

(** X6: With a list of names that is not as long as the table is wide,
    standings formatting raises [ValueError] and leaves the table as
    it was. *)
Theorem standings_wrong_width (cols : list label) (df : frame) :
  length cols <> length (columns df) ->
  _formatStandingsTable cols df = (df, Raise ValueError).
Proof.
  intros H. unfold _formatStandingsTable, bindM, inplace, set_columns.
  apply Nat.eqb_neq in H. now rewrite H.
Qed.

(** X16: ActiveStats extraction on a table where the name cell of some row
    is no string or does not match the pattern raises. *)
Theorem stats_extraction_raises (df : frame) (c : series) (i : nat)
        (x : cell) :
  getcol df (LStr "PLAYER, TEAM POS") = Ok c ->
  nth_error (vals c) i = Some x ->
  (forall s, x = Str s -> Re.search statsRe s = None) ->
  exists e, activeStats_extract df = Raise e.
Proof.
  intros Hc Hi Hno.
  destruct (activeStats_extract df) as [out|e] eqn:E; [|eauto].
  exfalso. exact (stats_extraction_not_soft df c i x Hc Hi Hno out E).
Qed.

Lemma position_absent (l : Z) (idx : list Z) :
  ~ In l idx -> position l idx = None.
Proof.
  induction idx as [|a idx IH]; cbn; [reflexivity|].
  intros H. destruct (Z.eqb_spec l a).
  - exfalso. apply H. now left.
  - rewrite IH; [reflexivity|]. intros Hin. apply H. now right.
Qed.

(** X22: Auction formatting cannot be run again on a block it has
    formatted: the row labelled 0 is gone from the block, and the
    second run raises [KeyError] on it without changing the block
    further. *)
Theorem auction_not_rerunnable (df df' out : frame) :
  _formatAuctionTable df = (df', Ok out) ->
  _formatAuctionTable df' = (df', Raise KeyError).
Proof.
  intros H.
  unfold _formatAuctionTable, bindM, read, inplace in H.
  destruct (getcol df (LInt 0)) as [c0|e]; cbn [Py.bind] in H; [|discriminate].
  destruct (ix df c0 0) as [manager|e]; [|discriminate].
  set (df1 := setcol df (LStr "MANAGER") (broadcast df manager)) in *.
  destruct (drop_rows [0] df1) as [df2|e] eqn:E2; [|discriminate].
  destruct (getcol df2 (LInt 0)) as [c0'|e] eqn:E3; cbn [Py.bind] in H;
    [|discriminate].
  destruct (to_numeric c0') as [pk|e] eqn:E4; cbn [Py.bind] in H;
    [|discriminate].
  set (df3 := setcol df2 (LStr "PICK") pk) in *.
  destruct (getcol df3 (LInt 2)) as [c2|e] eqn:E5; cbn [Py.bind] in H;
    [|discriminate].
  destruct (apply from1 c2) as [am|e] eqn:E6; cbn [Py.bind] in H;
    [|discriminate].
  destruct (to_numeric am) as [pr|e] eqn:E7; cbn [Py.bind] in H;
    [|discriminate].
  set (df4 := setcol df3 (LStr "PRICE") pr) in *.
  destruct (_formatAuctionDraftTable df4) as [df5|e] eqn:E8; [|discriminate].
  injection H as Hdf' _. subst df'.
  assert (H0 : getcol df4 (LInt 0) = Ok c0').
  { unfold df4, df3. now rewrite !getcol_setcol_other by discriminate. }
  assert (Hi : ~ In 0 (index df4)).
  { apply drop_rows_inv in E2. cbn [df4 df3 setcol index]. rewrite E2.
    cbn [rows_of index]. rewrite pick_map_filter. intros Hin.
    apply filter_In in Hin as [_ Hin]. discriminate. }
  unfold _formatAuctionTable, bindM, read. rewrite H0. cbn [Py.bind].
  unfold ix. now rewrite (position_absent 0 _ Hi).
Qed.

End Refusals.

(* ================================================================= *)
(** * The further properties on the sample pages *)

Section MoreRuns.
Import Headers Pandas Espn Pages Samples Examples.
#[local] Existing Instance Decimal.
#[local] Existing Instance AsciiText.

Lemma parseHeaders_too_many_rows_witness :
  _parseHeaders three_rows = Raise AssertionError.
Proof.
  apply (parseHeaders_too_many_rows three_rows); [discriminate|cbn; lia].
Defined.

Lemma parseHeaders_nothing_to_read_witness :
  _parseHeaders headless = Raise IndexError.
Proof.
  apply (parseHeaders_nothing_to_read headless). left. reflexivity.
Defined.

Lemma merge_overlay_witness :
  _parseHeaders stats_header
  = Ok (Some "SEASON STATS",
        [LStr "RANK"; LStr "TEAM"] ++ [LStr "R"; LStr "HR"]
        ++ [LInt 11; LStr "TOTAL"]).
Proof.
  apply (merge_overlay stats_header (Some "SEASON STATS") []
           [Td ["RANK"] None; Td ["TEAM"] None; Td ["BATTING"] (Some "2");
            Td [] None; Td ["TOTAL"] None]
           [Td ["R"] None; Td ["HR"] None]
           [LStr "RANK"; LStr "TEAM"; LInt 10; LInt 10; LInt 11;
            LStr "TOTAL"]
           [LStr "R"; LStr "HR"] 12 12);
    try reflexivity.
  cbn. lia.
Defined.

Lemma merge_no_tail_witness :
  _parseHeaders fitting
  = Ok (Some "STANDINGS",
        [LStr "RANK"; LStr "TEAM"] ++ [LStr "R"; LStr "HR"]
        ++ [LStr "RANK"; LStr "TEAM"; LInt 10; LInt 11]) /\
  (length ([LStr "RANK"; LStr "TEAM"] ++ [LStr "R"; LStr "HR"]
           ++ [LStr "RANK"; LStr "TEAM"; LInt 10; LInt 11])
   = 2 * length [LStr "RANK"; LStr "TEAM"; LInt 10; LInt 11])%nat.
Proof.
  apply (merge_no_tail fitting (Some "STANDINGS") []
           [Td ["RANK"] None; Td ["TEAM"] None; Td [] None; Td [] None]
           [Td ["R"] None; Td ["HR"] None]
           [LStr "RANK"; LStr "TEAM"; LInt 10; LInt 11]
           [LStr "R"; LStr "HR"] 12 12);
    reflexivity.
Defined.

Lemma scanRow_plain_witness :
  exists row,
    scanRow 10 plain_row
    = Ok (row, 10 + Z.of_nat (length (filter is_padding plain_row))) /\
    length row = length plain_row /\
    forall i j k,
      nth_error row i = Some (LInt k) ->
      nth_error row j = Some (LInt k) -> i = j.
Proof.
  apply (scanRow_plain plain_row 10).
  intros cell [<-|[<-|[<-|[<-|[]]]]]; cbn; auto.
Defined.

Lemma standings_columns_kept_witness :
  labels standings_out
  = filter (fun l => match str l with
                     | Ok s => negb (found numberedRe s)
                     | Raise _ => false
                     end) standings_columns /\
  (forall k, 10 <= k < 20 -> ~ In (LInt k) (labels standings_out)) /\
  (forall k, 20 <= k < 100 -> In (LInt k) standings_columns ->
             In (LInt k) (labels standings_out)).
Proof.
  apply (standings_columns_kept standings_columns standings_raw
           (fst (_formatStandingsTable standings_columns standings_raw))
           standings_out).
  reflexivity.
Defined.

Lemma standings_no_spacer_witness :
  forallb (fun c => negb (isnull c)) (vals ranks)
  = true /\
  index standings_out
  = index (fst (_formatStandingsTable standings_columns standings_raw)) /\
  forall c,
    In c (columns standings_out) ->
    In c (columns (fst (_formatStandingsTable standings_columns
                          standings_raw))).
Proof.
  apply (standings_no_spacer standings_columns standings_raw
           (fst (_formatStandingsTable standings_columns standings_raw))
           standings_out ranks);
    reflexivity.
Defined.

Lemma standings_page_no_synthetic_witness :
  _downloadStandingsTable standings_page = Ok [standings_wide_out] /\
  forall k, ~ In (LInt k) (labels standings_wide_out).
Proof.
  split; [reflexivity|].
  apply (standings_page_no_synthetic standings_page [standings_wide_out]
           0 stats_header standings_wide standings_wide_out
           [Td ["RANK"] None; Td ["TEAM"] None; Td ["BATTING"] (Some "2");
            Td [] None; Td ["TOTAL"] None]
           [Td ["R"] None; Td ["HR"] None]
           [LStr "RANK"; LStr "TEAM"; LInt 10; LInt 10; LInt 11;
            LStr "TOTAL"]
           [LStr "R"; LStr "HR"] 12 12);
    try reflexivity.
  lia.
Defined.

Lemma standings_output_aligned_witness :
  aligned standings_out = true /\
  aligned (fst (_formatStandingsTable standings_columns standings_raw))
  = true.
Proof.
  apply (standings_output_aligned standings_columns standings_raw
           (fst (_formatStandingsTable standings_columns standings_raw))
           standings_out);
    reflexivity.
Defined.

Lemma standings_wrong_width_witness :
  _formatStandingsTable [LStr "RANK"] standings_raw
  = (standings_raw, Raise ValueError).
Proof.
  apply (standings_wrong_width [LStr "RANK"] standings_raw). discriminate.
Defined.

Lemma activeStats_one_row_fewer_witness :
  index stats_out = Py.range 2 /\
  index (fst (_formatActiveStatsTable stats_table)) = Py.range 2.
Proof.
  apply (activeStats_one_row_fewer stats_table
           (fst (_formatActiveStatsTable stats_table)) stats_out 2);
    reflexivity.
Defined.

Lemma activeStats_empty_witness :
  _formatActiveStatsTable stats_empty = (stats_empty, Raise ValueError).
Proof.
  apply (activeStats_empty stats_empty). reflexivity.
Defined.

Lemma activeStats_too_narrow_witness :
  exists df',
    _formatActiveStatsTable stats_narrow = (df', Raise IndexError) /\
    index df' = Py.range 1 /\
    labels df' = labels stats_narrow.
Proof.
  apply (activeStats_too_narrow stats_narrow 1); [reflexivity|cbn; lia].
Defined.

Lemma activeStats_output_columns_witness :
  ~ In (LStr "PLAYER, TEAM POS") (labels stats_out) /\
  (forall l, In l (labels stats_out) ->
             exists s, l = LStr s /\ found unnamedRe s = false) /\
  (exists front,
     labels stats_out = front ++ [LStr "PLAYER"; LStr "TEAM"; LStr "POS";
                                  LStr "DTD"] /\
     forall l, In l front -> In l (labels stats_table)) /\
  (exists pos,
     getcol stats_out (LStr "POS") = Ok pos /\
     forall c, In c (vals pos) -> exists x xs, c = Strs (x :: xs)).
Proof.
  apply (activeStats_output_columns stats_table
           (fst (_formatActiveStatsTable stats_table)) stats_out).
  reflexivity.
Defined.

Lemma activeStats_output_aligned_witness :
  aligned stats_out = true /\
  aligned (fst (_formatActiveStatsTable stats_table)) = true.
Proof.
  apply (activeStats_output_aligned stats_table
           (fst (_formatActiveStatsTable stats_table)) stats_out);
    reflexivity.
Defined.

Lemma stats_extraction_raises_witness :
  exists e, activeStats_extract stats_unmatched = Raise e.
Proof.
  apply (stats_extraction_raises stats_unmatched
           (text [Str "Smith NYY OF"; Str jones; Str "TOTALS"]) 0
           (Str "Smith NYY OF")); try reflexivity.
  intros s H. injection H as <-. reflexivity.
Defined.

Lemma download_stats_layout_witness :
  exists out front,
    _downloadActiveStatsTable team_dict (LStr "3") stats_table
    = (fst (_formatActiveStatsTable stats_table), Ok out) /\
    labels stats_out
    = front ++ [LStr "PLAYER"; LStr "TEAM"; LStr "POS"; LStr "DTD"] /\
    labels out = [LStr "MANAGER"; LStr "PLAYER"; LStr "TEAM"; LStr "POS";
                  LStr "DTD"] ++ front /\
    index out = index stats_out /\
    getcol out (LStr "MANAGER") = Ok (broadcast stats_out (Str "TEAM X")).
Proof.
  apply (download_stats_layout team_dict "3" "TEAM X" stats_table
           (fst (_formatActiveStatsTable stats_table)) stats_out);
    reflexivity.
Defined.

Lemma keeper_values_witness :
  _formatAuctionDraftTable auction_block = Ok auction_derived /\
  forall c, In c [NaN; Bool false; Bool true] ->
            c = Bool true \/ c = Bool false \/ c = NaN.
Proof.
  split; [reflexivity|].
  apply (keeper_values auction_block auction_derived
           (text [NaN; Bool false; Bool true]));
    reflexivity.
Defined.

Lemma auction_output_aligned_witness :
  labels auction_out
  = [LStr "MANAGER"; LStr "PLAYER"; LStr "PICK"; LStr "TEAM";
     LStr "POS"; LStr "PRICE"; LStr "KEEPER"] /\
  aligned auction_out = true /\
  aligned (fst (_formatAuctionTable auction_block)) = true.
Proof.
  apply (auction_output_aligned auction_block
           (fst (_formatAuctionTable auction_block)) auction_out);
    reflexivity.
Defined.

Lemma auction_not_rerunnable_witness :
  _formatAuctionTable (fst (_formatAuctionTable auction_block))
  = (fst (_formatAuctionTable auction_block), Raise KeyError).
Proof.
  apply (auction_not_rerunnable auction_block
           (fst (_formatAuctionTable auction_block)) auction_out).
  reflexivity.
Defined.

Lemma add_drop_pair_shape_witness :
  exists a b,
    addDrop_pair (Some (Re.findall addDropStr add_drop_detail))
    = Ok (Some [a; b]) /\
    a = firstn 3 ["Lions"; "PlayerB"; "Waivers";
                  EmptyString; EmptyString; EmptyString] /\
    length a = 3%nat /\
    b = [nth 5 [EmptyString; EmptyString; EmptyString;
                "Lions"; "PlayerA"; "Free Agency"] EmptyString;
         nth 4 [EmptyString; EmptyString; EmptyString;
                "Lions"; "PlayerA"; "Free Agency"] EmptyString] /\
    length b = 2%nat.
Proof.
  apply (add_drop_pair_shape add_drop_detail
           ["Lions"; "PlayerB"; "Waivers";
            EmptyString; EmptyString; EmptyString]
           [EmptyString; EmptyString; EmptyString;
            "Lions"; "PlayerA"; "Free Agency"] []).
  reflexivity.
Defined.

Lemma add_drop_type_is_add_witness :
  Re.match_ addKey add_drop_type <> None /\
  Re.match_ dropKey add_drop_type = None /\
  Re.match_ tradeKey add_drop_type = None.
Proof.
  apply (add_drop_type_is_add add_drop_type). vm_compute. discriminate.
Defined.

Lemma add_drop_row_doubled_witness :
  (2 <= count_occ Z.eq_dec (index swap_out) 0%Z)%nat.
Proof.
  apply (add_drop_row_doubled swap swap_out swap_tds
           (text [Str add_drop_type]) 0 0 add_drop_type);
    try reflexivity.
  vm_compute. discriminate.
Defined.

Lemma transactions_without_family_witness :
  exists out,
    _formatTransactionTable roster_move roster_tds = Ok out /\
    index out = index roster_move /\
    getcol out (LStr "TRANSACTION")
    = Ok {| dt := DObject;
            vals := repeat NaN (length (index roster_move)) |}.
Proof.
  apply (transactions_without_family roster_move roster_tds
           (text [Str "Roster"])); try reflexivity.
  intros c [<-|[]]. exists "Roster". repeat split.
Defined.

Lemma team_dict_keys_witness :
  _getTeamDict team_links team_names = Ok team_dict /\
  forall k v, In (k, v) team_dict ->
              k <> EmptyString /\ string_forall Py.is_digit k = true.
Proof.
  split; [reflexivity|].
  apply (team_dict_keys team_links team_names team_dict). reflexivity.
Defined.

Lemma team_dict_bad_link_witness :
  _getTeamDict (standings_link :: team_links) team_names
  = Raise IndexError.
Proof.
  apply (team_dict_bad_link (standings_link :: team_links) team_names
           standings_link); [left|]; reflexivity.
Defined.

Lemma team_dict_lookup_witness :
  exists d,
    _getTeamDict team_links team_names = Ok d /\
    forall i id name,
      nth_error ["3"; "12"] i = Some id ->
      nth_error team_names i = Some name ->
      dict_get d (LStr id)
      = Ok (str_replace "  " " " (upper (strip name))).
Proof.
  apply (team_dict_lookup team_links team_names ["3"; "12"]);
    try reflexivity.
  apply NoDup_cons; [intros [H|[]]; discriminate|].
  apply NoDup_cons; [intros []|apply NoDup_nil].
Defined.

End MoreRuns.
